(** * ViData: file discovery, configuration verification and npz storage

    A shallow embedding of

    - [vidata/file_manager/file_manager.py]: [FileManager] and
      [FileManagerStacked];
    - [vidata/cli/verify_config.py]: [verify_layer] and [verify_config];
    - [vidata/io/numpy_io.py]: [save_npz] and [load_npz];

    followed by the properties of these functions.  Python exceptions are
    values of [exn]; a fallible computation returns [result A]. *)

From stdpp Require Import base option list strings pretty gmap sorting.
From Stdlib Require Import ZArith NArith Ascii String Lia.

Local Open Scope string_scope.
Local Open Scope list_scope.

(* ===================================================================== *)
(** * Exceptions and fallible computations                                *)
(* ===================================================================== *)

(** The Python exceptions the modelled code can raise. *)
Inductive exn : Type :=
| ValueError
| KeyError
| IndexError
| TypeError
| AttributeError
| OSError
| SystemExit.

Definition result (A : Type) : Type := exn + A.

Definition Ok {A : Type} (a : A) : result A := inr a.
Definition Raise {A : Type} (e : exn) : result A := inl e.

Definition rbind {A B : Type} (m : result A) (k : A -> result B) : result B :=
  match m with
  | inl e => inl e
  | inr a => k a
  end.

Notation "'let*' x ':=' m 'in' k" := (rbind m (fun x => k))
  (at level 10, x name, m at level 100, k at level 200, only parsing).

(** [[f(x) for x in l]] where [f] may raise: the first exception wins. *)
Fixpoint rmap {A B : Type} (f : A -> result B) (l : list A) : result (list B) :=
  match l with
  | [] => Ok []
  | x :: l' => let* y := f x in let* ys := rmap f l' in Ok (y :: ys)
  end.

(* ===================================================================== *)
(** * Python strings                                                      *)
(* ===================================================================== *)

Module Str.

(** [needle in hay]. *)
Fixpoint contains (needle hay : string) : bool :=
  String.prefix needle hay ||
  match hay with
  | EmptyString => false
  | String _ hay' => contains needle hay'
  end.

(** [c in s] for a one-character string [c]. *)
Fixpoint mem_char (c : ascii) (s : string) : bool :=
  match s with
  | EmptyString => false
  | String a s' => Ascii.eqb a c || mem_char c s'
  end.

(** Cut [s] at the last occurrence of [c]: [Some (before, after)], or [None]
    when [c] does not occur ([s.rpartition(c)] without the separator). *)
Fixpoint rcut (c : ascii) (s : string) : option (string * string) :=
  match s with
  | EmptyString => None
  | String a s' =>
      match rcut c s' with
      | Some (h, t) => Some (String a h, t)
      | None => if Ascii.eqb a c then Some (EmptyString, s') else None
      end
  end.

(** [s.rsplit(c, 1)]: one or two pieces. *)
Definition rsplit1 (c : ascii) (s : string) : list string :=
  match rcut c s with
  | Some (h, t) => [h; t]
  | None => [s]
  end.

(** [s.split(c)]. *)
Fixpoint split (c : ascii) (s : string) : list string :=
  match s with
  | EmptyString => [EmptyString]
  | String a s' =>
      if Ascii.eqb a c then EmptyString :: split c s'
      else match split c s' with
           | [] => [String a EmptyString]
           | w :: ws => String a w :: ws
           end
  end.

(** [sep.join(l)]. *)
Fixpoint join (sep : string) (l : list string) : string :=
  match l with
  | [] => EmptyString
  | [x] => x
  | x :: l' => x +:+ sep +:+ join sep l'
  end.

(** [s.replace(old, '')] for a non-empty [old]: scan left to right, dropping
    each non-overlapping occurrence; [skip] counts the characters of the
    occurrence being dropped. *)
Fixpoint delete_all_from (old : string) (skip : nat) (s : string) : string :=
  match s with
  | EmptyString => EmptyString
  | String a s' =>
      match skip with
      | S k => delete_all_from old k s'
      | O =>
          if String.prefix old s
          then delete_all_from old (String.length old - 1) s'
          else String a (delete_all_from old 0 s')
      end
  end.

(** [s.replace(old, '')]; replacing the empty string by itself changes
    nothing. *)
Definition delete_all (old s : string) : string :=
  match old with
  | EmptyString => s
  | _ => delete_all_from old 0 s
  end.

Definition is_digit (a : ascii) : bool :=
  let n := nat_of_ascii a in (48 <=? n)%nat && (n <=? 57)%nat.

Definition digit_val (a : ascii) : N := N.of_nat (nat_of_ascii a - 48).

Fixpoint all_digits (s : string) : bool :=
  match s with
  | EmptyString => true
  | String a s' => is_digit a && all_digits s'
  end.

(** [s.isdigit()] over ASCII: non-empty and digits only. *)
Definition isdigit (s : string) : bool :=
  match s with
  | EmptyString => false
  | _ => all_digits s
  end.

End Str.

(* ===================================================================== *)
(** * pathlib                                                             *)
(* ===================================================================== *)

(** A pure POSIX path: whether it is anchored at [/], and its components.
    [Path(".")] and [Path('')] have no component. *)
Record PurePath : Type := MkPath { anchor : bool; parts : list string }.

Global Instance PurePath_eq_dec : EqDecision PurePath.
Proof. solve_decision. Defined.

Module Path.

(** [Path(s)]: empty and [.] components are dropped. *)
Definition of_str (s : string) : PurePath :=
  MkPath (String.prefix "/" s)
         (filter (fun c => c <> EmptyString /\ c <> ".") (Str.split "/" s)).

(** [str(p)]. *)
Definition to_str (p : PurePath) : string :=
  if anchor p then "/" +:+ Str.join "/" (parts p)
  else match parts p with
       | [] => "."
       | _ => Str.join "/" (parts p)
       end.

(** [p.name]: the last component, or the empty string. *)
Definition name (p : PurePath) : string := List.last (parts p) EmptyString.

(** [p.stem]: the name without its last suffix; a leading or a trailing dot
    does not start a suffix ([0 < i < len(name) - 1] for [i = rfind(".")]). *)
Definition stem (p : PurePath) : string :=
  match Str.rcut "." (name p) with
  | Some (h, t) =>
      if bool_decide (h <> EmptyString /\ t <> EmptyString) then h else name p
  | None => name p
  end.

(** [p.with_name(n)]. *)
Definition with_name (p : PurePath) (n : string) : result PurePath :=
  if bool_decide (name p = EmptyString) then Raise ValueError
  else if bool_decide (n = EmptyString) || Str.mem_char "/" n
          || bool_decide (n = ".")
  then Raise ValueError
  else Ok (MkPath (anchor p) (List.removelast (parts p) ++ [n])).

(** [p / rel] for relative components [rel]. *)
Definition joinpath (p : PurePath) (rel : list string) : PurePath :=
  MkPath (anchor p) (parts p ++ rel).

Fixpoint strip_prefix (pre l : list string) : option (list string) :=
  match pre, l with
  | [], _ => Some l
  | a :: pre', b :: l' => if bool_decide (a = b) then strip_prefix pre' l' else None
  | _ :: _, [] => None
  end.

(** [p.relative_to(other)]. *)
Definition relative_to (p other : PurePath) : result PurePath :=
  if bool_decide (anchor p = anchor other) then
    match strip_prefix (parts other) (parts p) with
    | Some rel => Ok (MkPath false rel)
    | None => Raise ValueError
    end
  else Raise ValueError.

(** The list [p < q] compares: the components of [str(p)] split at [/]. *)
Definition cmp_parts (p : PurePath) : list string :=
  if anchor p then EmptyString :: parts p
  else match parts p with
       | [] => ["."]
       | _ => parts p
       end.

(** [p.suffix]: the last dot of the name and what follows it, unless the
    dot leads or ends the name. *)
Definition suffix (p : PurePath) : string :=
  match Str.rcut "." (name p) with
  | Some (h, t) =>
      if bool_decide (h <> EmptyString /\ t <> EmptyString)
      then String "." t else EmptyString
  | None => EmptyString
  end.

(** [p.with_suffix(suf)]: the name without its suffix, followed by [suf]. *)
Definition with_suffix (p : PurePath) (suf : string) : result PurePath :=
  if Str.mem_char "/" suf then Raise ValueError
  else if (negb (bool_decide (suf = EmptyString)) && negb (String.prefix "." suf))
          || bool_decide (suf = ".")
  then Raise ValueError
  else if bool_decide (name p = EmptyString) then Raise ValueError
  else Ok (MkPath (anchor p) (List.removelast (parts p) ++ [stem p +:+ suf])).

(** [p / q]: an anchored [q] replaces [p]. *)
Definition truediv (p q : PurePath) : PurePath :=
  if anchor q then q else joinpath p (parts q).

End Path.

(** [PathLike = Union[str, Path]]. *)
Inductive PathLike : Type :=
| PStr (s : string)
| PPath (p : PurePath).

(** [Path(x)] for a path-like [x]. *)
Definition as_path (x : PathLike) : PurePath :=
  match x with
  | PStr s => Path.of_str s
  | PPath p => p
  end.

(** [x == '']: a [Path] object never equals a string. *)
Definition is_empty_str (x : PathLike) : bool :=
  match x with
  | PStr s => bool_decide (s = EmptyString)
  | PPath _ => false
  end.

(** [l[i]] for a Python [int] index: negative indices count from the end. *)
Definition py_index {A : Type} (l : list A) (i : Z) : result A :=
  let n := Z.of_nat (List.length l) in
  let j := if (i <? 0)%Z then (n + i)%Z else i in
  if ((0 <=? j)%Z && (j <? n)%Z)%bool
  then match l !! Z.to_nat j with
       | Some x => Ok x
       | None => Raise IndexError
       end
  else Raise IndexError.

(* ===================================================================== *)
(** * natsort and numpy.unique                                            *)
(* ===================================================================== *)

Module natsort.

(** A component of a natural-sort key: a piece of text or an unsigned
    integer. *)
Inductive token : Type :=
| TStr (s : string)
| TNum (n : N).

(** The maximal runs of digits and of non-digits of a string, in order: what
    splitting at the pattern of an unsigned integer leaves once the empty
    pieces are dropped. *)
Fixpoint runs (s : string) : list (bool * string) :=
  match s with
  | EmptyString => []
  | String a s' =>
      let d := Str.is_digit a in
      match runs s' with
      | (d', r) :: rs =>
          if Bool.eqb d d' then (d, String a r) :: rs
          else (d, String a EmptyString) :: (d', r) :: rs
      | [] => [(d, String a EmptyString)]
      end
  end.

(** [int(s)] for a run of digits. *)
Fixpoint int_of_digits (acc : N) (s : string) : N :=
  match s with
  | EmptyString => acc
  | String a s' => int_of_digits (10 * acc + Str.digit_val a) s'
  end.

Definition component (r : bool * string) : token :=
  if r.1 then TNum (int_of_digits 0 r.2) else TStr r.2.

(** The empty string is put between two adjacent numbers ... *)
Fixpoint sep_between (l : list token) : list token :=
  match l with
  | [] => []
  | TNum a :: l' =>
      match l' with
      | TNum _ :: _ => TNum a :: TStr EmptyString :: sep_between l'
      | _ => TNum a :: sep_between l'
      end
  | x :: l' => x :: sep_between l'
  end.

(** ... and in front of a leading number, so that text and numbers
    alternate, text first. *)
Definition sep_inserter (l : list token) : list token :=
  match l with
  | TNum _ :: _ => TStr EmptyString :: sep_between l
  | _ => sep_between l
  end.

(** The key of a string under the default algorithm (unsigned integers). *)
Definition natsort_key (s : string) : list token :=
  sep_inserter (map component (runs s)).

(** Comparison of two components.  Text is compared by code point, numbers
    by value.  Python cannot order a [str] and an [int]; keys alternate, so
    the two mixed cases, ordered here text first, do not arise between keys
    of strings (lemma [natsort_key_cmp_py]). *)
Definition token_cmp (a b : token) : comparison :=
  match a, b with
  | TStr s, TStr t => String.compare s t
  | TNum n, TNum m => N.compare n m
  | TStr _, TNum _ => Lt
  | TNum _, TStr _ => Gt
  end.

(** Comparison of tuples: the first difference decides, a proper prefix is
    smaller. *)
Fixpoint key_cmp (a b : list token) : comparison :=
  match a, b with
  | [], [] => Eq
  | [], _ :: _ => Lt
  | _ :: _, [] => Gt
  | x :: a', y :: b' =>
      match token_cmp x y with
      | Eq => key_cmp a' b'
      | c => c
      end
  end.

Definition key_ltb (a b : list token) : bool :=
  match key_cmp a b with Lt => true | _ => false end.

(** The comparison as Python performs it: [None] stands for the [TypeError]
    of ordering a [str] and an [int]. *)
Definition token_cmp_py (a b : token) : option comparison :=
  match a, b with
  | TStr s, TStr t => Some (String.compare s t)
  | TNum n, TNum m => Some (N.compare n m)
  | _, _ => None
  end.

Fixpoint key_cmp_py (a b : list token) : option comparison :=
  match a, b with
  | [], [] => Some Eq
  | [], _ :: _ => Some Lt
  | _ :: _, [] => Some Gt
  | x :: a', y :: b' =>
      match token_cmp_py x y with
      | Some Eq => key_cmp_py a' b'
      | c => c
      end
  end.

(** Text and numbers alternate in a key; [num] tells whether a number is
    due next. *)
Fixpoint alternates (num : bool) (l : list token) : Prop :=
  match l with
  | [] => True
  | TStr _ :: l' => num = false /\ alternates true l'
  | TNum _ :: l' => num = true /\ alternates false l'
  end.

(** Runs of digits and of other characters alternate, starting with a run
    of kind [d]. *)
Fixpoint runs_alternate (d : bool) (l : list (bool * string)) : Prop :=
  match l with
  | [] => True
  | (d', _) :: l' => d' = d /\ runs_alternate (negb d) l'
  end.

End natsort.

(** Insertion of [x] in front of a sorted list: [x] passes the elements
    strictly below it and stops before the first other one, which keeps
    elements that compare equal in their order of arrival. *)
Fixpoint insert_sorted {A : Type} (ltb : A -> A -> bool) (x : A) (l : list A) : list A :=
  match l with
  | [] => [x]
  | y :: l' => if ltb y x then y :: insert_sorted ltb x l' else x :: y :: l'
  end.

(** [sorted(l)] under the strict order [ltb]: a stable sort. *)
Definition py_sorted {A : Type} (ltb : A -> A -> bool) (l : list A) : list A :=
  foldr (insert_sorted ltb) [] l.

(** [natsorted(l, key=lambda p: p.name)]. *)
Definition name_ltb (p q : PurePath) : bool :=
  natsort.key_ltb (natsort.natsort_key (Path.name p)) (natsort.natsort_key (Path.name q)).

Definition natsorted_by_name (l : list PurePath) : list PurePath :=
  py_sorted name_ltb l.

(** [a < b] on lists of strings. *)
Fixpoint parts_ltb (a b : list string) : bool :=
  match a, b with
  | [], [] => false
  | [], _ :: _ => true
  | _ :: _, [] => false
  | x :: a', y :: b' =>
      match String.compare x y with
      | Lt => true
      | Gt => false
      | Eq => parts_ltb a' b'
      end
  end.

(** [p < q] on paths. *)
Definition path_ltb (p q : PurePath) : bool :=
  parts_ltb (Path.cmp_parts p) (Path.cmp_parts q).

(** [np.unique(l)] on an array of paths: the sorted unique elements. *)
Definition np_unique (l : list PurePath) : list PurePath :=
  py_sorted path_ltb (remove_dups l).

(* ===================================================================== *)
(** * file_manager.py                                                     *)
(* ===================================================================== *)

(** The file system as [Path.glob] and [Path.rglob] see it: for a root, the
    recursive flag and a pattern, the matches as components relative to the
    root, in the order the directory scan yields them, or the exception the
    scan raises. *)
Definition glob_oracle : Type :=
  PurePath -> bool -> string -> result (list (list string)).

Record FileManager : Type := MkFileManager {
  path : PathLike;
  file_type : string;
  pattern : option string;
  include_names : option (list string);
  exclude_names : option (list string);
  recursive : bool;
  files : list PurePath
}.

Definition set_files (self : FileManager) (fs : list PurePath) : FileManager :=
  MkFileManager (path self) (file_type self) (pattern self)
    (include_names self) (exclude_names self) (recursive self) fs.

(** The argument [file: str | int] of [name_from_path]. *)
Inductive file_arg : Type :=
| FStr (s : string)
| FInt (i : Z).

Module FileManager.
Section WithFileSystem.
Variable glob : glob_oracle.

(** [str(_file.relative_to(self.path))]. *)
Definition rel_str (self : FileManager) (f : PurePath) : result string :=
  let* r := Path.relative_to f (as_path (path self)) in Ok (Path.to_str r).

Definition any_in (tokens : list string) (rel : string) : bool :=
  existsb (fun tok => Str.contains tok rel) tokens.

Definition filter_files (self : FileManager) : result FileManager :=
  let* self1 :=
    match include_names self with
    | Some inc =>
        let* rels := rmap (rel_str self) (files self) in
        Ok (set_files self
              (map fst (List.filter (fun fr => any_in inc fr.2)
                                    (combine (files self) rels))))
    | None => Ok self
    end in
  match exclude_names self1 with
  | Some exc =>
      let* rels := rmap (rel_str self1) (files self1) in
      Ok (set_files self1
            (map fst (List.filter (fun fr => negb (any_in exc fr.2))
                                  (combine (files self1) rels))))
  | None => Ok self1
  end.

(** The glob pattern [pattern + self.file_type] of [collect_files]. *)
Definition glob_pattern (self : FileManager) : string :=
  let pat :=
    match pattern self with
    | None => "*"
    | Some p => if Str.mem_char "*" p then p else "*" +:+ p
    end in
  pat +:+ file_type self.

Definition collect_files (self : FileManager) : result FileManager :=
  if bool_decide (file_type self = EmptyString) || is_empty_str (path self)
  then Ok (set_files self [])
  else
    let root := as_path (path self) in
    let* found := glob root (recursive self) (glob_pattern self) in
    Ok (set_files self (natsorted_by_name (map (Path.joinpath root) found))).

(** [FileManager(path, file_type, pattern, include_names, exclude_names,
    recursive)], for the [collect_files] of the class constructed. *)
Definition init (collect : FileManager -> result FileManager)
    (path : PathLike) (file_type : string) (pattern : option string)
    (include_names exclude_names : option (list string)) (recursive : bool)
  : result FileManager :=
  let self := MkFileManager path file_type pattern include_names exclude_names
                recursive [] in
  let* self := collect self in
  filter_files self.

Definition name_from_path (self : FileManager) (file : file_arg)
    (include_ext : bool) : result string :=
  let* file :=
    match file with
    | FInt i => let* p := py_index (files self) i in Ok (Path.to_str p)
    | FStr s => Ok s
    end in
  let* rel := Path.relative_to (Path.of_str file) (as_path (path self)) in
  let name := Path.to_str rel in
  Ok (if include_ext then name else Str.delete_all (file_type self) name).

(** Kept for backwards compatibility. *)
Definition get_name (self : FileManager) (file : file_arg)
    (with_file_type : bool) : result string :=
  name_from_path self file with_file_type.

(** [Path.resolve()] as the file system decides it: the absolute path with
    symbolic links followed, or the exception of a link loop. *)
Variable resolve : PurePath -> result PurePath.

Definition path_from_name (self : FileManager) (name : PathLike)
    (include_ext : bool) : result PurePath :=
  let rel := as_path name in
  let* rel :=
    if include_ext && negb (bool_decide (Path.suffix rel = file_type self))
    then Path.with_suffix rel (file_type self)
    else Ok rel in
  resolve (Path.truediv (as_path (path self)) rel).

(** [self[item]]. *)
Definition getitem (self : FileManager) (item : Z) : result PurePath :=
  py_index (files self) item.

(** [len(self)]. *)
Definition len (self : FileManager) : nat := List.length (files self).

End WithFileSystem.
End FileManager.

Module FileManagerStacked.
Section WithFileSystem.
Variable glob : glob_oracle.

(** [file.with_name(file.stem.rsplit("_", 1)[0])]. *)
Definition collapse (file : PurePath) : result PurePath :=
  match Str.rsplit1 "_" (Path.stem file) with
  | s :: _ => Path.with_name file s
  | [] => Raise IndexError
  end.

Definition collect_files (self : FileManager) : result FileManager :=
  let* self := FileManager.collect_files glob self in
  match files self with
  | [] => Ok self
  | _ :: _ =>
      let* fs := rmap collapse (files self) in
      Ok (set_files self (natsorted_by_name (np_unique fs)))
  end.

End WithFileSystem.
End FileManagerStacked.

(* ===================================================================== *)
(** * A flat directory as a file system                                   *)
(* ===================================================================== *)

(** A concrete [glob_oracle] for the examples: directories without
    sub-directories, each given by the string of its path and the names of
    its files in scan order.  A directory that is not listed does not exist
    and yields no match; with no sub-directory, [rglob] finds what [glob]
    finds. *)
Module FlatFS.

(** [fnmatch] restricted to literal characters, [?] and [*]. *)
Fixpoint wild_match (p s : string) : bool :=
  match p with
  | EmptyString => bool_decide (s = EmptyString)
  | String c p' =>
      if Ascii.eqb c "*" then
        (fix star (s : string) : bool :=
           wild_match p' s ||
           match s with
           | EmptyString => false
           | String _ s' => star s'
           end) s
      else
        match s with
        | EmptyString => false
        | String d s' =>
            (Ascii.eqb c "?" || Ascii.eqb c d) && wild_match p' s'
        end
  end.

Definition listing : Type := list (string * list string).

Fixpoint entries (fs : listing) (dir : string) : list string :=
  match fs with
  | [] => []
  | (d, names) :: fs' => if bool_decide (d = dir) then names else entries fs' dir
  end.

Definition glob (fs : listing) : glob_oracle :=
  fun root _ pat =>
    Ok (map (fun n => [n]) (List.filter (wild_match pat) (entries fs (Path.to_str root)))).

End FlatFS.

(* ===================================================================== *)
(** * Configuration values                                                *)
(* ===================================================================== *)

(** What a YAML or JSON document holds.  A mapping keeps its keys in
    insertion order; a float is kept by its text. *)
#[warnings="-register-all"]
Inductive value : Type :=
| VNone
| VBool (b : bool)
| VInt (z : Z)
| VFloat (repr : string)
| VStr (s : string)
| VList (l : list value)
| VDict (d : list (string * value)).

Abbreviation dict := (list (string * value)).

Fixpoint value_eqb (a b : value) : bool :=
  match a, b with
  | VNone, VNone => true
  | VBool x, VBool y => Bool.eqb x y
  | VInt x, VInt y => Z.eqb x y
  | VFloat x, VFloat y => String.eqb x y
  | VStr x, VStr y => String.eqb x y
  | VList x, VList y =>
      (fix go (x y : list value) : bool :=
         match x, y with
         | [], [] => true
         | a :: x', b :: y' => value_eqb a b && go x' y'
         | _, _ => false
         end) x y
  | VDict x, VDict y =>
      (fix go (x y : dict) : bool :=
         match x, y with
         | [], [] => true
         | (k, a) :: x', (k', b) :: y' =>
             String.eqb k k' && value_eqb a b && go x' y'
         | _, _ => false
         end) x y
  | _, _ => false
  end.

Module Dict.

Fixpoint lookup (d : dict) (k : string) : option value :=
  match d with
  | [] => None
  | (k', v) :: d' => if String.eqb k' k then Some v else lookup d' k
  end.

(** [k in d]. *)
Definition mem (k : string) (d : dict) : bool :=
  match lookup d k with Some _ => true | None => false end.

(** [d.get(k, default)]. *)
Definition get_default (d : dict) (k : string) (default : value) : value :=
  match lookup d k with Some v => v | None => default end.

(** [d.get(k)]. *)
Definition get (d : dict) (k : string) : value := get_default d k VNone.

(** [d[k]]. *)
Definition getitem (d : dict) (k : string) : result value :=
  match lookup d k with Some v => Ok v | None => Raise KeyError end.

(** [d.k] on a configuration node. *)
Definition attr (d : dict) (k : string) : result value :=
  match lookup d k with Some v => Ok v | None => Raise AttributeError end.

(** [d[k] = v]: an existing key keeps its place. *)
Fixpoint set (d : dict) (k : string) (v : value) : dict :=
  match d with
  | [] => [(k, v)]
  | (k', v') :: d' => if String.eqb k' k then (k, v) :: d' else (k', v') :: set d' k v
  end.

(** [d.update(other)]. *)
Definition update (d other : dict) : dict :=
  fold_left (fun acc kv => set acc kv.1 kv.2) other d.

End Dict.

Definition is_str (v : value) : bool :=
  match v with VStr _ => true | _ => false end.

(** [isinstance(v, int)]: [bool] is a subclass of [int]. *)
Definition is_int (v : value) : bool :=
  match v with VInt _ | VBool _ => true | _ => false end.

(** [v == '']. *)
Definition is_empty_string (v : value) : bool :=
  match v with VStr s => bool_decide (s = EmptyString) | _ => false end.

(** [v in types] for a list of strings. *)
Definition in_types (v : value) (types : list string) : bool :=
  match v with VStr s => bool_decide (s ∈ types) | _ => false end.

(** [v == {}]. *)
Definition is_empty_dict (v : value) : bool :=
  match v with VDict [] => true | _ => false end.

(* ===================================================================== *)
(** * verify_config.py                                                    *)
(* ===================================================================== *)

Definition _IMAGE_TYPES : list string := ["Image"].
Definition _LABEL_TYPES : list string := ["Labels"; "SemSeg"; "MultiLabel"].
Definition _VALID_SPLITS : list string := ["train"; "val"; "test"].

(** The messages [verify_layer] collects, one constructor per message, with
    the values the message prints. *)
Inductive LayerError : Type :=
| MissingField (req : string) (name : value)
| NameNotString (name : value)
| PathNotString (path : value)
| FileTypeNotString (file_type : value)
| ChannelsNotInt (channels : value)
| ClassesNotInt (classes : value)
| UnknownType (type name : value)
| PatternNotString (pattern : value).

(** [for req in reqs: if req not in layer_cfg: errs.append(...)]. *)
Definition missing (layer_cfg : dict) (reqs : list string) : list LayerError :=
  flat_map (fun req => if Dict.mem req layer_cfg then []
                       else [MissingField req (Dict.get layer_cfg "name")]) reqs.

Definition verify_layer (layer_cfg : dict) : result (bool * list LayerError) :=
  let req_all := ["name"; "type"; "path"; "file_type"] in
  let req_img := ["channels"] in
  let req_lbl := ["classes"] in
  let get := Dict.get layer_cfg in
  let errs := missing layer_cfg req_all in
  let errs :=
    if negb (is_str (get "name")) || is_empty_string (get "name")
    then errs ++ [NameNotString (get "name")] else errs in
  let errs :=
    if negb (is_str (get "path"))
    then errs ++ [PathNotString (get "path")] else errs in
  let errs :=
    if negb (is_str (get "file_type")) || is_empty_string (get "file_type")
    then errs ++ [FileTypeNotString (get "file_type")] else errs in
  let* errs :=
    if in_types (get "type") _IMAGE_TYPES then
      let errs := errs ++ missing layer_cfg req_img in
      Ok (if negb (is_int (get "channels"))
          then errs ++ [ChannelsNotInt (get "channels")] else errs)
    else if in_types (get "type") _LABEL_TYPES then
      Ok (errs ++
          flat_map (fun req =>
                      missing layer_cfg [req] ++
                      (if negb (is_int (get "classes"))
                       then [ClassesNotInt (get "classes")] else []))
                   req_lbl)
    else
      let* ty := Dict.getitem layer_cfg "type" in
      Ok (errs ++ [UnknownType ty (get "name")]) in
  let errs :=
    if Dict.mem "pattern" layer_cfg
       && negb (match get "pattern" with VNone => true | _ => false end)
       && negb (is_str (get "pattern"))
    then errs ++ [PatternNotString (get "pattern")] else errs in
  Ok (match errs with [] => true | _ => false end, errs).

(** [apply_split_layer(layer, target_split, split_cfg)]: the override of
    [layer] for [target_split], looked up in the split section of the
    dataset configuration. *)
Definition apply_split_layer (layer : dict) (target_split : string)
    (split_cfg : dict) : result (option dict) :=
  match Dict.get_default split_cfg target_split (VDict []) with
  | VDict per_layer =>
      let* name := Dict.attr layer "name" in
      match name with
      | VStr name =>
          match Dict.lookup per_layer name with
          | None | Some VNone => Ok None
          | Some (VDict _cfg) => Ok (Some (Dict.update layer _cfg))
          | Some _ => Raise AttributeError
          end
      | _ => Ok None
      end
  | _ => Raise AttributeError
  end.

(** The lines [verify_config] prints. *)
Inductive event : Type :=
| EvVerifyLayer (name : value)
| EvLayerValid (name : value)
| EvLayerFiles (name : value) (n : nat)
| EvLayerInvalid (name : value)
| EvLayerError (e : LayerError)
| EvVerifySplitsFold (fold : nat)
| EvVerifySplits
| EvNoExplicitSplit (split : string) (name : value)
| EvSplitFiles (split : string) (name : value) (n : nat).

(** A computation that prints: the lines printed, then its outcome.  What
    was printed before an exception stays printed. *)
Definition io (A : Type) : Type := list event * result A.

Definition io_bind {A B : Type} (m : io A) (k : A -> io B) : io B :=
  match m with
  | (out, inl e) => (out, inl e)
  | (out, inr a) => let (out', r) := k a in (out ++ out', r)
  end.

Definition print (e : event) : io unit := ([e], Ok tt).
Definition lift {A : Type} (r : result A) : io A := ([], r).

Notation "'do*' x ':=' m 'in' k" := (io_bind m (fun x => k))
  (at level 10, x name, m at level 100, k at level 200, only parsing).
Notation "m ';;*' k" := (io_bind m (fun _ => k))
  (at level 100, k at level 200, right associativity, only parsing).

(** [for x in l: body(x)]. *)
Fixpoint for_each {A : Type} (l : list A) (body : A -> io unit) : io unit :=
  match l with
  | [] => lift (Ok tt)
  | x :: l' => body x ;;* for_each l' body
  end.

(** The keyword arguments of a call to [build_file_manager]; [None] marks
    an argument the call leaves out. *)
Record bfm_args : Type := MkArgs {
  arg_path : value;
  arg_file_type : value;
  arg_pattern : value;
  arg_file_stack : value;
  arg_split : option string;
  arg_splits_file : option value;
  arg_splits_index : option nat
}.

Section VerifyConfig.

(** [vidata.workflows.build_file_manager] and [vidata.io.load_json] are
    taken as given. *)
Variable build_file_manager : bfm_args -> result FileManager.
Variable load_json : value -> result value.

Definition as_dict (v : value) : result dict :=
  match v with VDict d => Ok d | _ => Raise AttributeError end.

Definition as_list (v : value) : result (list value) :=
  match v with VList l => Ok l | _ => Raise TypeError end.

(** The first loop of [verify_config], for one layer; returns the entry
    added to [layer_is_valid]. *)
Definition verify_config_layer (layer : dict) : io (value * bool) :=
  print (EvVerifyLayer (Dict.get layer "name")) ;;*
  do* verdict := lift (verify_layer layer) in
  let (is_valid, errs) := verdict in
  do* name := lift (Dict.attr layer "name") in
  (if is_valid then
     print (EvLayerValid name) ;;*
     do* p := lift (Dict.attr layer "path") in
     do* ft := lift (Dict.attr layer "file_type") in
     do* fm := lift (build_file_manager
                       (MkArgs p ft (Dict.get_default layer "pattern" VNone)
                          (Dict.get_default layer "file_stack" (VBool false))
                          None None None)) in
     print (EvLayerFiles name (List.length (files fm)))
   else
     print (EvLayerInvalid name) ;;*
     for_each errs (fun err => print (EvLayerError err))) ;;*
  lift (Ok (name, is_valid)).

(** [layer_is_valid[name]]. *)
Fixpoint valid_lookup (layer_is_valid : list (value * bool)) (name : value)
  : result bool :=
  match layer_is_valid with
  | [] => Raise KeyError
  | (k, b) :: rest => if value_eqb k name then Ok b else valid_lookup rest name
  end.

(** [layer_is_valid[name] = is_valid]. *)
Fixpoint valid_set (layer_is_valid : list (value * bool)) (name : value)
    (is_valid : bool) : list (value * bool) :=
  match layer_is_valid with
  | [] => [(name, is_valid)]
  | (k, b) :: rest =>
      if value_eqb k name then (k, is_valid) :: rest
      else (k, b) :: valid_set rest name is_valid
  end.

(** Lines 105 to 113: the folds of the split file, and their number. *)
Definition load_splits (split_file : value) : result (option (list value) * nat) :=
  match split_file with
  | VNone => Ok (None, 1)
  | _ =>
      let* _splits := load_json split_file in
      let _splits := match _splits with VList l => l | other => [other] end in
      Ok (Some _splits, List.length _splits)
  end.

(** [valid_split not in fold_splits]. *)
Definition split_not_in (valid_split : string) (fold_splits : value) : result bool :=
  match fold_splits with
  | VDict d => Ok (negb (Dict.mem valid_split d))
  | VList l => Ok (negb (existsb (value_eqb (VStr valid_split)) l))
  | VStr s => Ok (negb (Str.contains valid_split s))
  | _ => Raise TypeError
  end.

(** [_splits[fold]] for a fold counted from zero. *)
Definition fold_splits (_splits : list value) (fold : nat) : result value :=
  match _splits !! fold with
  | Some v => Ok v
  | None => Raise IndexError
  end.

(** Lines 125 to 145: the body of the innermost loop, for a layer that
    passed [verify_layer]. *)
Definition verify_split_layer (split_file : value)
    (_splits : option (list value)) (fold : nat) (valid_split : string)
    (layer : dict) : io unit :=
  do* name := lift (Dict.attr layer "name") in
  do* key := lift (match name with VStr s => Ok s | _ => Raise TypeError end) in
  do* per_layer := lift (as_dict (Dict.get_default layer valid_split (VDict []))) in
  let split_dict := Dict.get_default per_layer key (VDict []) in
  do* layer_split :=
    lift (match split_dict with
          | VDict o => Ok (Dict.update layer o)
          | _ => Raise TypeError
          end) in
  do* skip :=
    lift (if is_empty_dict split_dict then
            match _splits with
            | None => Ok true
            | Some folds =>
                let* here := fold_splits folds fold in
                split_not_in valid_split here
            end
          else Ok false) in
  if (skip : bool) then print (EvNoExplicitSplit valid_split name)
  else
    do* p := lift (Dict.attr layer_split "path") in
    do* ft := lift (Dict.attr layer_split "file_type") in
    do* fm := lift (build_file_manager
                      (MkArgs p ft (Dict.get_default layer_split "pattern" VNone)
                         (Dict.get_default layer_split "file_stack" (VBool false))
                         (Some valid_split) (Some split_file) (Some fold))) in
    print (EvSplitFiles valid_split name (List.length (files fm))).

(** Lines 115 to 145. *)
Definition verify_splits (layers : list dict)
    (layer_is_valid : list (value * bool)) (split_file : value)
    (_splits : option (list value)) (folds : nat) : io unit :=
  for_each (seq 0 folds) (fun fold =>
    (if (1 <? folds)%nat then print (EvVerifySplitsFold fold)
     else print EvVerifySplits) ;;*
    for_each _VALID_SPLITS (fun valid_split =>
      for_each layers (fun layer =>
        do* name := lift (Dict.attr layer "name") in
        do* ok := lift (valid_lookup layer_is_valid name) in
        if (ok : bool)
        then verify_split_layer split_file _splits fold valid_split layer
        else lift (Ok tt)))).

Fixpoint verify_layers (layers : list dict) (layer_is_valid : list (value * bool))
  : io (list (value * bool)) :=
  match layers with
  | [] => lift (Ok layer_is_valid)
  | layer :: rest =>
      do* entry := verify_config_layer layer in
      verify_layers rest (valid_set layer_is_valid entry.1 entry.2)
  end.

Definition verify_config (cfg : dict) : io unit :=
  do* layers := lift (let* ls := Dict.attr cfg "layers" in
                      let* ls := as_list ls in
                      rmap as_dict ls) in
  do* layer_is_valid := verify_layers layers [] in
  if negb (Dict.mem "split" cfg) then lift (Raise SystemExit)
  else
    do* split := lift (let* s := Dict.attr cfg "split" in as_dict s) in
    let split_file := Dict.get_default split "split_file" VNone in
    do* loaded := lift (load_splits split_file) in
    let (_splits, folds) := loaded in
    verify_splits layers layer_is_valid split_file _splits folds.

End VerifyConfig.

(** [for x in v]: the elements of a list, the keys of a mapping, the
    characters of a string. *)
Definition iterate (v : value) : result (list value) :=
  match v with
  | VList l => Ok l
  | VDict d => Ok (map (fun kv : string * value => VStr kv.1) d)
  | VStr s =>
      Ok (map (fun c => VStr (String c EmptyString)) (list_ascii_of_string s))
  | _ => Raise TypeError
  end.

(** The loop of [apply_split]: [layers.extend(layer_split)] fails on [None]
    and, given a mapping, appends its keys. *)
Fixpoint apply_split_loop (split_cfg : value) (split : string)
    (todo layers : list value) : result (list value) :=
  match todo with
  | [] => Ok layers
  | layer :: rest =>
      let* split_cfg' := as_dict split_cfg in
      let* layer := as_dict layer in
      let* layer_split := apply_split_layer layer split split_cfg' in
      match layer_split with
      | None => Raise TypeError
      | Some d =>
          apply_split_loop split_cfg split rest
            (layers ++ map (fun kv : string * value => VStr kv.1) d)
      end
  end.

(** [apply_split(cfg, split)]. *)
Definition apply_split (cfg : dict) (split : string) : result dict :=
  let* cfg_layers := Dict.attr cfg "layers" in
  let* todo := iterate cfg_layers in
  let* layers :=
    apply_split_loop (Dict.get_default cfg "split" (VDict [])) split todo [] in
  Ok (Dict.set cfg "layers" (VList layers)).

(* ===================================================================== *)
(** * numpy_io.py                                                         *)
(* ===================================================================== *)

(** NumPy's [.npz] archives, as of NumPy 2.1.  Arrays are kept abstract, but for
    two things NumPy asks of them: whether an array holds Python objects,
    which are written as pickles, and the truth value of an array used as a
    flag, which an array of several elements does not have.  An archive maps
    member names to arrays, and the disk maps file names to archives. *)
Module np.
Section Arrays.
Variable ndarray : Type.
Variable has_object_dtype : ndarray -> bool.
Variable truth_value : ndarray -> option bool.

Record npz : Type := MkNpz { compressed : bool; members : gmap string ndarray }.

Fixpoint ends_with_rev (suffix s : list ascii) : bool :=
  match suffix, s with
  | [], _ => true
  | a :: suffix', b :: s' => Ascii.eqb a b && ends_with_rev suffix' s'
  | _ :: _, [] => false
  end.

(** [s.endswith(suffix)]. *)
Definition endswith (s suffix : string) : bool :=
  ends_with_rev (rev (list_ascii_of_string suffix)) (rev (list_ascii_of_string s)).

(** The file written for [file]: [.npz] is appended unless already there. *)
Definition npz_name (file : string) : string :=
  if endswith file ".npz" then file else file +:+ ".npz".

(** Positional arrays are named [arr_0], [arr_1], ...; a keyword argument of
    that name is refused. *)
Fixpoint name_args (i : nat) (args : list ndarray) (namedict : gmap string ndarray)
  : result (gmap string ndarray) :=
  match args with
  | [] => Ok namedict
  | val :: args' =>
      let key := "arr_" +:+ pretty i in
      match namedict !! key with
      | Some _ => Raise ValueError
      | None => name_args (S i) args' (<[key := val]> namedict)
      end
  end.

(** The keywords of a call [savez(file, **kwargs)] against the signature
    [savez(file, *args, allow_pickle=True, **kwds)]: the file is given by
    position, so that a key [file] is a second value for it; a key
    [allow_pickle] is the flag and not an array to store; the other keys are
    the arrays. *)
Definition bind_keywords (kwargs : gmap string ndarray)
  : result (option ndarray * gmap string ndarray) :=
  match kwargs !! "file" with
  | Some _ => Raise TypeError
  | None => Ok (kwargs !! "allow_pickle", delete "allow_pickle" kwargs)
  end.

(** Writing one array: an array of objects needs pickles to be allowed, which
    they are unless the flag was given and is not true. *)
Definition may_write (allow_pickle : option ndarray) (val : ndarray) : bool :=
  if has_object_dtype val then
    match allow_pickle with
    | None => true
    | Some flag =>
        match truth_value flag with
        | Some t => t
        | None => false
        end
    end
  else true.

(** The archive is stored when every array could be written; of a refused
    write only the exception is kept. *)
Definition _savez (fs : gmap string npz) (file : string) (args : list ndarray)
    (kwds : gmap string ndarray) (compress : bool)
    (allow_pickle : option ndarray) : result (gmap string npz) :=
  let* namedict := name_args 0 args kwds in
  if forallb (fun kv : string * ndarray => may_write allow_pickle kv.2)
       (map_to_list namedict)
  then Ok (<[npz_name file := MkNpz compress namedict]> fs)
  else Raise ValueError.

(** [np.savez(file, *args, **kwargs)]. *)
Definition savez (fs : gmap string npz) (file : string) (args : list ndarray)
    (kwargs : gmap string ndarray) : result (gmap string npz) :=
  let* bound := bind_keywords kwargs in
  _savez fs file args bound.2 false bound.1.

(** [np.savez_compressed(file, *args, **kwargs)]. *)
Definition savez_compressed (fs : gmap string npz) (file : string)
    (args : list ndarray) (kwargs : gmap string ndarray)
  : result (gmap string npz) :=
  let* bound := bind_keywords kwargs in
  _savez fs file args bound.2 true bound.1.

(** [np.load(path)] on an archive: the archive, opened with pickles not
    allowed. *)
Definition load (fs : gmap string npz) (path : string) : result npz :=
  match fs !! path with
  | Some z => Ok z
  | None => Raise OSError
  end.

(** [data.files]: the names of the members. *)
Definition files_of (data : npz) : list string := (map_to_list (members data)).*1.

(** [data[key]] for an archive opened by [np.load(path)]: an array of
    objects is refused. *)
Definition getitem (data : npz) (key : string) : result ndarray :=
  match members data !! key with
  | None => Raise KeyError
  | Some val => if has_object_dtype val then Raise ValueError else Ok val
  end.

End Arrays.
End np.

Section NumpyIO.
Variable ndarray : Type.
Variable has_object_dtype : ndarray -> bool.
Variable truth_value : ndarray -> option bool.

(** The first argument of [save_npz]: a dictionary of arrays, or an
    array. *)
Inductive npz_data : Type :=
| DataDict (d : gmap string ndarray)
| DataArray (a : ndarray).

(** [load_npz(path)]: the arrays by key, and an empty metadata
    dictionary. *)
Definition load_npz (fs : gmap string (np.npz ndarray)) (path : string)
  : result (gmap string ndarray * dict) :=
  let* data := np.load ndarray fs path in
  let* items :=
    rmap (fun key => let* val := np.getitem ndarray has_object_dtype data key in
                     Ok (key, val))
         (np.files_of ndarray data) in
  Ok (list_to_map items, []).

(** [save_npz(data_dict, path, compress)]; returns the disk after the
    write. *)
Definition save_npz (fs : gmap string (np.npz ndarray)) (data_dict : npz_data)
    (path : string) (compress : bool) : result (gmap string (np.npz ndarray)) :=
  if compress then
    match data_dict with
    | DataDict d =>
        np.savez_compressed ndarray has_object_dtype truth_value fs path [] d
    | DataArray a =>
        np.savez_compressed ndarray has_object_dtype truth_value fs path [a] ∅
    end
  else
    match data_dict with
    | DataDict d => np.savez ndarray has_object_dtype truth_value fs path [] d
    | DataArray a => np.savez ndarray has_object_dtype truth_value fs path [a] ∅
    end.

End NumpyIO.

Arguments DataDict {ndarray} d.
Arguments DataArray {ndarray} a.
Arguments load_npz {ndarray} has_object_dtype fs path.
Arguments save_npz {ndarray} has_object_dtype truth_value fs data_dict path compress.

(** [.npy] files: the disk maps file names to arrays.  An array of Python
    objects is written pickled, and is read back only when pickles are
    allowed. *)
Section NpyIO.
Variable ndarray : Type.
Variable has_object_dtype : ndarray -> bool.

(** The file [np.save] writes for [file]: [.npy] is appended unless already
    there. *)
Definition npy_name (file : string) : string :=
  if np.endswith file ".npy" then file else file +:+ ".npy".

(** [np.save(file, arr)]. *)
Definition np_save (fs : gmap string ndarray) (file : string) (arr : ndarray)
  : gmap string ndarray :=
  <[npy_name file := arr]> fs.

(** [np.load(path, allow_pickle=...)] on a [.npy] file. *)
Definition np_load (fs : gmap string ndarray) (path : string)
    (allow_pickle : bool) : result ndarray :=
  match fs !! path with
  | None => Raise OSError
  | Some arr =>
      if has_object_dtype arr && negb allow_pickle then Raise ValueError
      else Ok arr
  end.

(** [load_npy(path)]: the array and an empty metadata dictionary. *)
Definition load_npy (fs : gmap string ndarray) (path : string)
  : result (ndarray * dict) :=
  let* arr := np_load fs path false in
  Ok (arr, []).

(** [save_npy(array, path)]; returns the disk after the write. *)
Definition save_npy (fs : gmap string ndarray) (array : ndarray) (path : string)
  : gmap string ndarray :=
  np_save fs path array.

End NpyIO.

Arguments load_npy {ndarray} has_object_dtype fs path.
Arguments save_npy {ndarray} fs array path.

(* ===================================================================== *)
(** * Vocabulary of the properties                                        *)
(* ===================================================================== *)

(** [tok] occurs in [s]. *)
Definition is_substring (tok s : string) : Prop :=
  exists a b : string, s = a +:+ tok +:+ b.

(** Natural order of two strings: not greater, by natural-sort key. *)
Definition natural_le (s t : string) : Prop :=
  natsort.key_cmp (natsort.natsort_key s) (natsort.natsort_key t) <> Gt.

Definition name_natural_le (p q : PurePath) : Prop :=
  natural_le (Path.name p) (Path.name q).

(** The string of [f] relative to [root]; empty when [f] is not under
    [root]. *)
Definition rel_string (root f : PurePath) : string :=
  match Path.relative_to f root with
  | inr r => Path.to_str r
  | inl _ => EmptyString
  end.

(** The post-filter in the words of its description: a relative path is
    kept when (include is absent or the path contains one of its substrings)
    and (exclude is absent or the path contains none of its substrings). *)
Definition kept (include exclude : option (list string)) (rel : string) : bool :=
  match include with
  | None => true
  | Some inc => existsb (fun tok => Str.contains tok rel) inc
  end &&
  match exclude with
  | None => true
  | Some exc => negb (existsb (fun tok => Str.contains tok rel) exc)
  end.

(** A stem cut at its last underscore: the part before it, or the whole
    stem when it has no underscore. *)
Definition cut_stem (s : string) : string :=
  match Str.rcut "_" s with
  | Some (h, _) => h
  | None => s
  end.

(** What [with_name] accepts. *)
Definition valid_name (n : string) : Prop :=
  n <> EmptyString /\ n <> "." /\ Str.mem_char "/" n = false.

(** The entry a file of a stack collapses to. *)
Definition stack_entry (f : PurePath) : PurePath :=
  MkPath (anchor f) (List.removelast (parts f) ++ [cut_stem (Path.stem f)]).

(** A string without the wildcards [*] and [?]. *)
Definition literal (s : string) : Prop :=
  Str.mem_char "*" s = false /\ Str.mem_char "?" s = false.

(** [f] lies under [root]: it is [root] joined with relative components, as
    every path a glob of [root] yields. *)
Definition under (root f : PurePath) : Prop :=
  exists rel : list string, f = Path.joinpath root rel.

(** Directories of the examples. *)
Definition split_dir : FlatFS.listing :=
  [("/data", ["x_train.ext"; "x_val.ext"])].

Definition numbered_dir : FlatFS.listing :=
  [("/data", ["a_10.ext"; "a_2.ext"; "notes.txt"])].

Definition stack_dir : FlatFS.listing :=
  [("/data", ["sample1_0001.ext"; "sample1_0000.ext"; "sample10_0000.ext";
              "sample2_0000.ext"; "plain.ext"; "scan_final.ext"])].

(** Layer configurations of the examples: a layer without [type]; a valid
    image layer; and a valid image layer that itself holds a key [val]. *)
Definition layer_without_type : dict :=
  [("name", VStr "img"); ("path", VStr "/data"); ("file_type", VStr ".png")].

Definition image_layer : dict :=
  [("name", VStr "img"); ("type", VStr "Image"); ("path", VStr "/data");
   ("file_type", VStr ".png"); ("channels", VInt 3)].

Definition layer_with_split_key : dict :=
  image_layer ++ [("val", VDict [("img", VDict [("path", VStr "/data/val")])])].

(** A dataset configuration with that layer and an empty split section. *)
Definition cfg_with_split_key : dict :=
  [("layers", VList [VDict layer_with_split_key]); ("split", VDict [])].

(** A dataset configuration whose split section overrides the pattern of
    the image layer for [val]. *)
Definition val_override : dict :=
  [("val", VDict [("img", VDict [("pattern", VStr "val_*")])])].

Definition cfg_with_override : dict :=
  [("layers", VList [VDict image_layer]); ("split", VDict val_override)].

(** A [build_file_manager] that finds two files whatever it is asked. *)
Definition two_files_manager : bfm_args -> result FileManager :=
  fun _ => Ok (MkFileManager (PStr "/data/val") ".png" None None None false
                 [MkPath true ["data"; "val"; "a_1.png"];
                  MkPath true ["data"; "val"; "a_2.png"]]).

(** A split file that holds one mapping, not a list. *)
Definition one_mapping : value :=
  VDict [("train", VList [VStr "_0"; VStr "_2"]); ("val", VList [VStr "_1"])].

Definition load_one_mapping : value -> result value :=
  fun _ => Ok one_mapping.

(** A component as a directory entry can be named: not empty, not [.],
    without [/]; and a path made of such components. *)
Definition wf_part (c : string) : Prop :=
  c <> EmptyString /\ c <> "." /\ Str.mem_char "/" c = false.

Definition wf_path (p : PurePath) : Prop := Forall wf_part (parts p).

(** [ext] occurs in [s +:+ ext] at its end only. *)
Definition only_at_end (ext s : string) : Prop :=
  forall a b : string, s +:+ ext = a +:+ ext +:+ b -> b = EmptyString.

(** A directory with a file whose stem starts with its only underscore. *)
Definition underscore_dir : FlatFS.listing :=
  [("/data", ["sample_0000.ext"; "_0000.ext"])].

(** The name of [p] has the natural-sort key [k]. *)
Definition has_key (k : list natsort.token) (p : PurePath) : bool :=
  match natsort.key_cmp (natsort.natsort_key (Path.name p)) k with
  | Eq => true
  | _ => false
  end.

(** The lines of the first loop of [verify_config]. *)
Definition is_layer_event (e : event) : bool :=
  match e with
  | EvVerifyLayer _ | EvLayerValid _ | EvLayerFiles _ _
  | EvLayerInvalid _ | EvLayerError _ => true
  | _ => false
  end.

(** What makes a layer configuration valid, field by field. *)
Definition well_formed_layer (layer_cfg : dict) : Prop :=
  (exists name, Dict.lookup layer_cfg "name" = Some (VStr name) /\
                name <> EmptyString) /\
  (exists path, Dict.lookup layer_cfg "path" = Some (VStr path)) /\
  (exists ft, Dict.lookup layer_cfg "file_type" = Some (VStr ft) /\
              ft <> EmptyString) /\
  ((Dict.lookup layer_cfg "type" = Some (VStr "Image") /\
    exists c, Dict.lookup layer_cfg "channels" = Some c /\ is_int c = true) \/
   ((exists ty, Dict.lookup layer_cfg "type" = Some (VStr ty) /\
                ty ∈ _LABEL_TYPES) /\
    exists c, Dict.lookup layer_cfg "classes" = Some c /\ is_int c = true)) /\
  (Dict.lookup layer_cfg "pattern" = None \/
   Dict.lookup layer_cfg "pattern" = Some VNone \/
   exists pat, Dict.lookup layer_cfg "pattern" = Some (VStr pat)).

(** The working directory, which [Path('')] stands for, with two files. *)
Definition working_dir : FlatFS.listing :=
  [(".", ["a_10.ext"; "a_2.ext"])].

(** Modelled from the spec: the outcome of resolving a fold of a split
    file, which is the mapping of that fold or the hard error
    [FoldIndexOutOfRange]. *)
Inductive fold_resolution : Type :=
| FoldFound (mapping : value)
| FoldIndexOutOfRange.

(** Modelled from the spec: the folds of a split file, one per element of a
    list; a single mapping, not a list, is one fold. *)
Definition spec_folds (split_file : value) : list value :=
  match split_file with
  | VList folds => folds
  | mapping => [mapping]
  end.

(** Modelled from the spec: resolution of a fold index, which is 0 when none
    is given; an index outside the folds is the hard error, and no other fold
    is used in its place. *)
Definition spec_resolve_fold (split_file : value) (fold_index : option Z)
  : fold_resolution :=
  let folds := spec_folds split_file in
  let i := default 0%Z fold_index in
  if ((0 <=? i)%Z && (i <? Z.of_nat (List.length folds))%Z)%bool
  then match folds !! Z.to_nat i with
       | Some m => FoldFound m
       | None => FoldIndexOutOfRange
       end
  else FoldIndexOutOfRange.

(** The value of a decimal digit, and of a numeral read by position. *)
Definition digit_value (a : ascii) : N :=
  match a with
  | "0" => 0 | "1" => 1 | "2" => 2 | "3" => 3 | "4" => 4
  | "5" => 5 | "6" => 6 | "7" => 7 | "8" => 8 | "9" => 9
  | _ => 0
  end%char%N.

Fixpoint decimal_value (s : string) : N :=
  match s with
  | EmptyString => 0
  | String a s' =>
      digit_value a * 10 ^ N.of_nat (String.length s') + decimal_value s'
  end%N.

Definition starts_with_digit (s : string) : bool :=
  match s with
  | EmptyString => false
  | String a _ => Str.is_digit a
  end.

Fixpoint ends_with_digit (s : string) : bool :=
  match s with
  | EmptyString => false
  | String a EmptyString => Str.is_digit a
  | String _ s' => ends_with_digit s'
  end.

Fixpoint has_digit (s : string) : bool :=
  match s with
  | EmptyString => false
  | String a s' => Str.is_digit a || has_digit s'
  end.

(** Numbers inside names count by their value: of two names that agree up
    to a numeral, which neither the text before it nor the text after it
    extends, the one with the smaller number comes first, whatever
    follows. *)
Definition numerically_ordered (l : list PurePath) : Prop :=
  forall (i j : nat) (f g : PurePath) (p d1 d2 s1 s2 : string),
    l !! i = Some f -> l !! j = Some g ->
    Path.name f = p +:+ d1 +:+ s1 ->
    Path.name g = p +:+ d2 +:+ s2 ->
    ends_with_digit p = false ->
    Str.isdigit d1 = true -> Str.isdigit d2 = true ->
    starts_with_digit s1 = false -> starts_with_digit s2 = false ->
    (decimal_value d1 < decimal_value d2)%N ->
    i < j.

(** Names without digits are in the order of their characters. *)
Definition text_ordered (l : list PurePath) : Prop :=
  forall (i j : nat) (f g : PurePath),
    l !! i = Some f -> l !! j = Some g ->
    has_digit (Path.name f) = false -> has_digit (Path.name g) = false ->
    String.compare (Path.name f) (Path.name g) = Lt ->
    i < j.

(** No array of the dictionary holds Python objects. *)
Definition no_objects {ndarray : Type} (has_object_dtype : ndarray -> bool)
    (d : gmap string ndarray) : Prop :=
  map_Forall (fun _ a => has_object_dtype a = false) d.

(** No key of the dictionary is the name of a parameter of [np.savez]. *)
Definition plain_keys {ndarray : Type} (d : gmap string ndarray) : Prop :=
  d !! "file" = None /\ d !! "allow_pickle" = None.

(** Arrays for the examples: of numbers, or of Python objects. *)
Inductive sample_array : Type :=
| Numbers (data : list Z)
| Objects (data : list string).

Definition sample_has_object_dtype (a : sample_array) : bool :=
  match a with
  | Numbers _ => false
  | Objects _ => true
  end.

(** [bool(a)]: of an array of one element, the truth value of that
    element. *)
Definition sample_truth_value (a : sample_array) : option bool :=
  match a with
  | Numbers [x] => Some (negb (x =? 0)%Z)
  | Objects [s] => Some (negb (String.length s =? 0)%nat)
  | _ => None
  end.

(* ===================================================================== *)
(** * Strings: substring test and cutting                                 *)
(* ===================================================================== *)

Lemma append_String (a : ascii) (s t : string) :
  String a s +:+ t = String a (s +:+ t).
Proof. reflexivity. Qed.

Lemma append_empty_l (t : string) : EmptyString +:+ t = t.
Proof. reflexivity. Qed.

Lemma append_empty_r (s : string) : s +:+ EmptyString = s.
Proof.
  induction s as [|a s IH]; [done|]. by rewrite append_String, IH.
Qed.

Lemma prefix_app (n h : string) :
  String.prefix n h = true <-> exists b, h = n +:+ b.
Proof.
  revert h. induction n as [|c n IH]; intros h; simpl.
  - destruct h; simpl; split; eauto.
  - destruct h as [|d h]; simpl.
    + split; [discriminate | intros [b Hb]; discriminate].
    + setoid_rewrite append_String.
      destruct (Ascii.ascii_dec c d) as [->|Hne].
      * rewrite IH. split; intros [b Hb]; exists b; congruence.
      * split; [discriminate | intros [b Hb]; congruence].
Qed.

Lemma contains_substring (tok s : string) :
  Str.contains tok s = true <-> is_substring tok s.
Proof.
  unfold is_substring. induction s as [|c s IH].
  - change (Str.contains tok EmptyString)
      with (String.prefix tok EmptyString || false).
    rewrite orb_false_r, prefix_app. split.
    + intros [b Hb]. exists EmptyString, b. exact Hb.
    + intros [a [b Hab]]. destruct a as [|d a].
      * rewrite append_empty_l in Hab. eauto.
      * rewrite append_String in Hab. discriminate.
  - change (Str.contains tok (String c s))
      with (String.prefix tok (String c s) || Str.contains tok s).
    rewrite orb_true_iff, IH. split.
    + intros [Hp | [a [b Hab]]].
      * apply prefix_app in Hp as [b Hb]. exists EmptyString, b. exact Hb.
      * exists (String c a), b. rewrite append_String. by rewrite Hab.
    + intros [a [b Hab]]. destruct a as [|d a].
      * left. apply prefix_app. rewrite append_empty_l in Hab. eauto.
      * right. exists a, b. rewrite append_String in Hab. congruence.
Qed.

Lemma existsb_contains (toks : list string) (s : string) :
  existsb (fun tok => Str.contains tok s) toks = true
  <-> exists tok, tok ∈ toks /\ is_substring tok s.
Proof.
  rewrite existsb_exists. split; intros [tok [Hin Hc]]; exists tok.
  - split; [by apply list_elem_of_In | by apply contains_substring].
  - split; [by apply list_elem_of_In | by apply contains_substring].
Qed.

Lemma rcut_None (c : ascii) (s : string) :
  Str.rcut c s = None <-> Str.mem_char c s = false.
Proof.
  induction s as [|a s IH]; simpl; [done|].
  destruct (Str.rcut c s) as [[h t]|].
  - split; [discriminate|]. intros H. apply orb_false_iff in H as [_ H].
    apply IH in H. discriminate.
  - destruct (Ascii.eqb a c); simpl; [split; discriminate|].
    split; intros _; [by apply IH | done].
Qed.

Lemma rcut_Some (c : ascii) (s h t : string) :
  Str.rcut c s = Some (h, t) ->
  s = h +:+ String c t /\ Str.mem_char c t = false.
Proof.
  revert h. induction s as [|a s IH]; intros h; simpl; [discriminate|].
  destruct (Str.rcut c s) as [[h' t']|] eqn:E.
  - intros [= <- <-]. destruct (IH h' eq_refl) as [-> Ht].
    by rewrite append_String.
  - destruct (Ascii.eqb_spec a c) as [->|Hne]; [|discriminate].
    intros [= <- <-]. split; [done | by apply rcut_None].
Qed.

(* ===================================================================== *)
(** * The stable sort                                                     *)
(* ===================================================================== *)

Section SortedBy.
Context {A : Type} (ltb : A -> A -> bool) (le : A -> A -> Prop).
Hypothesis ltb_le : forall a b, ltb a b = true -> le a b.
Hypothesis not_ltb_le : forall a b, ltb a b = false -> le b a.
Hypothesis le_trans : forall a b c, le a b -> le b c -> le a c.

Lemma insert_sorted_perm (x : A) (l : list A) :
  insert_sorted ltb x l ≡ₚ x :: l.
Proof.
  induction l as [|y l IH]; simpl; [done|].
  destruct (ltb y x); [|done].
  rewrite IH. apply Permutation_swap.
Qed.

Lemma py_sorted_perm (l : list A) : py_sorted ltb l ≡ₚ l.
Proof.
  induction l as [|x l IH]; simpl; [done|].
  rewrite insert_sorted_perm. by rewrite IH.
Qed.

Lemma insert_sorted_strongly (x : A) (l : list A) :
  StronglySorted le l -> StronglySorted le (insert_sorted ltb x l).
Proof.
  induction 1 as [|y l Hl IH Hy]; simpl.
  - repeat constructor.
  - destruct (ltb y x) eqn:E.
    + constructor; [exact IH|].
      rewrite insert_sorted_perm. constructor; [by apply ltb_le | exact Hy].
    + apply not_ltb_le in E. constructor; [by constructor|].
      constructor; [exact E|].
      eapply Forall_impl; [exact Hy|]. intros z Hz. by eapply le_trans.
Qed.

Lemma py_sorted_strongly (l : list A) : StronglySorted le (py_sorted ltb l).
Proof.
  induction l as [|x l IH]; simpl; [constructor|].
  by apply insert_sorted_strongly.
Qed.

End SortedBy.

(* ===================================================================== *)
(** * The natural order is a total preorder                               *)
(* ===================================================================== *)

Lemma ascii_compare_lt_trans (a b c : ascii) :
  Ascii.compare a b = Lt -> Ascii.compare b c = Lt -> Ascii.compare a c = Lt.
Proof.
  unfold Ascii.compare. rewrite !N.compare_lt_iff. apply N.lt_trans.
Qed.

Lemma string_compare_lt_trans (s t u : string) :
  String.compare s t = Lt -> String.compare t u = Lt -> String.compare s u = Lt.
Proof.
  revert t u. induction s as [|a s IH]; intros [|b t] [|c u]; simpl; try done.
  destruct (Ascii.compare a b) eqn:Eab; try done;
    destruct (Ascii.compare b c) eqn:Ebc; try done.
  - apply Ascii.compare_eq_iff in Eab as ->. rewrite Ebc. apply IH.
  - apply Ascii.compare_eq_iff in Eab as ->. by rewrite Ebc.
  - apply Ascii.compare_eq_iff in Ebc as <-. by rewrite Eab.
  - by rewrite (ascii_compare_lt_trans a b c).
Qed.

Lemma token_cmp_antisym (a b : natsort.token) :
  natsort.token_cmp a b = CompOpp (natsort.token_cmp b a).
Proof.
  destruct a, b; simpl; [apply String.compare_antisym|done|done|].
  apply N.compare_antisym.
Qed.

Lemma token_cmp_eq (a b : natsort.token) :
  natsort.token_cmp a b = Eq -> a = b.
Proof.
  destruct a, b; simpl; try done.
  - intros H. by apply String.compare_eq_iff in H as ->.
  - intros H. by apply N.compare_eq in H as ->.
Qed.

Lemma token_cmp_lt_trans (a b c : natsort.token) :
  natsort.token_cmp a b = Lt -> natsort.token_cmp b c = Lt ->
  natsort.token_cmp a c = Lt.
Proof.
  destruct a, b, c; simpl; try done.
  - apply string_compare_lt_trans.
  - rewrite !N.compare_lt_iff. apply N.lt_trans.
Qed.

Lemma key_cmp_antisym (a b : list natsort.token) :
  natsort.key_cmp a b = CompOpp (natsort.key_cmp b a).
Proof.
  revert b. induction a as [|x a IH]; intros [|y b]; simpl; try done.
  rewrite (token_cmp_antisym y x).
  destruct (natsort.token_cmp x y); simpl; [apply IH|done|done].
Qed.

Lemma key_cmp_refl (a : list natsort.token) : natsort.key_cmp a a = Eq.
Proof.
  pose proof (key_cmp_antisym a a) as H.
  by destruct (natsort.key_cmp a a).
Qed.

Lemma key_cmp_eq (a b : list natsort.token) :
  natsort.key_cmp a b = Eq -> a = b.
Proof.
  revert b. induction a as [|x a IH]; intros [|y b]; simpl; try done.
  destruct (natsort.token_cmp x y) eqn:E; try done.
  intros H. apply token_cmp_eq in E as ->. by rewrite (IH b H).
Qed.

Lemma key_cmp_lt_trans (a b c : list natsort.token) :
  natsort.key_cmp a b = Lt -> natsort.key_cmp b c = Lt ->
  natsort.key_cmp a c = Lt.
Proof.
  revert b c. induction a as [|x a IH]; intros [|y b] [|z c]; simpl; try done.
  destruct (natsort.token_cmp x y) eqn:Exy; try done;
    destruct (natsort.token_cmp y z) eqn:Eyz; try done.
  - apply token_cmp_eq in Exy as ->. rewrite Eyz. apply IH.
  - apply token_cmp_eq in Exy as ->. by rewrite Eyz.
  - apply token_cmp_eq in Eyz as <-. by rewrite Exy.
  - by rewrite (token_cmp_lt_trans x y z).
Qed.

Lemma key_cmp_le_trans (a b c : list natsort.token) :
  natsort.key_cmp a b <> Gt -> natsort.key_cmp b c <> Gt ->
  natsort.key_cmp a c <> Gt.
Proof.
  destruct (natsort.key_cmp a b) eqn:Eab; [| |done].
  - apply key_cmp_eq in Eab as ->. done.
  - destruct (natsort.key_cmp b c) eqn:Ebc; [| |done].
    + apply key_cmp_eq in Ebc as <-. by rewrite Eab.
    + by rewrite (key_cmp_lt_trans a b c).
Qed.

(** Keys of strings alternate, text first, so Python never has to order a
    text and a number, and compares two keys as [key_cmp] does. *)
Lemma runs_alternate_runs (s : string) :
  match natsort.runs s with
  | [] => True
  | (d, _) :: _ => natsort.runs_alternate d (natsort.runs s)
  end.
Proof.
  induction s as [|a s IH]; simpl; [done|].
  destruct (natsort.runs s) as [|[d' r] rs]; simpl; [done|].
  destruct (Bool.eqb_spec (Str.is_digit a) d') as [->|Hne]; simpl.
  - simpl in IH. tauto.
  - split; [done|]. simpl in IH.
    destruct (Str.is_digit a), d'; simpl; tauto.
Qed.

Lemma alternates_components (d : bool) (l : list (bool * string)) :
  natsort.runs_alternate d l -> natsort.alternates d (map natsort.component l).
Proof.
  revert d. induction l as [|[d' r] l IH]; intros d; simpl; [done|].
  intros [-> Hl]. unfold natsort.component at 1. simpl.
  destruct d; simpl; split; try done; by apply (IH _ Hl).
Qed.

Lemma sep_between_alternates (d : bool) (l : list natsort.token) :
  natsort.alternates d l -> natsort.sep_between l = l.
Proof.
  revert d. induction l as [|x l IH]; intros d; simpl; [done|].
  destruct x as [s|n]; intros [-> Hl].
  - by rewrite (IH _ Hl).
  - destruct l as [|[s'|n'] l']; simpl in Hl |- *; [done| |by destruct Hl].
    f_equal. by apply (IH false).
Qed.

Lemma natsort_key_alternates (s : string) :
  natsort.alternates false (natsort.natsort_key s).
Proof.
  unfold natsort.natsort_key, natsort.sep_inserter.
  pose proof (runs_alternate_runs s) as H.
  destruct (natsort.runs s) as [|[d r] rs]; [done|].
  apply alternates_components in H. destruct d.
  - change (map natsort.component ((true, r) :: rs))
      with (natsort.TNum (natsort.int_of_digits 0 r) :: map natsort.component rs)
      in *.
    split; [done|]. by rewrite (sep_between_alternates true).
  - change (map natsort.component ((false, r) :: rs))
      with (natsort.TStr r :: map natsort.component rs) in *.
    by rewrite (sep_between_alternates false).
Qed.

Lemma key_cmp_py_alternates (d : bool) (a b : list natsort.token) :
  natsort.alternates d a -> natsort.alternates d b ->
  natsort.key_cmp_py a b = Some (natsort.key_cmp a b).
Proof.
  revert d b. induction a as [|x a IH]; intros d [|y b]; simpl; try done.
  destruct x, y; simpl; intros [-> Ha] [? Hb]; try done.
  - destruct (String.compare s s0); try done. by apply (IH true).
  - destruct (N.compare n n0); try done. by apply (IH false).
Qed.

Lemma natsort_key_cmp_py (s t : string) :
  natsort.key_cmp_py (natsort.natsort_key s) (natsort.natsort_key t)
  = Some (natsort.key_cmp (natsort.natsort_key s) (natsort.natsort_key t)).
Proof.
  apply (key_cmp_py_alternates false); apply natsort_key_alternates.
Qed.

Lemma name_ltb_le (p q : PurePath) : name_ltb p q = true -> name_natural_le p q.
Proof.
  unfold name_ltb, natsort.key_ltb, name_natural_le, natural_le.
  by destruct (natsort.key_cmp _ _).
Qed.

Lemma not_name_ltb_le (p q : PurePath) :
  name_ltb p q = false -> name_natural_le q p.
Proof.
  unfold name_ltb, natsort.key_ltb, name_natural_le, natural_le.
  rewrite (key_cmp_antisym (natsort.natsort_key (Path.name q))).
  by destruct (natsort.key_cmp _ _).
Qed.

Lemma name_natural_le_trans (p q r : PurePath) :
  name_natural_le p q -> name_natural_le q r -> name_natural_le p r.
Proof. apply key_cmp_le_trans. Qed.

Lemma natsorted_perm (l : list PurePath) : natsorted_by_name l ≡ₚ l.
Proof. apply py_sorted_perm. Qed.

Lemma natsorted_sorted (l : list PurePath) :
  StronglySorted name_natural_le (natsorted_by_name l).
Proof.
  exact (py_sorted_strongly name_ltb name_natural_le name_ltb_le
           not_name_ltb_le name_natural_le_trans l).
Qed.

(** Keys that agree up to a number compare as the two numbers do. *)
Lemma key_cmp_numeric (pre r1 r2 : list natsort.token) (n m : N) :
  (n < m)%N ->
  natsort.key_cmp (pre ++ natsort.TNum n :: r1) (pre ++ natsort.TNum m :: r2) = Lt.
Proof.
  intros Hnm. induction pre as [|x pre IH]; simpl.
  - by rewrite (proj2 (N.compare_lt_iff n m) Hnm).
  - assert (natsort.token_cmp x x = Eq) as ->; [|exact IH].
    destruct x; simpl; [|apply N.compare_refl].
    destruct (String.compare s s) eqn:E; [done| |].
    + pose proof (String.compare_antisym s s) as H. rewrite E in H. done.
    + pose proof (String.compare_antisym s s) as H. rewrite E in H. done.
Qed.

(** ** Numbers inside names *)

Lemma runs_head (a : ascii) (s : string) :
  exists r rs, natsort.runs (String a s) = (Str.is_digit a, r) :: rs.
Proof.
  simpl. destruct (natsort.runs s) as [|[d' r] rs]; [by eexists _, _|].
  destruct (Bool.eqb _ _); by eexists _, _.
Qed.

(** Where a run of one kind ends and a run of the other kind begins, the
    runs of the whole are the runs of the two parts. *)
Lemma runs_app (s t : string) :
  s <> EmptyString -> t <> EmptyString ->
  ends_with_digit s = negb (starts_with_digit t) ->
  natsort.runs (s +:+ t) = natsort.runs s ++ natsort.runs t.
Proof.
  intros Hs Ht. induction s as [|a s IH]; [done|]. clear Hs.
  destruct s as [|a' s'].
  - intros Hk. rewrite append_String, append_empty_l.
    destruct t as [|b t']; [done|].
    destruct (runs_head b t') as (r & rs & E).
    change (natsort.runs (String a (String b t')))
      with (match natsort.runs (String b t') with
            | (d', r) :: rs =>
                if Bool.eqb (Str.is_digit a) d'
                then (Str.is_digit a, String a r) :: rs
                else (Str.is_digit a, String a EmptyString) :: (d', r) :: rs
            | [] => [(Str.is_digit a, String a EmptyString)]
            end).
    rewrite E.
    change (natsort.runs (String a EmptyString))
      with [(Str.is_digit a, String a EmptyString)].
    simpl in Hk. rewrite Hk. by destruct (Str.is_digit b).
  - intros Hk. specialize (IH ltac:(done) Hk).
    rewrite append_String.
    change (natsort.runs (String a (String a' s' +:+ t)))
      with (match natsort.runs (String a' s' +:+ t) with
            | (d', r) :: rs =>
                if Bool.eqb (Str.is_digit a) d'
                then (Str.is_digit a, String a r) :: rs
                else (Str.is_digit a, String a EmptyString) :: (d', r) :: rs
            | [] => [(Str.is_digit a, String a EmptyString)]
            end).
    rewrite IH.
    change (natsort.runs (String a (String a' s')))
      with (match natsort.runs (String a' s') with
            | (d', r) :: rs =>
                if Bool.eqb (Str.is_digit a) d'
                then (Str.is_digit a, String a r) :: rs
                else (Str.is_digit a, String a EmptyString) :: (d', r) :: rs
            | [] => [(Str.is_digit a, String a EmptyString)]
            end).
    destruct (runs_head a' s') as (r & rs & ->). simpl.
    by destruct (Bool.eqb _ _).
Qed.

(** A numeral is one run of digits, and it ends with a digit. *)
Lemma runs_numeral (d : string) :
  Str.isdigit d = true -> natsort.runs d = [(true, d)].
Proof.
  destruct d as [|a d]; [done|].
  change (Str.isdigit (String a d)) with (Str.is_digit a && Str.all_digits d).
  revert a. induction d as [|b d IH]; intros a H.
  - simpl in *. by destruct (Str.is_digit a).
  - apply andb_prop in H as [Ha H].
    change (natsort.runs (String a (String b d)))
      with (match natsort.runs (String b d) with
            | (d', r) :: rs =>
                if Bool.eqb (Str.is_digit a) d'
                then (Str.is_digit a, String a r) :: rs
                else (Str.is_digit a, String a EmptyString) :: (d', r) :: rs
            | [] => [(Str.is_digit a, String a EmptyString)]
            end).
    rewrite (IH b H), Ha. reflexivity.
Qed.

Lemma ends_with_digit_numeral (d : string) :
  Str.isdigit d = true -> ends_with_digit d = true.
Proof.
  destruct d as [|a d]; [done|].
  change (Str.isdigit (String a d)) with (Str.is_digit a && Str.all_digits d).
  revert a. induction d as [|b d IH]; intros a H.
  - simpl in *. by destruct (Str.is_digit a).
  - apply andb_prop in H as [_ H]. exact (IH b H).
Qed.

Lemma starts_with_digit_numeral (d s : string) :
  Str.isdigit d = true -> starts_with_digit (d +:+ s) = true.
Proof.
  destruct d as [|a d]; [done|]. simpl. intros H.
  by apply andb_prop in H as [-> _].
Qed.

(** The runs of a name that holds a numeral between a text that does not end
    in a digit and a text that does not begin with one. *)
Lemma runs_around_numeral (p d s : string) :
  ends_with_digit p = false -> Str.isdigit d = true ->
  starts_with_digit s = false ->
  natsort.runs (p +:+ d +:+ s)
  = natsort.runs p ++ (true, d) :: natsort.runs s.
Proof.
  intros Hp Hd Hs.
  assert (Hds : natsort.runs (d +:+ s) = (true, d) :: natsort.runs s).
  { destruct s as [|b s].
    - rewrite append_empty_r. by rewrite runs_numeral.
    - rewrite runs_app; [by rewrite runs_numeral|by destruct d|done|].
      rewrite ends_with_digit_numeral by done. simpl in *. by rewrite Hs. }
  destruct p as [|a p]; [by rewrite append_empty_l|].
  rewrite runs_app; [by rewrite Hds|done|by destruct d|].
  rewrite starts_with_digit_numeral by done. by rewrite Hp.
Qed.

(** The key of a string: its runs as text and numbers, after an empty text
    when a number leads. *)
Lemma natsort_key_runs (s : string) :
  natsort.natsort_key s
  = (if starts_with_digit s then [natsort.TStr EmptyString] else [])
    ++ map natsort.component (natsort.runs s).
Proof.
  unfold natsort.natsort_key, natsort.sep_inserter.
  pose proof (runs_alternate_runs s) as H.
  destruct s as [|a s]; [done|].
  destruct (runs_head a s) as (r & rs & E). rewrite E in *.
  apply alternates_components in H.
  rewrite (sep_between_alternates _ _ H).
  unfold starts_with_digit. simpl. unfold natsort.component at 1 3. simpl.
  by destruct (Str.is_digit a).
Qed.

Lemma digit_value_digit_val (a : ascii) :
  Str.is_digit a = true -> Str.digit_val a = digit_value a.
Proof.
  destruct a as [[] [] [] [] [] [] [] []]; try discriminate; reflexivity.
Qed.

(** [int] of a run of digits is the value of the numeral. *)
Lemma int_of_digits_value (acc : N) (d : string) :
  Str.all_digits d = true ->
  natsort.int_of_digits acc d
  = (acc * 10 ^ N.of_nat (String.length d) + decimal_value d)%N.
Proof.
  revert acc. induction d as [|a d IH]; intros acc H.
  - simpl. lia.
  - apply andb_prop in H as [Ha H].
    cbn [natsort.int_of_digits decimal_value String.length].
    rewrite (IH _ H), (digit_value_digit_val a Ha).
    rewrite Nat2N.inj_succ, N.pow_succ_r'. ring.
Qed.

Lemma int_of_numeral (d : string) :
  Str.isdigit d = true -> natsort.int_of_digits 0 d = decimal_value d.
Proof.
  intros H. rewrite int_of_digits_value; [lia|]. by destruct d.
Qed.

(** Two names that agree up to a numeral compare as the values of the two
    numerals. *)
Lemma natsort_key_numeral (p d1 d2 s1 s2 : string) :
  ends_with_digit p = false ->
  Str.isdigit d1 = true -> Str.isdigit d2 = true ->
  starts_with_digit s1 = false -> starts_with_digit s2 = false ->
  (decimal_value d1 < decimal_value d2)%N ->
  natsort.key_cmp (natsort.natsort_key (p +:+ d1 +:+ s1))
                  (natsort.natsort_key (p +:+ d2 +:+ s2)) = Lt.
Proof.
  intros Hp Hd1 Hd2 Hs1 Hs2 Hlt.
  rewrite !natsort_key_runs, !runs_around_numeral by done.
  rewrite !map_app, !map_cons.
  change (natsort.component (true, d1))
    with (natsort.TNum (natsort.int_of_digits 0 d1)).
  change (natsort.component (true, d2))
    with (natsort.TNum (natsort.int_of_digits 0 d2)).
  assert (starts_with_digit (p +:+ d1 +:+ s1) = starts_with_digit (p +:+ d2 +:+ s2))
    as ->.
  { destruct p as [|a p]; [|done].
    rewrite !append_empty_l. by rewrite !starts_with_digit_numeral. }
  rewrite !int_of_numeral by done. rewrite !app_assoc.
  by apply key_cmp_numeric.
Qed.

Lemma runs_text (s : string) :
  has_digit s = false ->
  natsort.runs s = match s with EmptyString => [] | _ => [(false, s)] end.
Proof.
  induction s as [|a s IH]; [done|]. simpl. intros H.
  apply orb_false_elim in H as [Ha H]. rewrite (IH H), Ha.
  by destruct s.
Qed.

Lemma starts_with_digit_text (s : string) :
  has_digit s = false -> starts_with_digit s = false.
Proof. destruct s; [done|]. simpl. by intros [-> _]%orb_false_elim. Qed.

(** Two names without digits compare as their characters do. *)
Lemma natsort_key_text (s t : string) :
  has_digit s = false -> has_digit t = false ->
  natsort.key_cmp (natsort.natsort_key s) (natsort.natsort_key t)
  = String.compare s t.
Proof.
  intros Hs Ht. rewrite !natsort_key_runs, !starts_with_digit_text by done.
  rewrite !runs_text by done.
  destruct s as [|a s], t as [|b t]; try reflexivity.
  simpl. unfold natsort.component. simpl.
  by destruct (Ascii.compare a b), (String.compare s t).
Qed.

Lemma StronglySorted_lookup_lt {A : Type} (R : A -> A -> Prop) (l : list A)
    (i j : nat) (x y : A) :
  StronglySorted R l -> l !! i = Some x -> l !! j = Some y -> i < j -> R x y.
Proof.
  intros Hl. revert i j. induction Hl as [|a l Hl IH Ha]; intros i j Hi Hj Hij.
  - done.
  - destruct i as [|i], j as [|j]; try lia; simpl in *.
    + injection Hi as <-. rewrite Forall_forall in Ha. apply Ha.
      by eapply list_elem_of_lookup_2.
    + apply (IH i j); [done|done|lia].
  Qed.

(** In a list sorted by natural order of names, a name whose key is below
    the key of another one comes before it. *)
Lemma sorted_key_lt (l : list PurePath) (i j : nat) (f g : PurePath) :
  StronglySorted name_natural_le l ->
  l !! i = Some f -> l !! j = Some g ->
  natsort.key_cmp (natsort.natsort_key (Path.name f))
                  (natsort.natsort_key (Path.name g)) = Lt ->
  i < j.
Proof.
  intros Hl Hi Hj Hlt. destruct (decide (i < j)) as [|Hge]; [done|]. exfalso.
  destruct (decide (i = j)) as [->|Hne].
  - rewrite Hi in Hj. injection Hj as <-. by rewrite key_cmp_refl in Hlt.
  - assert (Hgf : name_natural_le g f).
    { apply (StronglySorted_lookup_lt _ l j i); [done|done|done|lia]. }
    unfold name_natural_le, natural_le in Hgf.
    rewrite key_cmp_antisym, Hlt in Hgf. by apply Hgf.
Qed.

Lemma sorted_numerically_ordered (l : list PurePath) :
  StronglySorted name_natural_le l -> numerically_ordered l.
Proof.
  intros Hl i j f g p d1 d2 s1 s2 Hi Hj Hf Hg Hp Hd1 Hd2 Hs1 Hs2 Hlt.
  apply (sorted_key_lt l i j f g Hl Hi Hj). rewrite Hf, Hg.
  by apply natsort_key_numeral.
Qed.

Lemma sorted_text_ordered (l : list PurePath) :
  StronglySorted name_natural_le l -> text_ordered l.
Proof.
  intros Hl i j f g Hi Hj Hf Hg Hlt.
  apply (sorted_key_lt l i j f g Hl Hi Hj). by rewrite natsort_key_text.
Qed.

(* ===================================================================== *)
(** * The File Locator                                                    *)
(* ===================================================================== *)

Lemma strip_prefix_app (pre rel : list string) :
  Path.strip_prefix pre (pre ++ rel) = Some rel.
Proof.
  induction pre as [|a pre IH]; simpl; [by destruct rel|].
  by rewrite bool_decide_eq_true_2.
Qed.

Lemma relative_to_joinpath (root : PurePath) (rel : list string) :
  Path.relative_to (Path.joinpath root rel) root = Ok (MkPath false rel).
Proof.
  unfold Path.relative_to, Path.joinpath. simpl.
  rewrite bool_decide_eq_true_2 by done. by rewrite strip_prefix_app.
Qed.

Lemma rel_str_under (self : FileManager) (f : PurePath) :
  under (as_path (path self)) f ->
  FileManager.rel_str self f = Ok (rel_string (as_path (path self)) f).
Proof.
  intros [rel ->]. unfold FileManager.rel_str, rel_string.
  by rewrite relative_to_joinpath.
Qed.

Lemma rmap_Forall {A B : Type} (f : A -> result B) (g : A -> B) (l : list A) :
  Forall (fun x => f x = Ok (g x)) l -> rmap f l = Ok (map g l).
Proof.
  induction 1 as [|x l Hx _ IH]; simpl; [done|]. by rewrite Hx, IH.
Qed.

Lemma filter_combine_map {A B : Type} (g : A -> B) (P : B -> bool) (l : list A) :
  map fst (List.filter (fun fr : A * B => P fr.2) (combine l (map g l)))
  = List.filter (fun x => P (g x)) l.
Proof.
  induction l as [|x l IH]; simpl; [done|].
  destruct (P (g x)); simpl; by rewrite IH.
Qed.

Lemma filter_filter_andb {A : Type} (p q : A -> bool) (l : list A) :
  List.filter q (List.filter p l) = List.filter (fun x => p x && q x) l.
Proof.
  induction l as [|x l IH]; simpl; [done|].
  destruct (p x); simpl; [destruct (q x)|]; by rewrite IH.
Qed.

Lemma Forall_list_filter {A : Type} (P : A -> Prop) (p : A -> bool) (l : list A) :
  Forall P l -> Forall P (List.filter p l).
Proof.
  induction 1 as [|x l Hx _ IH]; simpl; [constructor|].
  destruct (p x); [by constructor | done].
Qed.

Lemma StronglySorted_list_filter {A : Type} (R : A -> A -> Prop)
    (p : A -> bool) (l : list A) :
  StronglySorted R l -> StronglySorted R (List.filter p l).
Proof.
  induction 1 as [|x l Hl IH Hx]; simpl; [constructor|].
  destruct (p x); [|done]. constructor; [done|]. by apply Forall_list_filter.
Qed.

(** The two passes of [filter_files] keep, in order, the files whose
    relative path passes [kept]. *)
Lemma filter_files_kept (self : FileManager) :
  Forall (under (as_path (path self))) (files self) ->
  FileManager.filter_files self
  = Ok (set_files self
          (List.filter
             (fun f => kept (include_names self) (exclude_names self)
                         (rel_string (as_path (path self)) f))
             (files self))).
Proof.
  intros Hu. destruct self as [pa ft pat inc exc rec fs]. simpl in *.
  set (root := as_path pa) in *.
  assert (Hmap : forall (fm : FileManager) (l : list PurePath),
             as_path (path fm) = root -> Forall (under root) l ->
             rmap (FileManager.rel_str fm) l = Ok (map (rel_string root) l)).
  { intros fm l Hfm Hl. apply rmap_Forall. eapply Forall_impl; [exact Hl|].
    intros f Hf. simpl. rewrite <- Hfm in *. by apply rel_str_under. }
  unfold FileManager.filter_files, kept. simpl.
  destruct inc as [inc|]; simpl.
  - rewrite Hmap by done. simpl. rewrite filter_combine_map.
    destruct exc as [exc|]; simpl.
    + rewrite Hmap by (done || by apply Forall_list_filter). simpl.
      rewrite (filter_combine_map (rel_string root)
                 (fun r => negb (FileManager.any_in exc r))).
      by rewrite filter_filter_andb.
    + unfold set_files; simpl. do 2 f_equal.
      apply List.filter_ext. intros f. by rewrite andb_true_r.
  - destruct exc as [exc|]; simpl.
    + rewrite Hmap by done. simpl.
      by rewrite (filter_combine_map (rel_string root)
                    (fun r => negb (FileManager.any_in exc r))).
    + unfold set_files; simpl. do 2 f_equal.
      clear. induction fs as [|f fs IH]; simpl; congruence.
Qed.

Lemma Forall_under_joinpath (root : PurePath) (found : list (list string)) :
  Forall (under root) (map (Path.joinpath root) found).
Proof.
  induction found as [|rel found IH]; simpl; constructor; [by exists rel | done].
Qed.

Lemma collect_files_under (glob : glob_oracle) (self fm : FileManager) :
  FileManager.collect_files glob self = Ok fm ->
  fm = set_files self (files fm) /\ Forall (under (as_path (path self))) (files fm).
Proof.
  unfold FileManager.collect_files.
  destruct (bool_decide (file_type self = EmptyString) || is_empty_str (path self)).
  - intros [= <-]. split; [done | constructor].
  - destruct (glob _ _ _) as [e|found]; simpl; [discriminate|].
    intros [= <-]. split; [done|]. simpl.
    rewrite natsorted_perm. apply Forall_under_joinpath.
Qed.

Lemma kept_iff (inc exc : option (list string)) (rel : string) :
  kept inc exc rel = true <->
  (inc = None \/
   exists toks tok, inc = Some toks /\ tok ∈ toks /\ is_substring tok rel) /\
  (exc = None \/
   exists toks, exc = Some toks /\ forall tok, tok ∈ toks -> ~ is_substring tok rel).
Proof.
  unfold kept. rewrite andb_true_iff. f_equiv.
  - destruct inc as [toks|]; [|by split; [left|]].
    rewrite existsb_contains. split.
    + intros [tok [? ?]]. right. by exists toks, tok.
    + intros [|[toks' [tok [[= <-] [? ?]]]]]; [done|]. by exists tok.
  - destruct exc as [toks|]; [|by split; [left|]].
    rewrite negb_true_iff, <- not_true_iff_false, existsb_contains. split.
    + intros Hn. right. exists toks. split; [done|].
      intros tok Hin Hsub. apply Hn. by exists tok.
    + intros [|[toks' [[= <-] Hall]]]; [done|].
      intros [tok [Hin Hsub]]. by apply (Hall tok).
Qed.

(** ** Wildcards in a flat directory *)

Lemma wild_match_star (p s : string) :
  FlatFS.wild_match (String "*" p) s = true <->
  exists h t, s = h +:+ t /\ FlatFS.wild_match p t = true.
Proof.
  change (FlatFS.wild_match (String "*" p) s) with
    ((fix star (s : string) : bool :=
        FlatFS.wild_match p s ||
        match s with
        | EmptyString => false
        | String _ s' => star s'
        end) s).
  induction s as [|a s IH].
  - rewrite orb_false_r. split.
    + intros H. by exists EmptyString, EmptyString.
    + intros (h & t & Hs & Ht). destruct h as [|? ?]; [|discriminate].
      rewrite append_empty_l in Hs. by subst.
  - rewrite orb_true_iff, IH. split.
    + intros [H | (h & t & -> & Ht)].
      * by exists EmptyString, (String a s).
      * by exists (String a h), t.
    + intros (h & t & Hs & Ht). destruct h as [|b h].
      * rewrite append_empty_l in Hs. subst. by left.
      * rewrite append_String in Hs. injection Hs as -> ->. right. by exists h, t.
Qed.

Lemma wild_match_literal (p s : string) :
  literal p -> FlatFS.wild_match p s = true <-> s = p.
Proof.
  intros [Hstar Hany]. revert s Hstar Hany.
  induction p as [|c p IH]; intros s Hstar Hany.
  - simpl. by rewrite bool_decide_eq_true.
  - simpl in Hstar, Hany. apply orb_false_iff in Hstar as [Hc1 Hstar].
    apply orb_false_iff in Hany as [Hc2 Hany]. simpl. rewrite Hc1.
    destruct s as [|d s]; [done|]. rewrite Hc2. simpl.
    rewrite andb_true_iff, (IH s Hstar Hany).
    destruct (Ascii.eqb_spec c d) as [->|Hne]; split.
    + by intros [_ ->].
    + by intros [= ->].
    + by intros [? _].
    + intros [= -> _]. done.
Qed.

(** In a flat directory, the pattern [*] followed by a literal extension
    matches exactly the names that end with the extension. *)
Lemma wild_match_extension (ext name : string) :
  literal ext ->
  FlatFS.wild_match ("*" +:+ ext) name = true <-> exists h, name = h +:+ ext.
Proof.
  intros Hlit. change ("*" +:+ ext) with (String "*" ext).
  rewrite wild_match_star. split.
  - intros (h & t & -> & Ht). apply (wild_match_literal ext t Hlit) in Ht as ->.
    by exists h.
  - intros [h ->]. exists h, ext. split; [done|]. by apply wild_match_literal.
Qed.

(** ** Include and exclude *)

(** C2.  Post-filter of the File Locator: of the files collected, the
    constructor keeps, in their order, exactly those whose path relative to
    the root (include_names is absent or the path contains one of its
    substrings) and (exclude_names is absent or the path contains none of its
    substrings).  In particular, of [x_train.ext] and [x_val.ext] with
    include [x] and exclude [val], only [x_train.ext] is kept. *)
Theorem filter_files_include_exclude (glob : glob_oracle) (path : PathLike)
    (file_type : string) (pattern : option string)
    (include_names exclude_names : option (list string)) (recursive : bool)
    (collected : FileManager) :
  FileManager.collect_files glob
    (MkFileManager path file_type pattern include_names exclude_names recursive [])
  = Ok collected ->
  (exists out : list PurePath,
     FileManager.init (FileManager.collect_files glob) path file_type pattern
       include_names exclude_names recursive
     = Ok (MkFileManager path file_type pattern include_names exclude_names
             recursive out) /\
     out = List.filter
             (fun f => kept include_names exclude_names (rel_string (as_path path) f))
             (files collected) /\
     forall f : PurePath,
       f ∈ out <->
       f ∈ files collected /\
       (include_names = None \/
        exists toks tok, include_names = Some toks /\ tok ∈ toks /\
                         is_substring tok (rel_string (as_path path) f)) /\
       (exclude_names = None \/
        exists toks, exclude_names = Some toks /\
                     forall tok, tok ∈ toks ->
                                 ~ is_substring tok (rel_string (as_path path) f))) /\
  FileManager.init (FileManager.collect_files (FlatFS.glob split_dir))
    (PStr "/data") ".ext" None (Some ["x"]) (Some ["val"]) false
  = Ok (MkFileManager (PStr "/data") ".ext" None (Some ["x"]) (Some ["val"]) false
          [MkPath true ["data"; "x_train.ext"]]).
Proof.
  intros Hc. split; [|reflexivity].
  destruct (collect_files_under _ _ _ Hc) as [Hfm Hu]. simpl in Hfm, Hu.
  eexists. split; [|split; [reflexivity|]].
  - unfold FileManager.init. rewrite Hc. simpl.
    rewrite filter_files_kept by (by rewrite Hfm). by rewrite Hfm.
  - intros f. rewrite !list_elem_of_In, filter_In, kept_iff. tauto.
Qed.

Lemma filter_files_include_exclude_witness :
  FileManager.collect_files (FlatFS.glob split_dir)
    (MkFileManager (PStr "/data") ".ext" None (Some ["x_"]) (Some ["val"]) false [])
  = Ok (MkFileManager (PStr "/data") ".ext" None (Some ["x_"]) (Some ["val"]) false
          [MkPath true ["data"; "x_train.ext"]; MkPath true ["data"; "x_val.ext"]]) /\
  exists out : list PurePath,
    FileManager.init (FileManager.collect_files (FlatFS.glob split_dir))
      (PStr "/data") ".ext" None (Some ["x_"]) (Some ["val"]) false
    = Ok (MkFileManager (PStr "/data") ".ext" None (Some ["x_"]) (Some ["val"])
            false out) /\
    out = [MkPath true ["data"; "x_train.ext"]].
Proof.
  split; [reflexivity|].
  destruct (filter_files_include_exclude (FlatFS.glob split_dir) (PStr "/data")
              ".ext" None (Some ["x_"]) (Some ["val"]) false _ eq_refl)
    as [[out [Hinit [Hout _]]] _].
  exists out. split; [exact Hinit | exact Hout].
Defined.

(** ** The glob pattern *)

(** C3.  With an extension and a root that are not empty, [collect_files]
    globs the root with: [*] followed by the extension when no pattern is
    given; [*], the pattern and the extension when the pattern holds no [*];
    the pattern as it is and the extension when it holds a [*].  In a flat
    directory the first of these globs matches every file whose name ends
    with the extension, and no other. *)
Theorem collect_files_glob_pattern (glob : glob_oracle) (self : FileManager) :
  file_type self <> EmptyString ->
  is_empty_str (path self) = false ->
  let root := as_path (path self) in
  let globbed (g : string) : result FileManager :=
    let* found := glob root (recursive self) g in
    Ok (set_files self (natsorted_by_name (map (Path.joinpath root) found))) in
  (pattern self = None ->
   FileManager.collect_files glob self = globbed ("*" +:+ file_type self)) /\
  (forall p, pattern self = Some p -> Str.mem_char "*" p = false ->
   FileManager.collect_files glob self = globbed ("*" +:+ p +:+ file_type self)) /\
  (forall p, pattern self = Some p -> Str.mem_char "*" p = true ->
   FileManager.collect_files glob self = globbed (p +:+ file_type self)) /\
  (forall fs : FlatFS.listing, literal (file_type self) ->
   exists found,
     FlatFS.glob fs root (recursive self) ("*" +:+ file_type self) = Ok found /\
     forall name : string,
       [name] ∈ found <->
       name ∈ FlatFS.entries fs (Path.to_str root) /\
       exists h, name = h +:+ file_type self).
Proof.
  intros Hft Hroot root globbed. unfold FileManager.collect_files.
  rewrite Hroot, bool_decide_eq_false_2 by done. simpl.
  unfold FileManager.glob_pattern, globbed, root.
  split; [|split; [|split]].
  - by intros ->.
  - by intros p -> ->.
  - by intros p -> ->.
  - intros fs Hlit. eexists. split; [reflexivity|]. intros name.
    rewrite list_elem_of_In, in_map_iff. split.
    + intros (n & [= ->] & Hn). apply filter_In in Hn as [Hn Hm].
      split; [by apply list_elem_of_In|]. by apply wild_match_extension.
    + intros [Hn Hm]. exists name. split; [done|]. apply filter_In.
      split; [by apply list_elem_of_In|]. by apply wild_match_extension.
Qed.

Lemma collect_files_glob_pattern_witness :
  FileManager.collect_files (FlatFS.glob numbered_dir)
    (MkFileManager (PStr "/data") ".ext" (Some "_2") None None false [])
  = Ok (MkFileManager (PStr "/data") ".ext" (Some "_2") None None false
          [MkPath true ["data"; "a_2.ext"]]).
Proof.
  pose proof (collect_files_glob_pattern (FlatFS.glob numbered_dir)
                (MkFileManager (PStr "/data") ".ext" (Some "_2") None None false [])
                ltac:(discriminate) eq_refl) as (_ & H & _).
  rewrite (H "_2" eq_refl eq_refl). reflexivity.
Defined.

(** ** Natural order *)

(** C4.  With an extension and a root that are not empty, the files
    [collect_files] stores are the files the glob matched, rearranged so that
    names ascend in natural order, and the constructor's filter keeps them so.
    In both lists a number inside a name counts by its value: of two names
    that agree up to a numeral, the one whose numeral has the smaller value
    comes first, whatever follows the numerals; and names without digits are
    in the order of their characters.  So [a_2.ext] comes before [a_10.ext],
    which the order of characters would put first. *)
Theorem collect_files_natural_order (glob : glob_oracle) (path : PathLike)
    (file_type : string) (pattern : option string)
    (include_names exclude_names : option (list string)) (recursive : bool)
    (found : list (list string)) :
  let self := MkFileManager path file_type pattern include_names exclude_names
                recursive [] in
  file_type <> EmptyString ->
  is_empty_str path = false ->
  glob (as_path path) recursive (FileManager.glob_pattern self) = Ok found ->
  (exists out : list PurePath,
     FileManager.collect_files glob self = Ok (set_files self out) /\
     out ≡ₚ map (Path.joinpath (as_path path)) found /\
     StronglySorted name_natural_le out /\
     numerically_ordered out /\
     text_ordered out) /\
  (exists located : FileManager,
     FileManager.init (FileManager.collect_files glob) path file_type pattern
       include_names exclude_names recursive = Ok located /\
     StronglySorted name_natural_le (files located) /\
     numerically_ordered (files located) /\
     text_ordered (files located)) /\
  (forall (pre r1 r2 : list natsort.token) (n m : N), (n < m)%N ->
     natsort.key_cmp (pre ++ natsort.TNum n :: r1) (pre ++ natsort.TNum m :: r2) = Lt) /\
  natsort.key_cmp (natsort.natsort_key "a_2.ext") (natsort.natsort_key "a_10.ext") = Lt /\
  String.compare "a_2.ext" "a_10.ext" = Gt /\
  natsorted_by_name [MkPath true ["data"; "a_10.ext"]; MkPath true ["data"; "a_2.ext"]]
  = [MkPath true ["data"; "a_2.ext"]; MkPath true ["data"; "a_10.ext"]].
Proof.
  intros self Hft Hroot Hglob.
  assert (Hc : FileManager.collect_files glob self
               = Ok (set_files self (natsorted_by_name
                                       (map (Path.joinpath (as_path path)) found)))).
  { unfold FileManager.collect_files, self in *. simpl in Hglob |- *.
    rewrite Hroot, bool_decide_eq_false_2 by done. simpl.
    by rewrite Hglob. }
  split; [|split; [|split; [|split; [|split]]]]; try reflexivity.
  - eexists. split; [exact Hc|]. split; [apply natsorted_perm|].
    split; [apply natsorted_sorted|].
    split; [apply sorted_numerically_ordered | apply sorted_text_ordered];
      apply natsorted_sorted.
  - destruct (collect_files_under _ _ _ Hc) as [_ Hu].
    eexists. split.
    + unfold FileManager.init. fold self. rewrite Hc. simpl.
      by rewrite filter_files_kept.
    + simpl.
      match goal with
      | |- StronglySorted _ ?l /\ _ =>
          assert (Hs : StronglySorted name_natural_le l)
            by apply StronglySorted_list_filter, natsorted_sorted
      end.
      split; [exact Hs|].
      split; [by apply sorted_numerically_ordered | by apply sorted_text_ordered].
  - intros. by apply key_cmp_numeric.
Qed.

Lemma collect_files_natural_order_witness :
  exists out : list PurePath,
    FileManager.collect_files (FlatFS.glob numbered_dir)
      (MkFileManager (PStr "/data") ".ext" None None None false [])
    = Ok (MkFileManager (PStr "/data") ".ext" None None None false out) /\
    out ≡ₚ [MkPath true ["data"; "a_10.ext"]; MkPath true ["data"; "a_2.ext"]] /\
    StronglySorted name_natural_le out /\
    (forall i j : nat,
       out !! i = Some (MkPath true ["data"; "a_2.ext"]) ->
       out !! j = Some (MkPath true ["data"; "a_10.ext"]) ->
       i < j).
Proof.
  destruct (collect_files_natural_order (FlatFS.glob numbered_dir) (PStr "/data")
              ".ext" None None None false [["a_10.ext"]; ["a_2.ext"]]
              ltac:(discriminate) eq_refl eq_refl)
    as [(out & Hout & Hperm & Hsorted & Hnum & _) _].
  exists out. split; [exact Hout|]. split; [exact Hperm|].
  split; [exact Hsorted|].
  intros i j Hi Hj.
  apply (Hnum i j _ _ "a_" "2" "10" ".ext" ".ext" Hi Hj);
    reflexivity.
Defined.

(** ** Nothing to find *)

(** C8, as the code has it.  When the extension is the empty string, or the
    root is the empty string [''] (a [str]: a [Path] object is never equal to
    it), or the glob of the root matches nothing (as for a root that does not
    exist), the constructor returns a manager without files, and raises
    nothing; so does the constructor of the stacked manager. *)
Theorem locate_nothing (glob : glob_oracle) (path : PathLike)
    (file_type : string) (pattern : option string)
    (include_names exclude_names : option (list string)) (recursive : bool) :
  let self := MkFileManager path file_type pattern include_names exclude_names
                recursive [] in
  file_type = EmptyString \/ path = PStr EmptyString \/
  glob (as_path path) recursive (FileManager.glob_pattern self) = Ok [] ->
  FileManager.init (FileManager.collect_files glob) path file_type pattern
    include_names exclude_names recursive = Ok self /\
  FileManager.init (FileManagerStacked.collect_files glob) path file_type pattern
    include_names exclude_names recursive = Ok self.
Proof.
  intros self H.
  assert (Hc : FileManager.collect_files glob self = Ok self).
  { unfold FileManager.collect_files, self in *. simpl in H |- *.
    destruct H as [-> | [-> | H]]; [done | by rewrite orb_true_r |].
    destruct (_ || _); [done|]. by rewrite H. }
  assert (Hf : FileManager.filter_files self = Ok self).
  { unfold FileManager.filter_files, self. simpl.
    destruct include_names, exclude_names; reflexivity. }
  unfold FileManager.init, FileManagerStacked.collect_files. fold self.
  rewrite Hc. simpl. by rewrite Hf.
Qed.

Lemma locate_nothing_witness :
  (FileManager.init (FileManager.collect_files (FlatFS.glob numbered_dir))
     (PStr "/data") EmptyString None (Some ["a"]) None true
   = Ok (MkFileManager (PStr "/data") EmptyString None (Some ["a"]) None true [])) /\
  (FileManager.init (FileManager.collect_files (FlatFS.glob numbered_dir))
     (PStr EmptyString) ".ext" None None None false
   = Ok (MkFileManager (PStr EmptyString) ".ext" None None None false [])) /\
  (FlatFS.glob numbered_dir (Path.of_str "/missing") false "*.ext" = Ok [] /\
   FileManager.init (FileManager.collect_files (FlatFS.glob numbered_dir))
     (PStr "/missing") ".ext" None None (Some ["a"]) false
   = Ok (MkFileManager (PStr "/missing") ".ext" None None (Some ["a"]) false [])).
Proof.
  split; [|split; [|split; [reflexivity|]]].
  - apply (locate_nothing (FlatFS.glob numbered_dir) (PStr "/data") EmptyString None
             (Some ["a"]) None true). by left.
  - apply (locate_nothing (FlatFS.glob numbered_dir) (PStr EmptyString) ".ext" None
             None None false). right. by left.
  - apply (locate_nothing (FlatFS.glob numbered_dir) (PStr "/missing") ".ext" None
             None (Some ["a"]) false). right. by right.
Defined.

(** C8, as stated, fails for a root that is an empty [Path]: [Path('')] is
    not equal to [''], so the files of the working directory are globbed and
    stored. *)
Lemma locate_empty_path_counterexample :
  as_path (PPath (Path.of_str EmptyString)) = as_path (PStr EmptyString) /\
  Path.to_str (Path.of_str EmptyString) = "." /\
  FileManager.init (FileManager.collect_files (FlatFS.glob working_dir))
    (PPath (Path.of_str EmptyString)) ".ext" None None None false
  = Ok (MkFileManager (PPath (Path.of_str EmptyString)) ".ext" None None None
          false [MkPath false ["a_2.ext"]; MkPath false ["a_10.ext"]]) /\
  FileManager.init (FileManager.collect_files (FlatFS.glob working_dir))
    (PStr EmptyString) ".ext" None None None false
  = Ok (MkFileManager (PStr EmptyString) ".ext" None None None false []).
Proof. repeat split; reflexivity. Qed.

(** ** The alias *)

(** C9.  [get_name] returns what [name_from_path] returns, for every
    manager, every file argument and every flag. *)
Theorem get_name_is_name_from_path (self : FileManager) (file : file_arg)
    (with_file_type : bool) :
  FileManager.get_name self file with_file_type
  = FileManager.name_from_path self file with_file_type.
Proof. reflexivity. Qed.

(* ===================================================================== *)
(** * The Stack Collapser                                                 *)
(* ===================================================================== *)

Lemma rcut_app (c : ascii) (h t : string) :
  Str.mem_char c t = false -> Str.rcut c (h +:+ String c t) = Some (h, t).
Proof.
  intros Ht. induction h as [|a h IH].
  - rewrite append_empty_l. simpl.
    rewrite (proj2 (rcut_None c t) Ht). by rewrite Ascii.eqb_refl.
  - rewrite append_String. simpl. by rewrite IH.
Qed.

Lemma cut_stem_app (h t : string) :
  Str.mem_char "_" t = false -> cut_stem (h +:+ "_" +:+ t) = h.
Proof.
  intros Ht. unfold cut_stem.
  change ("_" +:+ t) with (String "_" t). by rewrite rcut_app.
Qed.

Lemma cut_stem_no_underscore (s : string) :
  Str.mem_char "_" s = false -> cut_stem s = s.
Proof.
  intros Hs. unfold cut_stem. by rewrite (proj2 (rcut_None "_" s) Hs).
Qed.

Lemma last_snoc {A : Type} (l : list A) (x d : A) : List.last (l ++ [x]) d = x.
Proof.
  induction l as [|y l IH]; simpl; [done|].
  destruct (l ++ [x]) eqn:E; [by destruct l | exact IH].
Qed.

Lemma name_stack_entry (f : PurePath) :
  Path.name (stack_entry f) = cut_stem (Path.stem f).
Proof. unfold Path.name, stack_entry. simpl. apply last_snoc. Qed.

Lemma collapse_with_name (f : PurePath) :
  FileManagerStacked.collapse f = Path.with_name f (cut_stem (Path.stem f)).
Proof.
  unfold FileManagerStacked.collapse, Str.rsplit1, cut_stem.
  by destruct (Str.rcut "_" (Path.stem f)) as [[h t]|].
Qed.

(** A valid cut stem is all [collapse] needs. *)
Lemma collapse_valid (f : PurePath) :
  valid_name (cut_stem (Path.stem f)) ->
  FileManagerStacked.collapse f = Ok (stack_entry f).
Proof.
  intros (Hne & Hdot & Hsep). rewrite collapse_with_name. unfold Path.with_name.
  assert (Path.name f <> EmptyString) as Hname.
  { intros E. apply Hne. unfold Path.stem. rewrite E. reflexivity. }
  rewrite bool_decide_eq_false_2 by done.
  rewrite Hsep, !bool_decide_eq_false_2 by done. reflexivity.
Qed.

Lemma collapse_invalid (f : PurePath) :
  ~ valid_name (cut_stem (Path.stem f)) ->
  FileManagerStacked.collapse f = Raise ValueError.
Proof.
  intros Hn. rewrite collapse_with_name. unfold Path.with_name.
  destruct (bool_decide (Path.name f = EmptyString)); [done|].
  destruct (bool_decide (cut_stem (Path.stem f) = EmptyString)) eqn:E1; [done|].
  destruct (Str.mem_char "/" (cut_stem (Path.stem f))) eqn:E2; [done|].
  destruct (bool_decide (cut_stem (Path.stem f) = ".")) eqn:E3; [done|].
  exfalso. apply Hn. apply bool_decide_eq_false in E1, E3. done.
Qed.

Lemma rmap_collapse (l : list PurePath) :
  rmap FileManagerStacked.collapse l
  = if bool_decide (Forall (fun f => valid_name (cut_stem (Path.stem f))) l)
    then Ok (map stack_entry l) else Raise ValueError.
Proof.
  induction l as [|f l IH]; simpl; [done|].
  destruct (decide (valid_name (cut_stem (Path.stem f)))) as [Hv|Hn].
  - rewrite (collapse_valid f Hv), IH. simpl.
    destruct (bool_decide (Forall _ l)) eqn:El.
    + apply bool_decide_eq_true in El.
      rewrite bool_decide_eq_true_2; [done | by constructor].
    + apply bool_decide_eq_false in El.
      rewrite bool_decide_eq_false_2; [done|].
      intros H. apply El. by apply Forall_cons in H as [_ H].
  - rewrite (collapse_invalid f Hn). simpl.
    rewrite bool_decide_eq_false_2; [done|].
    intros H. by apply Forall_cons in H as [H _].
Qed.

(** A cut stem that [with_name] refuses, as the empty one of [_0000.ext],
    makes the stacked manager raise [ValueError]. *)
Lemma stacked_collect_files_invalid (glob : glob_oracle)
    (self collected : FileManager) :
  FileManager.collect_files glob self = Ok collected ->
  ~ Forall (fun f => valid_name (cut_stem (Path.stem f))) (files collected) ->
  FileManagerStacked.collect_files glob self = Raise ValueError.
Proof.
  intros Hc Hn. unfold FileManagerStacked.collect_files. rewrite Hc. simpl.
  destruct (files collected) as [|f fs] eqn:E; [by destruct Hn|].
  rewrite <- E in *. rewrite rmap_collapse. by rewrite bool_decide_eq_false_2.
Qed.

Lemma np_unique_NoDup (l : list PurePath) : NoDup (np_unique l).
Proof.
  unfold np_unique. rewrite py_sorted_perm. apply NoDup_remove_dups.
Qed.

Lemma np_unique_elem (l : list PurePath) (q : PurePath) :
  q ∈ np_unique l <-> q ∈ l.
Proof.
  unfold np_unique. rewrite py_sorted_perm. apply elem_of_remove_dups.
Qed.

(** C1, as the code has it.  When every collected file's stem (its name
    without the last extension), cut at its last underscore, is a name
    [with_name] accepts (not empty, not [.], without [/]), the stacked
    manager turns every collected file into the entry named by that cut
    stem, whatever follows the underscore, digits or not; a stem without
    underscore is kept whole.  The entries are stored without duplicates and
    in natural order of their names, in which a number inside a name counts
    by its value and names without digits are in the order of their
    characters. *)
Theorem stacked_collect_files_entries (glob : glob_oracle)
    (self collected : FileManager) :
  FileManager.collect_files glob self = Ok collected ->
  Forall (fun f => valid_name (cut_stem (Path.stem f))) (files collected) ->
  (exists out : list PurePath,
     FileManagerStacked.collect_files glob self = Ok (set_files collected out) /\
     NoDup out /\
     StronglySorted name_natural_le out /\
     numerically_ordered out /\
     text_ordered out /\
     (forall q, q ∈ out <-> exists f, f ∈ files collected /\ q = stack_entry f)) /\
  (forall f, Path.name (stack_entry f) = cut_stem (Path.stem f)) /\
  (forall h t, Str.mem_char "_" t = false -> cut_stem (h +:+ "_" +:+ t) = h) /\
  (forall s, Str.mem_char "_" s = false -> cut_stem s = s).
Proof.
  intros Hc Hvalid.
  split; [|split; [apply name_stack_entry|split;
                   [apply cut_stem_app|apply cut_stem_no_underscore]]].
  exists (natsorted_by_name (np_unique (map stack_entry (files collected)))).
  split; [|split; [|split; [|split; [|split]]]].
  - unfold FileManagerStacked.collect_files. rewrite Hc. simpl.
    destruct (files collected) as [|f fs] eqn:E.
    + destruct collected; simpl in *. by subst.
    + rewrite <- E in *. rewrite (rmap_Forall _ stack_entry); [done|].
      eapply Forall_impl; [exact Hvalid|]. intros x. apply collapse_valid.
  - rewrite natsorted_perm. apply np_unique_NoDup.
  - apply natsorted_sorted.
  - apply sorted_numerically_ordered, natsorted_sorted.
  - apply sorted_text_ordered, natsorted_sorted.
  - intros q. rewrite natsorted_perm, np_unique_elem, list_elem_of_In, in_map_iff.
    split; intros [f [H1 H2]]; exists f.
    + by rewrite list_elem_of_In.
    + by rewrite <- list_elem_of_In.
Qed.

Lemma stacked_collect_files_entries_witness :
  exists out : list PurePath,
    FileManagerStacked.collect_files (FlatFS.glob stack_dir)
      (MkFileManager (PStr "/data") ".ext" None None None false [])
    = Ok (MkFileManager (PStr "/data") ".ext" None None None false out) /\
    out = [MkPath true ["data"; "plain"]; MkPath true ["data"; "sample1"];
           MkPath true ["data"; "sample2"]; MkPath true ["data"; "sample10"];
           MkPath true ["data"; "scan"]].
Proof.
  destruct (stacked_collect_files_entries (FlatFS.glob stack_dir)
              (MkFileManager (PStr "/data") ".ext" None None None false []) _
              eq_refl) as [[out [Hout _]] _].
  - repeat constructor; discriminate.
  - exists out. split; [exact Hout|].
    vm_compute in Hout. by injection Hout as <-.
Defined.

(** C1, as stated, fails: the group cut off need not be numeric.  The stem
    [scan_final] ends in [_final], which is no number, and the entry is
    [scan]. *)
Lemma stacked_collect_files_non_numeric_counterexample :
  ~ (forall (f : PurePath) (h t : string),
       Str.rcut "_" (Path.stem f) = Some (h, t) ->
       Str.isdigit t = false ->
       FileManagerStacked.collapse f = Path.with_name f (Path.stem f)).
Proof.
  intros H.
  specialize (H (MkPath true ["data"; "scan_final.ext"]) "scan" "final"
                eq_refl eq_refl).
  discriminate H.
Qed.

(* ===================================================================== *)
(** * Layer verification                                                  *)
(* ===================================================================== *)

(** Membership in a list of errors built by appending. *)
Ltac in_errs :=
  rewrite ?elem_of_app, ?elem_of_cons, ?list_elem_of_singleton; intuition auto.

Lemma get_lookup_None (d : dict) (k : string) :
  Dict.lookup d k = None -> Dict.get d k = VNone.
Proof. unfold Dict.get, Dict.get_default. by intros ->. Qed.

Lemma get_lookup_Some (d : dict) (k : string) (v : value) :
  Dict.lookup d k = Some v -> Dict.get d k = v.
Proof. unfold Dict.get, Dict.get_default. by intros ->. Qed.

(** C7, where the code breaks it.  A layer configuration without the key
    [type] makes [verify_layer] raise [KeyError]: the error it collected for
    the missing field is never returned. *)
Theorem verify_layer_missing_type_raises (layer_cfg : dict) :
  Dict.lookup layer_cfg "type" = None ->
  verify_layer layer_cfg = Raise KeyError.
Proof.
  intros Hty. unfold verify_layer.
  rewrite (get_lookup_None layer_cfg "type" Hty). simpl.
  unfold Dict.getitem. rewrite Hty. reflexivity.
Qed.

Lemma verify_layer_missing_type_raises_witness :
  Dict.lookup layer_without_type "type" = None /\
  verify_layer layer_without_type = Raise KeyError.
Proof.
  split; [reflexivity|].
  apply (verify_layer_missing_type_raises layer_without_type). reflexivity.
Defined.

(** With the key [type] present, [verify_layer] returns; the verdict is
    valid exactly when no error was collected; every missing required field
    is among the errors; and so are a missing or non-integer [channels] of an
    image layer and [classes] of a label layer. *)
Lemma verify_layer_reports (layer_cfg : dict) (ty : value) :
  Dict.lookup layer_cfg "type" = Some ty ->
  exists errs : list LayerError,
    verify_layer layer_cfg = Ok (bool_decide (errs = []), errs) /\
    (forall req, req ∈ ["name"; "type"; "path"; "file_type"] ->
       Dict.mem req layer_cfg = false ->
       MissingField req (Dict.get layer_cfg "name") ∈ errs) /\
    (in_types ty _IMAGE_TYPES = true ->
       (Dict.mem "channels" layer_cfg = false ->
          MissingField "channels" (Dict.get layer_cfg "name") ∈ errs) /\
       (is_int (Dict.get layer_cfg "channels") = false ->
          ChannelsNotInt (Dict.get layer_cfg "channels") ∈ errs)) /\
    (in_types ty _LABEL_TYPES = true ->
       (Dict.mem "classes" layer_cfg = false ->
          MissingField "classes" (Dict.get layer_cfg "name") ∈ errs) /\
       (is_int (Dict.get layer_cfg "classes") = false ->
          ClassesNotInt (Dict.get layer_cfg "classes") ∈ errs)).
Proof.
  intros Hty. unfold verify_layer.
  rewrite (get_lookup_Some layer_cfg "type" ty Hty).
  unfold Dict.getitem. rewrite Hty.
  set (name := Dict.get layer_cfg "name").
  set (e0 := missing layer_cfg ["name"; "type"; "path"; "file_type"]).
  assert (He0 : forall req, req ∈ ["name"; "type"; "path"; "file_type"] ->
                  Dict.mem req layer_cfg = false -> MissingField req name ∈ e0).
  { intros req Hreq Hm. unfold e0, missing.
    apply list_elem_of_In, in_flat_map. exists req.
    split; [by apply list_elem_of_In|]. rewrite Hm. by left. }
  set (e1 := if negb (is_str name) || is_empty_string name
             then e0 ++ [NameNotString name] else e0).
  set (e2 := if negb (is_str (Dict.get layer_cfg "path"))
             then e1 ++ [PathNotString (Dict.get layer_cfg "path")] else e1).
  set (e3 := if negb (is_str (Dict.get layer_cfg "file_type"))
                || is_empty_string (Dict.get layer_cfg "file_type")
             then e2 ++ [FileTypeNotString (Dict.get layer_cfg "file_type")]
             else e2).
  assert (He3 : forall x, x ∈ e0 -> x ∈ e3).
  { intros x Hx. unfold e3, e2, e1.
    repeat (match goal with |- context [if ?c then _ else _] => destruct c end);
      in_errs. }
  assert (Hreq3 : forall req, req ∈ ["name"; "type"; "path"; "file_type"] ->
                    Dict.mem req layer_cfg = false -> MissingField req name ∈ e3).
  { intros req Hreq Hm. by apply He3, He0. }
  assert (Hpat : forall (es : list LayerError) (x : LayerError), x ∈ es ->
            x ∈ (if Dict.mem "pattern" layer_cfg
                    && negb (match Dict.get layer_cfg "pattern" with
                             | VNone => true | _ => false end)
                    && negb (is_str (Dict.get layer_cfg "pattern"))
                 then es ++ [PatternNotString (Dict.get layer_cfg "pattern")]
                 else es)).
  { intros es x Hx. destruct (_ && _); in_errs. }
  assert (Hverdict : forall es : list LayerError,
            match es with [] => true | _ => false end = bool_decide (es = [])).
  { intros [|? ?]; [by rewrite bool_decide_eq_true_2 | by rewrite bool_decide_eq_false_2]. }
  destruct (in_types ty _IMAGE_TYPES) eqn:Himg; simpl.
  - eexists. rewrite Hverdict. split; [reflexivity|].
    split; [|split].
    + intros req Hreq Hm. apply Hpat. pose proof (Hreq3 req Hreq Hm).
      destruct (negb (is_int _)); in_errs.
    + intros _. split.
      * intros Hm. apply Hpat. unfold missing. simpl. rewrite Hm. simpl.
        destruct (negb (is_int _)); in_errs.
      * intros Hi. apply Hpat. rewrite Hi. simpl. in_errs.
    + intros Hlbl. exfalso. destruct ty; simpl in *; try done.
      apply bool_decide_eq_true in Himg, Hlbl.
      apply list_elem_of_singleton in Himg as ->.
      apply list_elem_of_In in Hlbl. simpl in Hlbl. intuition discriminate.
  - destruct (in_types ty _LABEL_TYPES) eqn:Hlbl; simpl.
    + eexists. rewrite Hverdict. split; [reflexivity|].
      split; [|split]; [|done|].
      * intros req Hreq Hm. apply Hpat. pose proof (Hreq3 req Hreq Hm). in_errs.
      * intros _. split.
        -- intros Hm. apply Hpat. unfold missing. simpl. rewrite Hm. in_errs.
        -- intros Hi. apply Hpat. rewrite Hi. simpl. in_errs.
    + eexists. rewrite Hverdict. split; [reflexivity|].
      split; [|split]; [|done|done].
      intros req Hreq Hm. apply Hpat. pose proof (Hreq3 req Hreq Hm). in_errs.
Qed.

(* ===================================================================== *)
(** * Splits and folds                                                    *)
(* ===================================================================== *)

(** A layer that holds no key named like the split, checked without a split
    file or against a fold that does not name the split, is reported as
    having no explicit split; [build_file_manager] is not called. *)
Lemma verify_split_layer_skips (build_file_manager : bfm_args -> result FileManager)
    (split_file : value) (_splits : option (list value)) (fold : nat)
    (valid_split : string) (layer : dict) (name : string) :
  Dict.lookup layer "name" = Some (VStr name) ->
  Dict.lookup layer valid_split = None ->
  (_splits = None \/
   exists folds d, _splits = Some folds /\ folds !! fold = Some (VDict d) /\
                   Dict.mem valid_split d = false) ->
  verify_split_layer build_file_manager split_file _splits fold valid_split layer
  = ([EvNoExplicitSplit valid_split (VStr name)], Ok tt).
Proof.
  intros Hname Hsplit Hfile. unfold verify_split_layer, Dict.attr, Dict.get_default.
  rewrite Hname, Hsplit. simpl.
  destruct Hfile as [-> | (folds & d & -> & Hfold & Hd)]; simpl; [done|].
  unfold fold_splits. rewrite Hfold. simpl. by rewrite Hd.
Qed.

(** C5, where the code breaks it.  The dataset has an empty split section
    (no override for any layer, no split file), and the layer is valid but
    holds a key [val] of its own.  [apply_split_layer], which reads the split
    section, finds no override; the loop of [verify_config] reads the layer
    instead, finds an entry, and builds a file manager for the split: it
    never reports that the layer has no explicit split. *)
Theorem verify_split_layer_reads_the_layer
    (build_file_manager : bfm_args -> result FileManager)
    (load_json : value -> result value) :
  verify_layer layer_with_split_key = Ok (true, []) /\
  apply_split_layer layer_with_split_key "val" [] = Ok None /\
  load_splits load_json (Dict.get_default [] "split_file" VNone) = Ok (None, 1) /\
  verify_split_layer build_file_manager VNone None 0 "val" layer_with_split_key
  = match build_file_manager
            (MkArgs (VStr "/data/val") (VStr ".png") VNone (VBool false)
               (Some "val") (Some VNone) (Some 0)) with
    | inl e => ([], inl e)
    | inr fm => ([EvSplitFiles "val" (VStr "img") (List.length (files fm))], Ok tt)
    end.
Proof.
  repeat split; try reflexivity.
  unfold verify_split_layer. simpl.
  by destruct (build_file_manager _) as [e|fm].
Qed.

(** The same through [verify_config]: with an empty split section, the split
    [val] of the layer is not reported as missing, it is counted. *)
Lemma verify_config_counts_the_layer_key (load_json : value -> result value) :
  verify_config two_files_manager load_json cfg_with_split_key
  = ([EvVerifyLayer (VStr "img"); EvLayerValid (VStr "img");
      EvLayerFiles (VStr "img") 2; EvVerifySplits;
      EvNoExplicitSplit "train" (VStr "img");
      EvSplitFiles "val" (VStr "img") 2;
      EvNoExplicitSplit "test" (VStr "img")], Ok tt).
Proof. reflexivity. Qed.

(** Conversely, an override that the split section does hold is found by
    [apply_split_layer] and missed by [verify_config], which reports the
    split as not explicit. *)
Lemma verify_config_misses_the_split_section (load_json : value -> result value) :
  apply_split_layer image_layer "val" val_override
  = Ok (Some (image_layer ++ [("pattern", VStr "val_*")])) /\
  verify_config two_files_manager load_json cfg_with_override
  = ([EvVerifyLayer (VStr "img"); EvLayerValid (VStr "img");
      EvLayerFiles (VStr "img") 2; EvVerifySplits;
      EvNoExplicitSplit "train" (VStr "img");
      EvNoExplicitSplit "val" (VStr "img");
      EvNoExplicitSplit "test" (VStr "img")], Ok tt).
Proof. split; reflexivity. Qed.

(** C6.  A split file that loads as one mapping, not a list, becomes the
    list of that one mapping: one fold, visited once with index 0, where the
    mapping is found; this list is the list of folds the specification
    gives.  Resolution with no fold index, or with index 0, finds that
    mapping.  Resolution of any split file with an index below 0 or not
    below the number of folds is [FoldIndexOutOfRange]; a fold that is found
    is the one at the index, the one the lookup of the code finds there; and
    the lookup of the code past the last fold raises [IndexError], as does
    the check of a layer there. *)
Theorem single_mapping_is_one_fold
    (build_file_manager : bfm_args -> result FileManager)
    (load_json : value -> result value) (split_file m : value) :
  split_file <> VNone ->
  load_json split_file = Ok m ->
  (forall l, m <> VList l) ->
  load_splits load_json split_file = Ok (Some [m], 1) /\
  (forall layers layer_is_valid,
     verify_splits build_file_manager layers layer_is_valid split_file (Some [m]) 1
     = ((print EvVerifySplits ;;*
        for_each _VALID_SPLITS (fun valid_split =>
          for_each layers (fun layer =>
            do* name := lift (Dict.attr layer "name") in
            do* ok := lift (valid_lookup layer_is_valid name) in
            if (ok : bool)
            then verify_split_layer build_file_manager split_file (Some [m]) 0
                   valid_split layer
            else lift (Ok tt)))) ;;*
       lift (Ok tt))) /\
  fold_splits [m] 0 = Ok m /\
  (forall (folds : list value) (fold : nat),
     List.length folds <= fold -> fold_splits folds fold = Raise IndexError) /\
  (forall (folds : list value) (fold : nat) (valid_split : string)
          (layer : dict) (name : string),
     Dict.lookup layer "name" = Some (VStr name) ->
     Dict.lookup layer valid_split = None ->
     List.length folds <= fold ->
     verify_split_layer build_file_manager split_file (Some folds) fold
       valid_split layer = ([], Raise IndexError)) /\
  spec_folds m = [m] /\
  spec_resolve_fold m None = FoldFound m /\
  spec_resolve_fold m (Some 0%Z) = FoldFound m /\
  (forall (loaded : value) (fold_index : Z),
     (fold_index < 0 \/ Z.of_nat (List.length (spec_folds loaded)) <= fold_index)%Z ->
     spec_resolve_fold loaded (Some fold_index) = FoldIndexOutOfRange) /\
  (forall (loaded : value) (fold_index : Z) (found : value),
     spec_resolve_fold loaded (Some fold_index) = FoldFound found ->
     (0 <= fold_index < Z.of_nat (List.length (spec_folds loaded)))%Z /\
     fold_splits (spec_folds loaded) (Z.to_nat fold_index) = Ok found) /\
  (forall loaded : value,
     load_json split_file = Ok loaded ->
     load_splits load_json split_file
     = Ok (Some (spec_folds loaded), List.length (spec_folds loaded))).
Proof.
  intros Hfile Hload Hm.
  assert (Hfolds : spec_folds m = [m]).
  { destruct m; try reflexivity. by exfalso; eapply Hm. }
  split; [|split; [|split; [|split; [|split; [|split; [|split; [|split;
    [|split; [|split]]]]]]]]].
  - unfold load_splits. rewrite Hload. simpl.
    destruct split_file; try done; destruct m; try done; by exfalso; eapply Hm.
  - reflexivity.
  - reflexivity.
  - intros folds fold Hle. unfold fold_splits.
    by rewrite (proj2 (lookup_ge_None folds fold) Hle).
  - intros folds fold valid_split layer name Hname Hsplit Hle.
    unfold verify_split_layer, Dict.attr, Dict.get_default, fold_splits.
    rewrite Hname, Hsplit. simpl.
    by rewrite (proj2 (lookup_ge_None folds fold) Hle).
  - exact Hfolds.
  - unfold spec_resolve_fold. by rewrite Hfolds.
  - unfold spec_resolve_fold. by rewrite Hfolds.
  - intros loaded i Hi. unfold spec_resolve_fold. simpl.
    destruct (0 <=? i)%Z eqn:E0; [|done].
    destruct (i <? _)%Z eqn:E1; [|done]. lia.
  - intros loaded i found. unfold spec_resolve_fold, fold_splits. simpl.
    destruct (0 <=? i)%Z eqn:E0; [|done].
    destruct (i <? _)%Z eqn:E1; [|done]. simpl.
    destruct (spec_folds loaded !! Z.to_nat i); [|done].
    intros [= ->]. split; [lia|done].
  - intros loaded Hl. unfold load_splits. rewrite Hl. simpl.
    by destruct split_file.
Qed.

Lemma single_mapping_is_one_fold_witness :
  load_splits load_one_mapping (VStr "splits.json") = Ok (Some [one_mapping], 1) /\
  fold_splits [one_mapping] 0 = Ok one_mapping /\
  fold_splits [one_mapping] 1 = Raise IndexError /\
  spec_resolve_fold one_mapping None = FoldFound one_mapping /\
  spec_resolve_fold one_mapping (Some 1%Z) = FoldIndexOutOfRange /\
  spec_resolve_fold one_mapping (Some (-1)%Z) = FoldIndexOutOfRange.
Proof.
  destruct (single_mapping_is_one_fold (fun _ => Raise OSError) load_one_mapping
              (VStr "splits.json") one_mapping ltac:(discriminate) eq_refl
              ltac:(discriminate))
    as (H1 & _ & H2 & H3 & _ & _ & H4 & _ & H5 & _).
  split; [exact H1|]. split; [exact H2|].
  split; [apply H3; simpl; lia|]. split; [exact H4|].
  split; apply H5; simpl; lia.
Defined.

(* ===================================================================== *)
(** * npz archives                                                        *)
(* ===================================================================== *)

Section Archives.
Context {ndarray : Type}.
Variable has_object_dtype : ndarray -> bool.
Variable truth_value : ndarray -> option bool.

Lemma rmap_items {K V : Type} (f : K -> result (K * V)) (l : list (K * V)) :
  (forall k v, (k, v) ∈ l -> f k = Ok (k, v)) -> rmap f l.*1 = Ok l.
Proof.
  induction l as [|[k v] l IH]; intros H; [done|].
  rewrite fmap_cons. cbn [rmap fst]. rewrite (H k v) by apply list_elem_of_here.
  rewrite IH; [done|]. intros k' v' Hin. apply H. by apply list_elem_of_further.
Qed.

Lemma rmap_raises {A B : Type} (f : A -> result B) (l : list A) (e : exn) :
  (forall x, x ∈ l -> f x = Raise e \/ exists y, f x = Ok y) ->
  (exists x, x ∈ l /\ f x = Raise e) ->
  rmap f l = Raise e.
Proof.
  induction l as [|x l IH]; intros Hall (x0 & Hin & Hx0); [inversion Hin|].
  simpl. destruct (Hall x) as [E|[y E]]; [apply list_elem_of_here|by rewrite E|].
  rewrite E. simpl. rewrite IH; [done| |].
  - intros x' Hx'. apply Hall. by apply list_elem_of_further.
  - apply elem_of_cons in Hin as [->|Hin]; [by rewrite E in Hx0|]. by exists x0.
Qed.

(** An archive without arrays of objects is loaded whole. *)
Lemma load_npz_members (fs : gmap string (np.npz ndarray)) (path : string)
    (z : np.npz ndarray) :
  fs !! path = Some z ->
  no_objects has_object_dtype (np.members ndarray z) ->
  load_npz has_object_dtype fs path = Ok (np.members ndarray z, []).
Proof.
  intros Hz Hno. unfold load_npz, np.load. rewrite Hz. simpl.
  unfold np.files_of. rewrite rmap_items.
  - simpl. by rewrite list_to_map_to_list.
  - intros k v Hin. apply elem_of_map_to_list in Hin. unfold np.getitem.
    rewrite Hin. by rewrite (Hno k v Hin).
Qed.

(** An archive with an array of objects is refused. *)
Lemma load_npz_objects (fs : gmap string (np.npz ndarray)) (path : string)
    (z : np.npz ndarray) (key : string) (a : ndarray) :
  fs !! path = Some z ->
  np.members ndarray z !! key = Some a ->
  has_object_dtype a = true ->
  load_npz has_object_dtype fs path = Raise ValueError.
Proof.
  intros Hz Hk Ha. unfold load_npz, np.load. rewrite Hz. simpl.
  rewrite (rmap_raises _ _ ValueError); [done| |].
  - intros k Hin. unfold np.files_of in Hin.
    apply list_elem_of_fmap in Hin as ([k' v] & -> & Hin).
    apply elem_of_map_to_list in Hin. unfold np.getitem. simpl. rewrite Hin.
    destruct (has_object_dtype v); [by left|right; by eexists].
  - exists key. split.
    + unfold np.files_of. apply list_elem_of_fmap. exists (key, a).
      split; [done|]. by apply elem_of_map_to_list.
    + unfold np.getitem. by rewrite Hk, Ha.
Qed.

Lemma may_write_no_objects (flag : option ndarray) (namedict : gmap string ndarray) :
  no_objects has_object_dtype namedict ->
  forallb (fun kv : string * ndarray => np.may_write ndarray has_object_dtype truth_value flag kv.2)
    (map_to_list namedict) = true.
Proof.
  intros Hno. apply forallb_forall. intros [k v] Hin.
  apply list_elem_of_In, elem_of_map_to_list in Hin.
  unfold np.may_write. simpl. by rewrite (Hno k v Hin).
Qed.

Lemma may_write_default (namedict : gmap string ndarray) :
  forallb (fun kv : string * ndarray => np.may_write ndarray has_object_dtype truth_value None kv.2)
    (map_to_list namedict) = true.
Proof.
  apply forallb_forall. intros [k v] _. unfold np.may_write. simpl.
  by destruct (has_object_dtype v).
Qed.

(** Saving an array: always written, as the one member [arr_0]. *)
Lemma save_npz_array (fs : gmap string (np.npz ndarray)) (a : ndarray)
    (path : string) (compress : bool) :
  save_npz has_object_dtype truth_value fs (DataArray a) path compress
  = Ok (<[np.npz_name path := np.MkNpz ndarray compress {["arr_0" := a]}]> fs).
Proof.
  unfold save_npz, np.savez, np.savez_compressed, np.bind_keywords.
  destruct compress; rewrite !lookup_empty; simpl; unfold np._savez; simpl;
    rewrite delete_empty, lookup_empty, insert_empty; simpl;
    by rewrite may_write_default.
Qed.

(** Saving a dictionary with plain keys: written with its own keys. *)
Lemma save_npz_dict (fs : gmap string (np.npz ndarray))
    (d : gmap string ndarray) (path : string) (compress : bool) :
  plain_keys d ->
  save_npz has_object_dtype truth_value fs (DataDict d) path compress
  = Ok (<[np.npz_name path := np.MkNpz ndarray compress d]> fs).
Proof.
  intros [Hfile Hflag].
  unfold save_npz, np.savez, np.savez_compressed, np.bind_keywords.
  destruct compress; rewrite Hfile, Hflag; simpl; unfold np._savez; simpl;
    rewrite (delete_id d) by done; by rewrite may_write_default.
Qed.

(** Of a dictionary without objects and without the key [file], all is
    written but an entry [allow_pickle]. *)
Lemma save_npz_dict_flag (fs : gmap string (np.npz ndarray))
    (d : gmap string ndarray) (path : string) (compress : bool) :
  d !! "file" = None ->
  no_objects has_object_dtype d ->
  save_npz has_object_dtype truth_value fs (DataDict d) path compress
  = Ok (<[np.npz_name path
          := np.MkNpz ndarray compress (delete "allow_pickle" d)]> fs).
Proof.
  intros Hfile Hno.
  assert (Hno' : no_objects has_object_dtype (delete "allow_pickle" d)).
  { intros k v Hk. apply lookup_delete_Some in Hk as [_ Hk]. by apply (Hno k v). }
  unfold save_npz, np.savez, np.savez_compressed, np.bind_keywords.
  destruct compress; rewrite Hfile; simpl; unfold np._savez; simpl;
    by rewrite may_write_no_objects.
Qed.

(** A dictionary with the key [file] is refused. *)
Lemma save_npz_file_key (fs : gmap string (np.npz ndarray))
    (d : gmap string ndarray) (path : string) (compress : bool) :
  is_Some (d !! "file") ->
  save_npz has_object_dtype truth_value fs (DataDict d) path compress
  = Raise TypeError.
Proof.
  intros [a Ha].
  unfold save_npz, np.savez, np.savez_compressed, np.bind_keywords.
  destruct compress; by rewrite Ha.
Qed.

End Archives.

(** C10, as the code has it.  [save_npz] accepts an array as well as a
    dictionary, compressed or not.  An array is stored under the key
    [arr_0]; when it holds no Python objects, [load_npz] of the file written
    returns the dictionary that maps [arr_0] to that array, and when it holds
    objects [load_npz] raises [ValueError].  A dictionary without the keys
    [file] and [allow_pickle] is stored under its own keys, and [load_npz]
    returns it when none of its arrays holds Python objects.  No other file
    is touched, and the file written is the path given when that ends in
    [.npz]. *)
Theorem save_npz_load_npz {ndarray : Type} (has_object_dtype : ndarray -> bool)
    (truth_value : ndarray -> option bool)
    (fs : gmap string (np.npz ndarray)) (path : string) (compress : bool) :
  (forall a : ndarray,
     exists fs',
       save_npz has_object_dtype truth_value fs (DataArray a) path compress
       = Ok fs' /\
       fs' !! np.npz_name path
       = Some (np.MkNpz ndarray compress {["arr_0" := a]}) /\
       (has_object_dtype a = false ->
        load_npz has_object_dtype fs' (np.npz_name path)
        = Ok ({["arr_0" := a]}, [])) /\
       (has_object_dtype a = true ->
        load_npz has_object_dtype fs' (np.npz_name path) = Raise ValueError) /\
       forall other, other <> np.npz_name path -> fs' !! other = fs !! other) /\
  (forall d : gmap string ndarray,
     plain_keys d ->
     exists fs',
       save_npz has_object_dtype truth_value fs (DataDict d) path compress
       = Ok fs' /\
       fs' !! np.npz_name path = Some (np.MkNpz ndarray compress d) /\
       (no_objects has_object_dtype d ->
        load_npz has_object_dtype fs' (np.npz_name path) = Ok (d, [])) /\
       forall other, other <> np.npz_name path -> fs' !! other = fs !! other) /\
  (np.endswith path ".npz" = true -> np.npz_name path = path).
Proof.
  split; [|split].
  - intros a. eexists. split; [apply save_npz_array|].
    split; [apply lookup_insert_eq|]. split; [|split].
    + intros Ha.
      erewrite load_npz_members; [|apply lookup_insert_eq|]; [done|].
      simpl. by apply map_Forall_singleton.
    + intros Ha.
      eapply (load_npz_objects _ _ _ _ "arr_0" a); [apply lookup_insert_eq| |done].
      simpl. apply lookup_singleton_eq.
    + intros other Hne. by rewrite lookup_insert_ne.
  - intros d Hkeys. eexists. split; [by apply save_npz_dict|].
    split; [apply lookup_insert_eq|]. split.
    + intros Hno. erewrite load_npz_members; [|apply lookup_insert_eq|]; done.
    + intros other Hne. by rewrite lookup_insert_ne.
  - unfold np.npz_name. by intros ->.
Qed.

Lemma save_npz_load_npz_witness :
  (exists fs',
     save_npz sample_has_object_dtype sample_truth_value ∅
       (DataArray (Numbers [1; 2; 3]%Z)) "volume" true = Ok fs' /\
     load_npz sample_has_object_dtype fs' "volume.npz"
     = Ok ({["arr_0" := Numbers [1; 2; 3]%Z]}, [])) /\
  (exists fs',
     save_npz sample_has_object_dtype sample_truth_value ∅
       (DataDict {["image" := Numbers [1; 2]%Z]}) "volume" false = Ok fs' /\
     load_npz sample_has_object_dtype fs' "volume.npz"
     = Ok ({["image" := Numbers [1; 2]%Z]}, [])).
Proof.
  split.
  - destruct (save_npz_load_npz sample_has_object_dtype sample_truth_value
                ∅ "volume" true) as (H & _ & _).
    destruct (H (Numbers [1; 2; 3]%Z)) as (fs' & Hs & _ & Hl & _).
    specialize (Hl eq_refl).
    change (np.npz_name "volume") with "volume.npz" in Hl.
    exists fs'. split; [exact Hs|exact Hl].
  - destruct (save_npz_load_npz sample_has_object_dtype sample_truth_value
                ∅ "volume" false) as (_ & H & _).
    destruct (H {["image" := Numbers [1; 2]%Z]}) as (fs' & Hs & _ & Hl & _).
    + split; apply lookup_singleton_ne; discriminate.
    + change (np.npz_name "volume") with "volume.npz" in Hl.
      exists fs'. split; [exact Hs|]. apply Hl.
      apply map_Forall_singleton. reflexivity.
Defined.

(** C10, the statement as first given fails: an array of Python objects is
    written by [save_npz], and [load_npz] of the file written raises
    [ValueError]; a dictionary with the key [file] is refused with
    [TypeError]; and of a dictionary with the key [allow_pickle] that entry
    is not stored. *)
Lemma save_npz_load_npz_counterexample :
  (exists fs',
     save_npz sample_has_object_dtype sample_truth_value ∅
       (DataArray (Objects ["label"])) "volume.npz" true = Ok fs' /\
     load_npz sample_has_object_dtype fs' "volume.npz" = Raise ValueError) /\
  save_npz sample_has_object_dtype sample_truth_value ∅
    (DataDict {["file" := Numbers [1]%Z]}) "volume.npz" true
  = Raise TypeError /\
  (exists fs',
     save_npz sample_has_object_dtype sample_truth_value ∅
       (DataDict {["allow_pickle" := Numbers [1]%Z]}) "volume.npz" true
     = Ok fs' /\
     load_npz sample_has_object_dtype fs' "volume.npz" = Ok (∅, [])).
Proof.
  split; [|split].
  - eexists. split; [apply save_npz_array|].
    eapply (load_npz_objects _ _ _ _ "arr_0" (Objects ["label"]));
      [apply lookup_insert_eq| |done].
    simpl. apply lookup_singleton_eq.
  - apply save_npz_file_key. rewrite lookup_singleton_eq. by eexists.
  - eexists. split.
    + apply save_npz_dict_flag; [done|]. by apply map_Forall_singleton.
    + rewrite delete_singleton_eq.
      erewrite load_npz_members; [|apply lookup_insert_eq|]; [done|].
      apply map_Forall_empty.
Qed.

(* ===================================================================== *)
(** * More on the filter                                                  *)
(* ===================================================================== *)

Lemma list_filter_sublist {A : Type} (p : A -> bool) (l : list A) :
  List.filter p l `sublist_of` l.
Proof.
  induction l as [|x l IH]; simpl; [constructor|].
  destruct (p x); by constructor.
Qed.

Lemma list_filter_twice {A : Type} (p : A -> bool) (l : list A) :
  List.filter p (List.filter p l) = List.filter p l.
Proof.
  rewrite filter_filter_andb. apply List.filter_ext.
  intros x. by destruct (p x).
Qed.

Lemma list_filter_all {A : Type} (p : A -> bool) (l : list A) :
  (forall x, p x = true) -> List.filter p l = l.
Proof.
  intros Hp. induction l as [|x l IH]; simpl; [done|]. by rewrite Hp, IH.
Qed.

Lemma list_filter_none {A : Type} (p : A -> bool) (l : list A) :
  (forall x, p x = false) -> List.filter p l = [].
Proof.
  intros Hp. induction l as [|x l IH]; simpl; [done|]. by rewrite Hp, IH.
Qed.

Lemma contains_empty (s : string) : Str.contains EmptyString s = true.
Proof. by destruct s. Qed.

Lemma existsb_contains_empty (toks : list string) (s : string) :
  EmptyString ∈ toks -> existsb (fun tok => Str.contains tok s) toks = true.
Proof.
  intros Hin. apply existsb_exists. exists EmptyString.
  split; [by apply list_elem_of_In | apply contains_empty].
Qed.

(** Filtering a second time changes nothing. *)
Theorem filter_files_idempotent (self : FileManager) :
  Forall (under (as_path (path self))) (files self) ->
  exists filtered : FileManager,
    FileManager.filter_files self = Ok filtered /\
    FileManager.filter_files filtered = Ok filtered.
Proof.
  intros Hu. eexists. split; [by apply filter_files_kept|].
  rewrite filter_files_kept; simpl.
  - by rewrite list_filter_twice.
  - by apply Forall_list_filter.
Qed.

Lemma filter_files_idempotent_witness :
  exists filtered : FileManager,
    FileManager.filter_files
      (MkFileManager (PStr "/data") ".ext" None (Some ["train"]) None false
         [MkPath true ["data"; "x_train.ext"]; MkPath true ["data"; "x_val.ext"]])
    = Ok filtered /\
    FileManager.filter_files filtered = Ok filtered.
Proof.
  apply (filter_files_idempotent
           (MkFileManager (PStr "/data") ".ext" None (Some ["train"]) None false
              [MkPath true ["data"; "x_train.ext"];
               MkPath true ["data"; "x_val.ext"]])).
  repeat constructor; [by exists ["x_train.ext"] | by exists ["x_val.ext"]].
Defined.

(** The filter only drops files: what it keeps is a sub-list of the files it
    was given, in their order, and the manager is otherwise unchanged;
    without include and exclude names it drops nothing. *)
Theorem filter_files_only_drops (self : FileManager) :
  Forall (under (as_path (path self))) (files self) ->
  exists out : list PurePath,
    FileManager.filter_files self = Ok (set_files self out) /\
    out `sublist_of` files self /\
    (include_names self = None -> exclude_names self = None ->
     out = files self).
Proof.
  intros Hu. eexists. split; [by apply filter_files_kept|].
  split; [apply list_filter_sublist|].
  intros -> ->. by apply list_filter_all.
Qed.

Lemma filter_files_only_drops_witness :
  exists out : list PurePath,
    FileManager.filter_files
      (MkFileManager (PStr "/data") ".ext" None None (Some ["val"]) false
         [MkPath true ["data"; "x_train.ext"]; MkPath true ["data"; "x_val.ext"]])
    = Ok (MkFileManager (PStr "/data") ".ext" None None (Some ["val"]) false out) /\
    out `sublist_of`
      [MkPath true ["data"; "x_train.ext"]; MkPath true ["data"; "x_val.ext"]].
Proof.
  destruct (filter_files_only_drops
              (MkFileManager (PStr "/data") ".ext" None None (Some ["val"]) false
                 [MkPath true ["data"; "x_train.ext"];
                  MkPath true ["data"; "x_val.ext"]])) as (out & H1 & H2 & _).
  - repeat constructor; [by exists ["x_train.ext"] | by exists ["x_val.ext"]].
  - exists out. by split.
Defined.

Lemma set_files_same (self : FileManager) : set_files self (files self) = self.
Proof. by destruct self. Qed.

(** An empty list of include names keeps no file, where no list at all keeps
    every file; an include name that is the empty string is contained in
    every path, so that with it, and without exclude names, every file is
    kept. *)
Theorem filter_files_include_edge (self : FileManager) (inc : list string) :
  Forall (under (as_path (path self))) (files self) ->
  include_names self = Some inc ->
  (inc = [] -> FileManager.filter_files self = Ok (set_files self [])) /\
  (EmptyString ∈ inc -> exclude_names self = None ->
   FileManager.filter_files self = Ok self).
Proof.
  intros Hu Hinc. rewrite filter_files_kept by done. rewrite Hinc. split.
  - intros ->. by rewrite list_filter_none.
  - intros Hin ->. rewrite list_filter_all; [by rewrite set_files_same|].
    intros f. unfold kept. by rewrite existsb_contains_empty.
Qed.

Lemma filter_files_include_edge_witness :
  FileManager.filter_files
    (MkFileManager (PStr "/data") ".ext" None (Some []) None false
       [MkPath true ["data"; "x_train.ext"]; MkPath true ["data"; "x_val.ext"]])
  = Ok (MkFileManager (PStr "/data") ".ext" None (Some []) None false []).
Proof.
  destruct (filter_files_include_edge
              (MkFileManager (PStr "/data") ".ext" None (Some []) None false
                 [MkPath true ["data"; "x_train.ext"];
                  MkPath true ["data"; "x_val.ext"]]) []) as [H _].
  - repeat constructor; [by exists ["x_train.ext"] | by exists ["x_val.ext"]].
  - reflexivity.
  - exact (H eq_refl).
Defined.

(** An empty list of exclude names drops nothing; an exclude name that is
    the empty string is contained in every path and drops every file,
    whatever the include names. *)
Theorem filter_files_exclude_edge (self : FileManager) (exc : list string) :
  Forall (under (as_path (path self))) (files self) ->
  exclude_names self = Some exc ->
  (exc = [] -> include_names self = None ->
   FileManager.filter_files self = Ok self) /\
  (EmptyString ∈ exc -> FileManager.filter_files self = Ok (set_files self [])).
Proof.
  intros Hu Hexc. rewrite filter_files_kept by done. rewrite Hexc. split.
  - intros -> ->. rewrite list_filter_all; [by rewrite set_files_same | done].
  - intros Hin. rewrite list_filter_none; [done|].
    intros f. unfold kept. rewrite (existsb_contains_empty exc) by done.
    apply andb_false_r.
Qed.

Lemma filter_files_exclude_edge_witness :
  FileManager.filter_files
    (MkFileManager (PStr "/data") ".ext" None (Some ["train"])
       (Some ["val"; EmptyString]) false
       [MkPath true ["data"; "x_train.ext"]; MkPath true ["data"; "x_val.ext"]])
  = Ok (MkFileManager (PStr "/data") ".ext" None (Some ["train"])
          (Some ["val"; EmptyString]) false []).
Proof.
  destruct (filter_files_exclude_edge
              (MkFileManager (PStr "/data") ".ext" None (Some ["train"])
                 (Some ["val"; EmptyString]) false
                 [MkPath true ["data"; "x_train.ext"];
                  MkPath true ["data"; "x_val.ext"]])
              ["val"; EmptyString]) as [_ H].
  - repeat constructor; [by exists ["x_train.ext"] | by exists ["x_val.ext"]].
  - reflexivity.
  - apply H. apply list_elem_of_In. simpl. tauto.
Defined.

(* ===================================================================== *)
(** * More on sorting and stacks                                          *)
(* ===================================================================== *)

(** Inserting [x] leaves the elements of a key class in their order, with
    [x] in front of them when it belongs to the class. *)
Lemma filter_insert_sorted (k : list natsort.token) (x : PurePath)
    (l : list PurePath) :
  List.filter (has_key k) (insert_sorted name_ltb x l)
  = List.filter (has_key k) (x :: l).
Proof.
  induction l as [|y l IH]; [done|].
  simpl insert_sorted. destruct (name_ltb y x) eqn:Hlt; [|done].
  simpl in IH |- *. rewrite IH.
  destruct (has_key k x) eqn:Hx; [|done].
  destruct (has_key k y) eqn:Hy; [|done].
  exfalso. unfold has_key in Hx, Hy.
  destruct (natsort.key_cmp (natsort.natsort_key (Path.name x)) k) eqn:Ex;
    try done.
  destruct (natsort.key_cmp (natsort.natsort_key (Path.name y)) k) eqn:Ey;
    try done.
  apply key_cmp_eq in Ex, Ey. unfold name_ltb, natsort.key_ltb in Hlt.
  rewrite Ex, Ey, key_cmp_refl in Hlt. done.
Qed.

(** The natural sort is stable: files whose names have the same natural key,
    as [a_1.ext] and [a_01.ext], stay in the order in which they were
    given. *)
Theorem natsorted_by_name_stable (k : list natsort.token) (l : list PurePath) :
  List.filter (has_key k) (natsorted_by_name l) = List.filter (has_key k) l.
Proof.
  induction l as [|x l IH]; [done|].
  change (natsorted_by_name (x :: l))
    with (insert_sorted name_ltb x (natsorted_by_name l)).
  rewrite filter_insert_sorted. simpl. by rewrite IH.
Qed.

Lemma rmap_length {A B : Type} (f : A -> result B) (l : list A) (out : list B) :
  rmap f l = Ok out -> List.length out = List.length l.
Proof.
  revert out. induction l as [|x l IH]; intros out; simpl.
  - by intros [= <-].
  - destruct (f x) as [e|y]; simpl; [discriminate|].
    destruct (rmap f l) as [e|ys]; simpl; [discriminate|].
    intros [= <-]. simpl. by rewrite (IH ys eq_refl).
Qed.

Lemma remove_dups_length {A : Type} `{EqDecision A} (l : list A) :
  List.length (remove_dups l) <= List.length l.
Proof.
  induction l as [|x l IH]; simpl; [done|].
  destruct (decide_rel elem_of x l); simpl; lia.
Qed.

(** Over the same file system and arguments, the stacked manager never holds
    more entries than the plain manager holds files. *)
Theorem stacked_never_longer (glob : glob_oracle) (self plain stacked : FileManager) :
  FileManager.collect_files glob self = Ok plain ->
  FileManagerStacked.collect_files glob self = Ok stacked ->
  FileManager.len stacked <= FileManager.len plain.
Proof.
  intros Hp. unfold FileManagerStacked.collect_files, FileManager.len.
  rewrite Hp. simpl. destruct (files plain) as [|f fs] eqn:E.
  - intros [= <-]. by rewrite E.
  - rewrite <- E. destruct (rmap _ _) as [e|out] eqn:Hr; simpl; [discriminate|].
    intros [= <-]. simpl. apply rmap_length in Hr.
    rewrite (Permutation_length (natsorted_perm _)). unfold np_unique.
    rewrite (Permutation_length (py_sorted_perm _ _)).
    etrans; [apply remove_dups_length | lia].
Qed.

Lemma stacked_never_longer_witness :
  exists plain stacked : FileManager,
    FileManager.collect_files (FlatFS.glob stack_dir)
      (MkFileManager (PStr "/data") ".ext" None None None false []) = Ok plain /\
    FileManagerStacked.collect_files (FlatFS.glob stack_dir)
      (MkFileManager (PStr "/data") ".ext" None None None false []) = Ok stacked /\
    FileManager.len plain = 6 /\
    FileManager.len stacked <= FileManager.len plain.
Proof.
  eexists. eexists. split; [reflexivity|]. split; [reflexivity|].
  split; [reflexivity|].
  apply (stacked_never_longer (FlatFS.glob stack_dir)
           (MkFileManager (PStr "/data") ".ext" None None None false []));
    reflexivity.
Defined.

(* ===================================================================== *)
(** * Names of files                                                      *)
(* ===================================================================== *)

Lemma split_no_sep (c : ascii) (x : string) :
  Str.mem_char c x = false -> Str.split c x = [x].
Proof.
  induction x as [|a x IH]; simpl; [done|].
  intros H. apply orb_false_iff in H as [Ha Hx].
  rewrite Ha, (IH Hx). done.
Qed.

Lemma split_app_sep (c : ascii) (x rest : string) :
  Str.mem_char c x = false ->
  Str.split c (x +:+ String c rest) = x :: Str.split c rest.
Proof.
  induction x as [|a x IH]; intros H.
  - rewrite append_empty_l. simpl. by rewrite Ascii.eqb_refl.
  - simpl in H. apply orb_false_iff in H as [Ha Hx].
    rewrite append_String. simpl. rewrite Ha, (IH Hx). done.
Qed.

Lemma split_join (l : list string) :
  l <> [] -> Forall wf_part l -> Str.split "/" (Str.join "/" l) = l.
Proof.
  intros Hne Hwf. induction Hwf as [|x l Hx Hl IH]; [done|].
  destruct l as [|y l].
  - simpl. apply split_no_sep, Hx.
  - change (Str.join "/" (x :: y :: l))
      with (x +:+ String "/" (Str.join "/" (y :: l))).
    rewrite split_app_sep by apply Hx. by rewrite IH.
Qed.

Lemma filter_wf_parts (l : list string) :
  Forall wf_part l ->
  filter (fun c : string => c <> EmptyString /\ c <> ".") l = l.
Proof.
  induction 1 as [|x l Hx _ IH]; [done|].
  rewrite filter_cons_True by (split; apply Hx). by rewrite IH.
Qed.

Lemma prefix_sep_wf (x rest : string) :
  wf_part x -> String.prefix "/" (x +:+ rest) = false.
Proof.
  intros (Hne & _ & Hsep). destruct x as [|a x]; [done|].
  destruct (String.prefix "/" (String a x +:+ rest)) eqn:E; [|done].
  apply prefix_app in E as [b Hb]. rewrite append_String in Hb.
  change ("/" +:+ b) with (String "/" b) in Hb. injection Hb as -> _.
  simpl in Hsep. discriminate Hsep.
Qed.

Lemma join_cons (x : string) (l : list string) :
  exists rest, Str.join "/" (x :: l) = x +:+ rest.
Proof.
  destruct l as [|y l].
  - exists EmptyString. simpl. by rewrite append_empty_r.
  - by exists (String "/" (Str.join "/" (y :: l))).
Qed.

(** A well-formed path is read back from its string. *)
Lemma of_str_to_str (p : PurePath) :
  wf_path p -> Path.of_str (Path.to_str p) = p.
Proof.
  destruct p as [anc ps]. unfold wf_path, Path.of_str, Path.to_str. simpl.
  intros Hwf. destruct anc.
  - change ("/" +:+ Str.join "/" ps) with (String "/" (Str.join "/" ps)).
    f_equal; [by apply prefix_app; eexists|].
    change (Str.split "/" (String "/" (Str.join "/" ps)))
      with (EmptyString :: Str.split "/" (Str.join "/" ps)).
    rewrite filter_cons_False by (intros [? _]; done).
    destruct ps as [|x ps]; [done|].
    rewrite split_join by done. by apply filter_wf_parts.
  - destruct ps as [|x ps]; [done|]. f_equal.
    + destruct (join_cons x ps) as [rest ->].
      apply prefix_sep_wf. by apply Forall_cons in Hwf as [Hx _].
    + rewrite split_join by done. by apply filter_wf_parts.
Qed.

Lemma name_from_path_of_file (self : FileManager) (f : PurePath) (include_ext : bool) :
  under (as_path (path self)) f -> wf_path f ->
  FileManager.name_from_path self (FStr (Path.to_str f)) include_ext
  = Ok (if include_ext then rel_string (as_path (path self)) f
        else Str.delete_all (file_type self) (rel_string (as_path (path self)) f)).
Proof.
  intros [rel ->] Hwf. unfold FileManager.name_from_path, rel_string. simpl.
  rewrite (of_str_to_str _ Hwf), relative_to_joinpath. done.
Qed.

Lemma py_index_spec {A : Type} (l : list A) (i : Z) :
  let n := Z.of_nat (List.length l) in
  ((0 <= i < n)%Z ->
   exists x, l !! Z.to_nat i = Some x /\ py_index l i = Ok x) /\
  ((- n <= i < 0)%Z ->
   exists x, l !! Z.to_nat (n + i) = Some x /\ py_index l i = Ok x) /\
  ((i < - n \/ n <= i)%Z -> py_index l i = Raise IndexError).
Proof.
  intros n. unfold py_index. fold n. split; [|split].
  - intros Hi. rewrite (proj2 (Z.ltb_ge i 0)) by lia.
    rewrite (proj2 (Z.leb_le 0 i)), (proj2 (Z.ltb_lt i n)) by lia. simpl.
    destruct (lookup_lt_is_Some_2 l (Z.to_nat i)) as [x Hx]; [lia|].
    exists x. by rewrite Hx.
  - intros Hi. rewrite (proj2 (Z.ltb_lt i 0)) by lia.
    rewrite (proj2 (Z.leb_le 0 (n + i))), (proj2 (Z.ltb_lt (n + i) n)) by lia.
    simpl. destruct (lookup_lt_is_Some_2 l (Z.to_nat (n + i))) as [x Hx]; [lia|].
    exists x. by rewrite Hx.
  - intros Hi. destruct (i <? 0)%Z eqn:E.
    + apply Z.ltb_lt in E.
      rewrite (proj2 (Z.leb_gt 0 (n + i))) by lia. done.
    + apply Z.ltb_ge in E.
      rewrite (proj2 (Z.ltb_ge i n)) by lia. by rewrite andb_false_r.
Qed.

(** For a manager whose files lie under its root, [name_from_path] of an
    index is the path of that file relative to the root: the index counts
    from the front, a negative one from the end, and an index outside both
    ranges raises [IndexError]. *)
Theorem name_from_path_of_index (self : FileManager) (i : Z) :
  Forall (under (as_path (path self))) (files self) ->
  Forall wf_path (files self) ->
  let n := Z.of_nat (FileManager.len self) in
  let root := as_path (path self) in
  ((0 <= i < n)%Z ->
   exists f, files self !! Z.to_nat i = Some f /\
     FileManager.name_from_path self (FInt i) true = Ok (rel_string root f)) /\
  ((- n <= i < 0)%Z ->
   exists f, files self !! Z.to_nat (n + i) = Some f /\
     FileManager.name_from_path self (FInt i) true = Ok (rel_string root f)) /\
  ((i < - n \/ n <= i)%Z ->
   FileManager.name_from_path self (FInt i) true = Raise IndexError).
Proof.
  intros Hu Hwf n root.
  destruct (py_index_spec (files self) i) as (Hpos & Hneg & Hout).
  assert (Hfile : forall k f, files self !! k = Some f ->
            py_index (files self) i = Ok f ->
            FileManager.name_from_path self (FInt i) true
            = Ok (rel_string root f)).
  { intros k f Hk Hi.
    pose proof (name_from_path_of_file self f true
                  (proj1 (Forall_lookup _ _) Hu k f Hk)
                  (proj1 (Forall_lookup _ _) Hwf k f Hk)) as H.
    unfold FileManager.name_from_path in H |- *. rewrite Hi. exact H. }
  split; [|split].
  - intros Hi. destruct (Hpos Hi) as (f & Hf & Hpy). exists f. eauto.
  - intros Hi. destruct (Hneg Hi) as (f & Hf & Hpy). exists f. eauto.
  - intros Hi. unfold FileManager.name_from_path. by rewrite (Hout Hi).
Qed.

Lemma name_from_path_of_index_witness :
  FileManager.name_from_path
    (MkFileManager (PStr "/data") ".ext" None None None false
       [MkPath true ["data"; "a_2.ext"]; MkPath true ["data"; "sub"; "a_10.ext"]])
    (FInt (-1)) true
  = Ok "sub/a_10.ext".
Proof.
  destruct (name_from_path_of_index
              (MkFileManager (PStr "/data") ".ext" None None None false
                 [MkPath true ["data"; "a_2.ext"];
                  MkPath true ["data"; "sub"; "a_10.ext"]]) (-1))
    as (_ & H & _).
  - repeat constructor; [by exists ["a_2.ext"] | by exists ["sub"; "a_10.ext"]].
  - repeat constructor; done.
  - destruct H as (f & Hf & ->); [unfold FileManager.len; simpl; lia|].
    injection Hf as <-. reflexivity.
Defined.

Lemma string_length_app (s t : string) :
  String.length (s +:+ t) = String.length s + String.length t.
Proof.
  induction s as [|a s IH]; [done|]. rewrite append_String. simpl. by rewrite IH.
Qed.

Lemma delete_all_from_skip (old s : string) (k : nat) :
  String.length s <= k -> Str.delete_all_from old k s = EmptyString.
Proof.
  revert k. induction s as [|a s IH]; intros k Hk; [done|].
  destruct k as [|k]; simpl in Hk; [lia|]. simpl. apply IH. lia.
Qed.

Lemma delete_all_from_cons (old : string) (a : ascii) (s : string) :
  Str.delete_all_from old 0 (String a s)
  = if String.prefix old (String a s)
    then Str.delete_all_from old (String.length old - 1) s
    else String a (Str.delete_all_from old 0 s).
Proof. reflexivity. Qed.

Lemma only_at_end_tail (ext : string) (c : ascii) (s : string) :
  only_at_end ext (String c s) -> only_at_end ext s.
Proof.
  intros H a b Hab. apply (H (String c a) b).
  rewrite !append_String. by rewrite Hab.
Qed.

(** Deleting the occurrences of [ext] from [s +:+ ext] leaves [s] when [ext]
    occurs at the end only. *)
Lemma delete_all_suffix (ext s : string) :
  only_at_end ext s -> Str.delete_all ext (s +:+ ext) = s.
Proof.
  destruct ext as [|e ext].
  - intros _. simpl. apply append_empty_r.
  - change (Str.delete_all (String e ext) (s +:+ String e ext))
      with (Str.delete_all_from (String e ext) 0 (s +:+ String e ext)).
    induction s as [|c s IH]; intros H.
    + rewrite append_empty_l, delete_all_from_cons.
      rewrite (proj2 (prefix_app (String e ext) (String e ext)))
        by (exists EmptyString; by rewrite append_empty_r).
      apply delete_all_from_skip. simpl. lia.
    + rewrite append_String, delete_all_from_cons.
      destruct (String.prefix _ _) eqn:E.
      * exfalso. apply prefix_app in E as [b Hb].
        assert (b = EmptyString) as ->.
        { apply (H EmptyString b). by rewrite append_String, append_empty_l. }
        rewrite append_empty_r in Hb.
        apply (f_equal String.length) in Hb.
        rewrite <- append_String, string_length_app in Hb. simpl in Hb. lia.
      * f_equal. apply IH. by apply only_at_end_tail in H.
Qed.

(** When the relative name of a file is a stem followed by the extension,
    and the extension occurs nowhere else in it, [name_from_path] without
    extension returns the stem. *)
Theorem name_from_path_without_ext (self : FileManager) (file : file_arg)
    (stem : string) :
  FileManager.name_from_path self file true = Ok (stem +:+ file_type self) ->
  only_at_end (file_type self) stem ->
  FileManager.name_from_path self file false = Ok stem.
Proof.
  unfold FileManager.name_from_path. intros Hname Honly.
  destruct (match file with FInt _ => _ | FStr _ => _ end) as [e|f];
    simpl in *; [discriminate|].
  destruct (Path.relative_to _ _) as [e|rel]; simpl in *; [discriminate|].
  injection Hname as ->. by rewrite delete_all_suffix.
Qed.

Lemma name_from_path_without_ext_witness :
  FileManager.name_from_path
    (MkFileManager (PStr "/data") ".ext" None None None false [])
    (FStr "/data/sub/a_2.ext") false
  = Ok "sub/a_2".
Proof.
  apply (name_from_path_without_ext
           (MkFileManager (PStr "/data") ".ext" None None None false [])
           (FStr "/data/sub/a_2.ext") "sub/a_2"); [reflexivity|].
  intros a b H.
  repeat (destruct a as [|? a]; cbv in H; try congruence).
Defined.

(* ===================================================================== *)
(** * What a valid layer is                                               *)
(* ===================================================================== *)

Lemma if_snoc_nil {A : Type} (c : bool) (es : list A) (x : A) :
  (if c then es ++ [x] else es) = [] -> c = false /\ es = [].
Proof.
  destruct c; [|done]. intros H. by destruct es.
Qed.

Lemma get_is_str (d : dict) (k : string) :
  is_str (Dict.get d k) = true -> exists s, Dict.lookup d k = Some (VStr s).
Proof.
  unfold Dict.get, Dict.get_default.
  destruct (Dict.lookup d k) as [[]|]; try done. eauto.
Qed.

Lemma get_is_int (d : dict) (k : string) :
  is_int (Dict.get d k) = true ->
  exists c, Dict.lookup d k = Some c /\ is_int c = true.
Proof.
  unfold Dict.get, Dict.get_default.
  destruct (Dict.lookup d k) as [c|]; [eauto | done].
Qed.

Lemma get_in_types (d : dict) (k : string) (types : list string) :
  in_types (Dict.get d k) types = true ->
  exists ty, Dict.lookup d k = Some (VStr ty) /\ ty ∈ types.
Proof.
  unfold Dict.get, Dict.get_default.
  destruct (Dict.lookup d k) as [[]|]; try done. simpl.
  intros H. apply bool_decide_eq_true in H. eauto.
Qed.

Lemma missing_nil (layer_cfg : dict) (reqs : list string) :
  missing layer_cfg reqs = [] ->
  Forall (fun req => Dict.mem req layer_cfg = true) reqs.
Proof.
  induction reqs as [|req reqs IH]; simpl; [constructor|].
  destruct (Dict.mem req layer_cfg) eqn:E; [|done].
  intros H. constructor; [done | by apply IH].
Qed.

(** The checks before the branch on the type pass only for a non-empty
    string [name], a string [path] and a non-empty string [file_type]. *)
Lemma common_checks_nil (layer_cfg : dict) :
  let get := Dict.get layer_cfg in
  let e0 := missing layer_cfg ["name"; "type"; "path"; "file_type"] in
  let e1 := if negb (is_str (get "name")) || is_empty_string (get "name")
            then e0 ++ [NameNotString (get "name")] else e0 in
  let e2 := if negb (is_str (get "path"))
            then e1 ++ [PathNotString (get "path")] else e1 in
  let e3 := if negb (is_str (get "file_type"))
               || is_empty_string (get "file_type")
            then e2 ++ [FileTypeNotString (get "file_type")] else e2 in
  e3 = [] ->
  (exists name, Dict.lookup layer_cfg "name" = Some (VStr name) /\
                name <> EmptyString) /\
  (exists path, Dict.lookup layer_cfg "path" = Some (VStr path)) /\
  (exists ft, Dict.lookup layer_cfg "file_type" = Some (VStr ft) /\
              ft <> EmptyString).
Proof.
  intros get e0 e1 e2 e3 H.
  apply if_snoc_nil in H as [H3 H]. apply if_snoc_nil in H as [H2 H].
  apply if_snoc_nil in H as [H1 _].
  apply orb_false_iff in H1 as [H1 H1'], H3 as [H3 H3'].
  apply negb_false_iff in H1, H2, H3.
  apply get_is_str in H2. split; [|split; [done|]].
  - destruct (get_is_str _ _ H1) as [n Hn]. exists n. split; [done|].
    unfold get in H1'. rewrite (get_lookup_Some _ _ _ Hn) in H1'.
    by apply bool_decide_eq_false in H1'.
  - destruct (get_is_str _ _ H3) as [n Hn]. exists n. split; [done|].
    unfold get in H3'. rewrite (get_lookup_Some _ _ _ Hn) in H3'.
    by apply bool_decide_eq_false in H3'.
Qed.

Lemma pattern_check_nil (layer_cfg : dict) :
  Dict.mem "pattern" layer_cfg
  && negb (match Dict.get layer_cfg "pattern" with VNone => true | _ => false end)
  && negb (is_str (Dict.get layer_cfg "pattern")) = false ->
  Dict.lookup layer_cfg "pattern" = None \/
  Dict.lookup layer_cfg "pattern" = Some VNone \/
  exists pat, Dict.lookup layer_cfg "pattern" = Some (VStr pat).
Proof.
  unfold Dict.mem, Dict.get, Dict.get_default.
  destruct (Dict.lookup layer_cfg "pattern") as [[]|]; simpl; try done; eauto.
Qed.

(** [verify_layer] returns the valid verdict exactly for the layers that
    hold a non-empty string [name], a string [path], a non-empty string
    [file_type], the type [Image] with an integer [channels] or one of the
    label types with an integer [classes], and no [pattern] other than a
    string or [None]; a Boolean counts as an integer. *)
Theorem verify_layer_valid_iff (layer_cfg : dict) :
  verify_layer layer_cfg = Ok (true, []) <-> well_formed_layer layer_cfg.
Proof.
  split.
  - unfold verify_layer.
    destruct (in_types (Dict.get layer_cfg "type") _IMAGE_TYPES) eqn:Himg;
      [|destruct (in_types (Dict.get layer_cfg "type") _LABEL_TYPES) eqn:Hlbl].
    + simpl. intros [= _ H].
      apply if_snoc_nil in H as [Hpat H]. apply if_snoc_nil in H as [Hch H].
      apply app_eq_nil in H as [H Hmiss].
      destruct (common_checks_nil layer_cfg H) as (Hn & Hp & Hf).
      apply pattern_check_nil in Hpat. apply negb_false_iff, get_is_int in Hch.
      apply get_in_types in Himg as (ty & Hty & Hin).
      apply list_elem_of_singleton in Hin as ->.
      repeat split; try done. by left.
    + simpl. intros [= _ H].
      apply if_snoc_nil in H as [Hpat H].
      apply app_eq_nil in H as [H Hcls].
      rewrite app_nil_r in Hcls. apply app_eq_nil in Hcls as [_ Hcls].
      destruct (common_checks_nil layer_cfg H) as (Hn & Hp & Hf).
      apply pattern_check_nil in Hpat.
      destruct (is_int (Dict.get layer_cfg "classes")) eqn:Hint; [|done].
      apply get_is_int in Hint. apply get_in_types in Hlbl.
      repeat split; try done. by right.
    + destruct (Dict.getitem layer_cfg "type") as [e|ty]; [done|].
      unfold rbind, Ok. intros [= _ H]. apply if_snoc_nil in H as [_ H].
      by apply app_eq_nil in H as [_ H].
  - intros ((n & Hn & Hne) & (p & Hp) & (ft & Hft & Hfne) & Hty & Hpat).
    assert (Hpat' :
      Dict.mem "pattern" layer_cfg
      && negb (match Dict.get layer_cfg "pattern" with VNone => true | _ => false end)
      && negb (is_str (Dict.get layer_cfg "pattern")) = false).
    { unfold Dict.mem, Dict.get, Dict.get_default.
      destruct Hpat as [-> | [-> | [pat ->]]]; done. }
    destruct Hty as [[Hty (c & Hc & Hint)] | [(ty & Hty & Hin) (c & Hc & Hint)]].
    + unfold verify_layer. rewrite Hpat'.
      unfold missing, Dict.mem, Dict.get, Dict.get_default.
      simpl. rewrite !Hn, !Hp, !Hft, !Hty, !Hc. simpl. rewrite Hint. simpl.
      by rewrite !bool_decide_eq_false_2 by done.
    + assert (in_types (VStr ty) _IMAGE_TYPES = false) as Himg.
      { simpl. apply bool_decide_eq_false. intros H.
        apply list_elem_of_singleton in H as ->.
        apply list_elem_of_In in Hin. simpl in Hin. intuition discriminate. }
      unfold verify_layer. rewrite Hpat'.
      unfold missing, Dict.mem, Dict.get, Dict.get_default.
      simpl. rewrite !Hn, !Hp, !Hft, !Hty, !Hc. simpl in Himg |- *.
      rewrite Himg. rewrite (bool_decide_eq_true_2 (ty ∈ _LABEL_TYPES)) by done.
      simpl. rewrite Hint. simpl.
      by rewrite !bool_decide_eq_false_2 by done.
Qed.

(* ===================================================================== *)
(** * Applying a split                                                    *)
(* ===================================================================== *)

Lemma lookup_set (d : dict) (k k' : string) (v : value) :
  Dict.lookup (Dict.set d k v) k'
  = if String.eqb k k' then Some v else Dict.lookup d k'.
Proof.
  induction d as [|[k0 v0] d IH]; simpl.
  - done.
  - destruct (String.eqb_spec k0 k) as [->|Hne]; simpl.
    + by destruct (String.eqb k k').
    + rewrite IH. destruct (String.eqb_spec k0 k') as [->|Hne'].
      * by rewrite (proj2 (String.eqb_neq k k')) by done.
      * done.
Qed.

Lemma lookup_not_in (o : dict) (k : string) :
  k ∉ o.*1 -> Dict.lookup o k = None.
Proof.
  induction o as [|[k0 v0] o IH]; simpl; [done|].
  intros Hk. apply not_elem_of_cons in Hk as [Hne Hk].
  rewrite (proj2 (String.eqb_neq k0 k)) by done. by apply IH.
Qed.

(** After [d.update(o)] a key has the value [o] gives it, and otherwise the
    one it had in [d]. *)
Lemma lookup_update (d o : dict) (k : string) :
  NoDup o.*1 ->
  Dict.lookup (Dict.update d o) k
  = match Dict.lookup o k with
    | Some v => Some v
    | None => Dict.lookup d k
    end.
Proof.
  unfold Dict.update. revert d.
  induction o as [|[k0 v0] o IH]; intros d Hnd; simpl; [done|].
  apply NoDup_cons in Hnd as [Hk0 Hnd]. rewrite (IH _ Hnd), lookup_set.
  destruct (String.eqb_spec k0 k) as [->|Hne]; [|done].
  by rewrite (lookup_not_in o k).
Qed.

(** [apply_split_layer] merges field by field: in the layer it returns for
    an override of the split section, a key of the override has the
    override's value and every other key the value of the base layer. *)
Theorem apply_split_layer_merges (layer : dict) (target_split : string)
    (split_cfg per_layer _cfg : dict) (name : string) :
  Dict.lookup split_cfg target_split = Some (VDict per_layer) ->
  Dict.lookup layer "name" = Some (VStr name) ->
  Dict.lookup per_layer name = Some (VDict _cfg) ->
  NoDup _cfg.*1 ->
  exists target_layer : dict,
    apply_split_layer layer target_split split_cfg = Ok (Some target_layer) /\
    forall k, Dict.lookup target_layer k
              = match Dict.lookup _cfg k with
                | Some v => Some v
                | None => Dict.lookup layer k
                end.
Proof.
  intros Hsplit Hname Hlayer Hnd. exists (Dict.update layer _cfg). split.
  - unfold apply_split_layer, Dict.get_default, Dict.attr.
    rewrite Hsplit, Hname. simpl. by rewrite Hlayer.
  - intros k. by apply lookup_update.
Qed.

Lemma apply_split_layer_merges_witness :
  exists target_layer : dict,
    apply_split_layer image_layer "val" val_override = Ok (Some target_layer) /\
    Dict.lookup target_layer "pattern" = Some (VStr "val_*") /\
    Dict.lookup target_layer "path" = Some (VStr "/data").
Proof.
  destruct (apply_split_layer_merges image_layer "val" val_override
              [("img", VDict [("pattern", VStr "val_*")])]
              [("pattern", VStr "val_*")] "img" eq_refl eq_refl eq_refl)
    as (target & Happly & Hlookup).
  - repeat constructor. apply not_elem_of_nil.
  - exists target. split; [exact Happly|].
    split; [apply (Hlookup "pattern") | apply (Hlookup "path")].
Defined.

Lemma apply_split_loop_strings (split_cfg : value) (split : string)
    (todo layers out : list value) :
  Forall (fun v => exists s, v = VStr s) layers ->
  apply_split_loop split_cfg split todo layers = Ok out ->
  Forall (fun v => exists s, v = VStr s) out.
Proof.
  revert layers. induction todo as [|layer rest IH]; intros layers Hl; simpl.
  - by intros [= <-].
  - destruct (as_dict split_cfg) as [e|sc]; simpl; [discriminate|].
    destruct (as_dict layer) as [e|l]; simpl; [discriminate|].
    destruct (apply_split_layer l split sc) as [e|[d|]]; simpl; try discriminate.
    apply IH. apply Forall_app. split; [done|].
    clear. induction d as [|[k v] d IHd]; simpl; constructor; eauto.
Qed.

Lemma apply_split_loop_without_override (split_cfg : value) (sc : dict)
    (split : string) (todo layers : list value) (layer : dict) :
  split_cfg = VDict sc ->
  VDict layer ∈ todo ->
  apply_split_layer layer split sc = Ok None ->
  exists e, apply_split_loop split_cfg split todo layers = Raise e.
Proof.
  intros -> Hin Hnone. revert layers.
  induction todo as [|x rest IH]; intros layers; [by apply elem_of_nil in Hin|].
  simpl. apply elem_of_cons in Hin as [<-|Hin].
  - simpl. rewrite Hnone. simpl. by eexists.
  - destruct (as_dict x) as [e|l]; simpl; [by eexists|].
    destruct (apply_split_layer l split sc) as [e|[d|]]; simpl;
      [by eexists | by apply IH | by eexists].
Qed.

(** [apply_split] fails as soon as the split section holds no override for
    one of the layers: extending the list of layers by [None] is an error,
    so the function never returns then. *)
Theorem apply_split_needs_every_override (cfg sc : dict) (split : string)
    (layers : list value) (layer : dict) :
  Dict.lookup cfg "layers" = Some (VList layers) ->
  Dict.get_default cfg "split" (VDict []) = VDict sc ->
  VDict layer ∈ layers ->
  apply_split_layer layer split sc = Ok None ->
  exists e, apply_split cfg split = Raise e.
Proof.
  intros Hlayers Hsplit Hin Hnone. unfold apply_split, Dict.attr.
  rewrite Hlayers. simpl.
  destruct (apply_split_loop_without_override _ sc split layers [] layer
              Hsplit Hin Hnone) as [e ->].
  by exists e.
Qed.

Lemma apply_split_needs_every_override_witness :
  apply_split_layer image_layer "train" val_override = Ok None /\
  exists e, apply_split cfg_with_override "train" = Raise e.
Proof.
  split; [reflexivity|].
  apply (apply_split_needs_every_override cfg_with_override val_override
           "train" [VDict image_layer] image_layer eq_refl eq_refl).
  - apply list_elem_of_singleton. reflexivity.
  - reflexivity.
Defined.

(** What [apply_split] stores as the layers when it does return is a list of
    strings, the keys of the merged layers, and never a layer mapping. *)
Theorem apply_split_stores_keys (cfg cfg' : dict) (split : string) :
  apply_split cfg split = Ok cfg' ->
  exists keys : list value,
    Dict.lookup cfg' "layers" = Some (VList keys) /\
    Forall (fun v => exists s, v = VStr s) keys.
Proof.
  unfold apply_split. destruct (Dict.attr cfg "layers") as [e|ls]; simpl;
    [discriminate|].
  destruct (iterate ls) as [e|todo]; simpl; [discriminate|].
  destruct (apply_split_loop _ split todo []) as [e|out] eqn:Hloop; simpl;
    [discriminate|].
  intros [= <-]. exists out. split.
  - rewrite lookup_set. by rewrite String.eqb_refl.
  - eapply apply_split_loop_strings; [|exact Hloop]. constructor.
Qed.

Lemma apply_split_stores_keys_witness :
  apply_split cfg_with_override "val"
  = Ok (Dict.set cfg_with_override "layers"
          (VList [VStr "name"; VStr "type"; VStr "path"; VStr "file_type";
                  VStr "channels"; VStr "pattern"])) /\
  exists keys : list value,
    Dict.lookup
      (Dict.set cfg_with_override "layers"
         (VList [VStr "name"; VStr "type"; VStr "path"; VStr "file_type";
                 VStr "channels"; VStr "pattern"])) "layers"
    = Some (VList keys) /\
    Forall (fun v => exists s, v = VStr s) keys.
Proof.
  split; [reflexivity|].
  apply (apply_split_stores_keys cfg_with_override _ "val"). reflexivity.
Defined.

(* ===================================================================== *)
(** * The run of verify_config                                            *)
(* ===================================================================== *)

Lemma for_each_outputs {A : Type} (l : list A) (body : A -> io unit)
    (out : A -> list event) :
  (forall x, x ∈ l -> body x = (out x, Ok tt)) ->
  for_each l body = (flat_map out l, Ok tt).
Proof.
  induction l as [|x l IH]; intros Hbody; simpl; [done|].
  rewrite (Hbody x) by apply list_elem_of_here.
  rewrite IH by (intros y Hy; apply Hbody; by apply list_elem_of_further).
  done.
Qed.

Lemma verify_config_layer_events
    (build_file_manager : bfm_args -> result FileManager) (layer : dict) :
  Forall (fun e => is_layer_event e = true)
    (verify_config_layer build_file_manager layer).1.
Proof.
  unfold verify_config_layer. simpl.
  destruct (verify_layer layer) as [e|[is_valid errs]]; simpl;
    [by repeat constructor|].
  destruct (Dict.attr layer "name") as [e|name]; simpl;
    [by repeat constructor|].
  destruct is_valid; simpl.
  - destruct (Dict.attr layer "path") as [e|p]; simpl;
      [by repeat constructor|].
    destruct (Dict.attr layer "file_type") as [e|ft]; simpl;
      [by repeat constructor|].
    destruct (build_file_manager _) as [e|fm]; simpl; by repeat constructor.
  - rewrite (for_each_outputs errs _ (fun err => [EvLayerError err])) by done.
    simpl. repeat constructor.
    rewrite app_nil_r. clear. induction errs; simpl; by constructor.
Qed.

Lemma verify_layers_events
    (build_file_manager : bfm_args -> result FileManager) (layers : list dict)
    (acc : list (value * bool)) :
  Forall (fun e => is_layer_event e = true)
    (verify_layers build_file_manager layers acc).1.
Proof.
  revert acc. induction layers as [|layer rest IH]; intros acc; simpl;
    [constructor|].
  pose proof (verify_config_layer_events build_file_manager layer) as Hl.
  destruct (verify_config_layer build_file_manager layer) as [out [e|entry]];
    simpl in *; [done|].
  specialize (IH (valid_set acc entry.1 entry.2)).
  destruct (verify_layers build_file_manager rest _) as [out' r]; simpl in *.
  by apply Forall_app.
Qed.

Lemma verify_layers_stops
    (build_file_manager : bfm_args -> result FileManager) (layers : list dict)
    (acc : list (value * bool)) (layer : dict) :
  layer ∈ layers ->
  Dict.lookup layer "type" = None ->
  exists e, (verify_layers build_file_manager layers acc).2 = inl e.
Proof.
  intros Hin Hty. revert acc.
  induction layers as [|x rest IH]; intros acc; [by apply elem_of_nil in Hin|].
  simpl. apply elem_of_cons in Hin as [<-|Hin].
  - unfold verify_config_layer, verify_layer.
    rewrite (get_lookup_None layer "type" Hty). simpl.
    unfold Dict.getitem. rewrite Hty. simpl. by eexists.
  - destruct (verify_config_layer build_file_manager x) as [out [e|entry]];
      simpl; [by eexists|].
    destruct (IH Hin (valid_set acc entry.1 entry.2)) as [e He].
    destruct (verify_layers build_file_manager rest _) as [out' r];
      simpl in *. by exists e.
Qed.

Lemma rmap_as_dict_elem (vs : list value) (ds : list dict) (d : dict) :
  rmap as_dict vs = Ok ds -> VDict d ∈ vs -> d ∈ ds.
Proof.
  revert ds. induction vs as [|v vs IH]; intros ds; simpl.
  - intros _ H. by apply elem_of_nil in H.
  - destruct (as_dict v) as [e|d'] eqn:Ev; simpl; [discriminate|].
    destruct (rmap as_dict vs) as [e|ds']; simpl; [discriminate|].
    intros [= <-] Hin. apply elem_of_cons in Hin as [<-|Hin].
    + injection Ev as <-. apply list_elem_of_here.
    + apply list_elem_of_further. by apply IH.
Qed.

(** A layer without the key [type], anywhere among the layers, stops
    [verify_config]: the run ends in an exception, no later than at that
    layer, and before any line about a split is printed. *)
Theorem verify_config_stops_without_type
    (build_file_manager : bfm_args -> result FileManager)
    (load_json : value -> result value) (cfg : dict) (layers : list value)
    (layer : dict) :
  Dict.lookup cfg "layers" = Some (VList layers) ->
  VDict layer ∈ layers ->
  Dict.lookup layer "type" = None ->
  exists (out : list event) (e : exn),
    verify_config build_file_manager load_json cfg = (out, inl e) /\
    Forall (fun ev => is_layer_event ev = true) out.
Proof.
  intros Hlayers Hin Hty. unfold verify_config, Dict.attr.
  rewrite Hlayers. simpl.
  destruct (rmap as_dict layers) as [e|ds] eqn:Hds; simpl.
  - exists [], e. by split.
  - pose proof (rmap_as_dict_elem _ _ _ Hds Hin) as Hd.
    destruct (verify_layers_stops build_file_manager ds [] layer Hd Hty)
      as [e He].
    pose proof (verify_layers_events build_file_manager ds []) as Hev.
    destruct (verify_layers build_file_manager ds []) as [out r];
      simpl in *. subst r. exists out, e. by split.
Qed.

Lemma verify_config_stops_without_type_witness :
  exists (out : list event) (e : exn),
    verify_config two_files_manager load_one_mapping
      [("layers", VList [VDict image_layer; VDict layer_without_type]);
       ("split", VDict [])]
    = (out, inl e) /\
    Forall (fun ev => is_layer_event ev = true) out.
Proof.
  apply (verify_config_stops_without_type two_files_manager load_one_mapping
           [("layers", VList [VDict image_layer; VDict layer_without_type]);
            ("split", VDict [])]
           [VDict image_layer; VDict layer_without_type] layer_without_type
           eq_refl); [|reflexivity].
  apply list_elem_of_further, list_elem_of_here.
Defined.

(** Without a split section [verify_config] never returns normally and
    prints nothing about splits: when the layers were verified without an
    exception, it prints their lines and ends by [SystemExit]. *)
Theorem verify_config_quits_without_split
    (build_file_manager : bfm_args -> result FileManager)
    (load_json : value -> result value) (cfg : dict) :
  Dict.lookup cfg "split" = None ->
  (exists (out : list event) (e : exn),
     verify_config build_file_manager load_json cfg = (out, inl e) /\
     Forall (fun ev => is_layer_event ev = true) out) /\
  (forall (layers : list value) (ds : list dict) (out : list event)
          (layer_is_valid : list (value * bool)),
     Dict.lookup cfg "layers" = Some (VList layers) ->
     rmap as_dict layers = Ok ds ->
     verify_layers build_file_manager ds [] = (out, Ok layer_is_valid) ->
     verify_config build_file_manager load_json cfg = (out, inl SystemExit)).
Proof.
  intros Hsplit. unfold verify_config, Dict.mem. rewrite Hsplit. simpl. split.
  - destruct (Dict.attr cfg "layers") as [e|ls]; simpl;
      [by exists [], e|].
    destruct (as_list ls) as [e|vs]; simpl; [by exists [], e|].
    destruct (rmap as_dict vs) as [e|ds]; simpl; [by exists [], e|].
    pose proof (verify_layers_events build_file_manager ds []) as Hev.
    destruct (verify_layers build_file_manager ds []) as [out [e|valid]];
      simpl in *.
    + by exists out, e.
    + exists (out ++ []), SystemExit. by rewrite app_nil_r.
  - intros layers ds out valid Hlayers Hds Hver. unfold Dict.attr.
    rewrite Hlayers. simpl. rewrite Hds. simpl. rewrite Hver. simpl.
    by rewrite app_nil_r.
Qed.

Lemma verify_config_quits_without_split_witness :
  exists (out : list event) (e : exn),
    verify_config two_files_manager load_one_mapping
      [("layers", VList [VDict image_layer])]
    = (out, inl e) /\
    Forall (fun ev => is_layer_event ev = true) out.
Proof.
  apply (verify_config_quits_without_split two_files_manager load_one_mapping
           [("layers", VList [VDict image_layer])]).
  reflexivity.
Defined.

Lemma flat_map_single {A B : Type} (f : A -> B) (l : list A) :
  flat_map (fun x => [f x]) l = map f l.
Proof. induction l as [|x l IH]; simpl; [done|]. by rewrite IH. Qed.

Lemma flat_map_nothing {A B : Type} (l : list A) :
  flat_map (fun _ : A => @nil B) l = [].
Proof. induction l as [|x l IH]; simpl; done. Qed.

(** In the loops over folds and splits, a layer recorded as invalid is
    passed over: when every layer is recorded as invalid, only the heading
    of each fold is printed, and no file manager is built. *)
Theorem verify_splits_passes_invalid_layers
    (build_file_manager : bfm_args -> result FileManager) (layers : list dict)
    (layer_is_valid : list (value * bool)) (split_file : value)
    (_splits : option (list value)) (folds : nat) :
  Forall (fun layer =>
            exists name, Dict.lookup layer "name" = Some name /\
                         valid_lookup layer_is_valid name = Ok false) layers ->
  verify_splits build_file_manager layers layer_is_valid split_file _splits folds
  = (map (fun fold => if (1 <? folds)%nat then EvVerifySplitsFold fold
                      else EvVerifySplits) (seq 0 folds), Ok tt).
Proof.
  intros Hinv. unfold verify_splits.
  rewrite (for_each_outputs _ _
             (fun fold => [if (1 <? folds)%nat then EvVerifySplitsFold fold
                           else EvVerifySplits])).
  { by rewrite flat_map_single. }
  intros fold _.
  assert (Hsplits :
    for_each _VALID_SPLITS (fun valid_split =>
      for_each layers (fun layer =>
        do* name := lift (Dict.attr layer "name") in
        do* ok := lift (valid_lookup layer_is_valid name) in
        if (ok : bool)
        then verify_split_layer build_file_manager split_file _splits fold
               valid_split layer
        else lift (Ok tt))) = ([], Ok tt)).
  { rewrite (for_each_outputs _ _ (fun _ => [])); [done|].
    intros valid_split _.
    rewrite (for_each_outputs _ _ (fun _ => []));
      [by rewrite flat_map_nothing|].
    intros layer Hlayer.
    destruct (proj1 (Forall_forall _ _) Hinv layer Hlayer)
      as (name & Hname & Hvalid).
    unfold Dict.attr. rewrite Hname. simpl. by rewrite Hvalid. }
  rewrite Hsplits. by destruct (1 <? folds)%nat.
Qed.

Lemma verify_splits_passes_invalid_layers_witness :
  verify_splits (fun _ => Raise OSError) [layer_without_type]
    [(VStr "img", false)] (VStr "splits.json")
    (Some [one_mapping; one_mapping]) 2
  = ([EvVerifySplitsFold 0; EvVerifySplitsFold 1], Ok tt).
Proof.
  apply (verify_splits_passes_invalid_layers (fun _ => Raise OSError)
           [layer_without_type] [(VStr "img", false)] (VStr "splits.json")
           (Some [one_mapping; one_mapping]) 2).
  repeat constructor. exists (VStr "img"). by split.
Defined.

(** For a valid layer without an entry of its own for the split, the split
    file decides: when the mapping of the fold names the split, a file
    manager is built from the unchanged layer for that split, split file and
    fold, and its number of files is printed; when it does not, the layer is
    reported as having no explicit split. *)
Theorem verify_split_layer_follows_split_file
    (build_file_manager : bfm_args -> result FileManager) (split_file : value)
    (folds : list value) (fold : nat) (valid_split : string) (layer d : dict)
    (name : string) (p ft : value) :
  Dict.lookup layer "name" = Some (VStr name) ->
  Dict.lookup layer valid_split = None ->
  Dict.lookup layer "path" = Some p ->
  Dict.lookup layer "file_type" = Some ft ->
  folds !! fold = Some (VDict d) ->
  verify_split_layer build_file_manager split_file (Some folds) fold
    valid_split layer
  = if Dict.mem valid_split d then
      match build_file_manager
              (MkArgs p ft (Dict.get_default layer "pattern" VNone)
                 (Dict.get_default layer "file_stack" (VBool false))
                 (Some valid_split) (Some split_file) (Some fold)) with
      | inl e => ([], inl e)
      | inr fm =>
          ([EvSplitFiles valid_split (VStr name) (List.length (files fm))],
           Ok tt)
      end
    else ([EvNoExplicitSplit valid_split (VStr name)], Ok tt).
Proof.
  intros Hname Hsplit Hp Hft Hfold.
  unfold verify_split_layer, Dict.attr, Dict.get_default, fold_splits.
  rewrite Hname, Hsplit. simpl. rewrite Hfold. simpl.
  destruct (Dict.mem valid_split d); simpl; [|done].
  rewrite Hp, Hft. simpl. by destruct (build_file_manager _).
Qed.

Lemma verify_split_layer_follows_split_file_witness :
  verify_split_layer two_files_manager (VStr "splits.json") (Some [one_mapping])
    0 "train" image_layer
  = ([EvSplitFiles "train" (VStr "img") 2], Ok tt) /\
  verify_split_layer two_files_manager (VStr "splits.json") (Some [one_mapping])
    0 "test" image_layer
  = ([EvNoExplicitSplit "test" (VStr "img")], Ok tt).
Proof.
  split.
  - exact (verify_split_layer_follows_split_file two_files_manager
             (VStr "splits.json") [one_mapping] 0 "train" image_layer _ "img"
             (VStr "/data") (VStr ".png") eq_refl eq_refl eq_refl eq_refl
             eq_refl).
  - exact (verify_split_layer_follows_split_file two_files_manager
             (VStr "splits.json") [one_mapping] 0 "test" image_layer _ "img"
             (VStr "/data") (VStr ".png") eq_refl eq_refl eq_refl eq_refl
             eq_refl).
Defined.

(* ===================================================================== *)
(** * File names of arrays                                                *)
(* ===================================================================== *)

Lemma append_not_same (s t : string) : t <> EmptyString -> s <> s +:+ t.
Proof.
  intros Ht H. apply (f_equal String.length) in H.
  rewrite string_length_app in H. destruct t; [done|]. simpl in H. lia.
Qed.

(** [save_npz] of an array, or of a dictionary without the keys [file] and
    [allow_pickle], to a path that does not end in [.npz] writes the file of
    that name with [.npz] appended and leaves the path itself as it was:
    loading the path given then finds what was there before, and fails when
    nothing was. *)
Theorem save_npz_appends_extension {ndarray : Type}
    (has_object_dtype : ndarray -> bool) (truth_value : ndarray -> option bool)
    (fs : gmap string (np.npz ndarray)) (data : npz_data ndarray)
    (path : string) (compress : bool) :
  np.endswith path ".npz" = false ->
  match data with
  | DataArray _ => True
  | DataDict d => plain_keys d
  end ->
  exists fs',
    save_npz has_object_dtype truth_value fs data path compress = Ok fs' /\
    is_Some (fs' !! (path +:+ ".npz")) /\
    load_npz has_object_dtype fs' path = load_npz has_object_dtype fs path /\
    (fs !! path = None -> load_npz has_object_dtype fs' path = Raise OSError).
Proof.
  intros Hext Hdata.
  assert (Hw : exists members,
             save_npz has_object_dtype truth_value fs data path compress
             = Ok (<[np.npz_name path := np.MkNpz ndarray compress members]> fs)).
  { destruct data as [d|a]; eexists;
      [by apply save_npz_dict|apply save_npz_array]. }
  destruct Hw as [m ->].
  unfold np.npz_name. rewrite Hext. eexists. split; [done|].
  assert (Hsame : (<[path +:+ ".npz" := np.MkNpz ndarray compress m]> fs) !! path
                  = fs !! path).
  { apply lookup_insert_ne. intros H. symmetry in H.
    by apply append_not_same in H. }
  split; [by rewrite lookup_insert_eq|].
  unfold load_npz, np.load. rewrite Hsame. split; [done|]. by intros ->.
Qed.

Lemma save_npz_appends_extension_witness :
  exists fs' : gmap string (np.npz sample_array),
    save_npz sample_has_object_dtype sample_truth_value ∅
      (DataArray (Numbers [7]%Z)) "volume" true = Ok fs' /\
    is_Some (fs' !! "volume.npz") /\
    load_npz sample_has_object_dtype fs' "volume" = Raise OSError.
Proof.
  destruct (save_npz_appends_extension sample_has_object_dtype
              sample_truth_value (∅ : gmap string (np.npz sample_array))
              (DataArray (Numbers [7]%Z)) "volume" true eq_refl I)
    as (fs' & Hsave & Hsome & _ & Hload).
  exists fs'. split; [exact Hsave|]. split; [exact Hsome|].
  apply Hload. apply lookup_empty.
Defined.

(** [save_npy] then [load_npy] of the file written, which is the path with
    [.npy] appended unless it ends so already, gives the array back with
    empty metadata, except that an array of Python objects, which is
    written, is refused on loading because pickles are not allowed; a path
    without [.npy] is itself left as it was. *)
Theorem save_npy_load_npy {ndarray : Type} (has_object_dtype : ndarray -> bool)
    (fs : gmap string ndarray) (array : ndarray) (path : string) :
  load_npy has_object_dtype (save_npy fs array path) (npy_name path)
  = (if has_object_dtype array then Raise ValueError else Ok (array, [])) /\
  (np.endswith path ".npy" = true -> npy_name path = path) /\
  (np.endswith path ".npy" = false ->
   load_npy has_object_dtype (save_npy fs array path) path
   = load_npy has_object_dtype fs path).
Proof.
  unfold load_npy, save_npy, np_load, np_save. split; [|split].
  - rewrite lookup_insert_eq. by destruct (has_object_dtype array).
  - unfold npy_name. by intros ->.
  - intros Hext. unfold npy_name. rewrite Hext.
    rewrite lookup_insert_ne; [done|]. intros H. symmetry in H.
    by apply append_not_same in H.
Qed.

(* ===================================================================== *)
(** * From a name to a path                                               *)
(* ===================================================================== *)

(** The suffix of a path holds one dot, its first character. *)
Lemma suffix_one_dot (p : PurePath) :
  Path.suffix p = EmptyString \/
  exists t, Path.suffix p = String "." t /\ Str.mem_char "." t = false.
Proof.
  unfold Path.suffix. destruct (Str.rcut "." (Path.name p)) as [[h t]|] eqn:E;
    [|by left].
  destruct (bool_decide _); [|by left].
  right. exists t. split; [done|]. by apply rcut_Some in E as [_ ?].
Qed.

(** For an extension of several parts, as [.nii.gz], the suffix of a name
    never equals the extension, so that [path_from_name] with extension
    always replaces the last suffix of the name by the whole extension, also
    when the name ends with the extension already. *)
Theorem path_from_name_compound_extension
    (resolve : PurePath -> result PurePath) (self : FileManager)
    (name : PathLike) (u : string) :
  file_type self = String "." u ->
  Str.mem_char "." u = true ->
  FileManager.path_from_name resolve self name true
  = (let* rel := Path.with_suffix (as_path name) (file_type self) in
     resolve (Path.truediv (as_path (path self)) rel)).
Proof.
  intros Hft Hu. unfold FileManager.path_from_name.
  rewrite bool_decide_eq_false_2; [done|].
  rewrite Hft. intros Hs.
  destruct (suffix_one_dot (as_path name)) as [H|(t & H & Ht)];
    rewrite H in Hs; [done|].
  injection Hs as ->. by rewrite Hu in Ht.
Qed.

Lemma path_from_name_compound_extension_witness :
  FileManager.path_from_name Ok
    (MkFileManager (PStr "/data") ".nii.gz" None None None false [])
    (PStr "scan.nii.gz") true
  = Ok (MkPath true ["data"; "scan.nii.nii.gz"]).
Proof.
  rewrite (path_from_name_compound_extension Ok
             (MkFileManager (PStr "/data") ".nii.gz" None None None false [])
             (PStr "scan.nii.gz") "nii.gz" eq_refl eq_refl).
  reflexivity.
Defined.

(** For a relative name that needs no change of suffix, and a root that
    [resolve] leaves as it is, [path_from_name] puts the name under the root
    and [name_from_path] of that path gives the name back. *)
Theorem path_from_name_name_from_path
    (resolve : PurePath -> result PurePath) (self : FileManager)
    (name : PathLike) (include_ext : bool) :
  let root := as_path (path self) in
  let rel := as_path name in
  include_ext = false \/ Path.suffix rel = file_type self ->
  anchor rel = false ->
  wf_path root -> wf_path rel ->
  resolve (Path.joinpath root (parts rel)) = Ok (Path.joinpath root (parts rel)) ->
  exists target : PurePath,
    FileManager.path_from_name resolve self name include_ext = Ok target /\
    target = Path.joinpath root (parts rel) /\
    FileManager.name_from_path self (FStr (Path.to_str target)) true
    = Ok (Path.to_str rel).
Proof.
  intros root rel Hext Hanchor Hroot Hrel Hres.
  exists (Path.joinpath root (parts rel)). split; [|split; [done|]].
  - unfold FileManager.path_from_name. fold rel root.
    assert (include_ext && negb (bool_decide (Path.suffix rel = file_type self))
            = false) as ->.
    { destruct Hext as [->|Hs]; [done|].
      rewrite bool_decide_eq_true_2 by done. apply andb_false_r. }
    simpl. unfold Path.truediv. by rewrite Hanchor.
  - rewrite name_from_path_of_file.
    + unfold rel_string. fold root. rewrite relative_to_joinpath.
      destruct rel as [a ps]. simpl in *. by subst a.
    + by exists (parts rel).
    + unfold wf_path, Path.joinpath. simpl. by apply Forall_app.
Qed.

Lemma path_from_name_name_from_path_witness :
  exists target : PurePath,
    FileManager.path_from_name Ok
      (MkFileManager (PStr "/data") ".ext" None None None false [])
      (PStr "sub/a_2.ext") true = Ok target /\
    target = MkPath true ["data"; "sub"; "a_2.ext"] /\
    FileManager.name_from_path
      (MkFileManager (PStr "/data") ".ext" None None None false [])
      (FStr (Path.to_str target)) true
    = Ok "sub/a_2.ext".
Proof.
  apply (path_from_name_name_from_path Ok
           (MkFileManager (PStr "/data") ".ext" None None None false [])
           (PStr "sub/a_2.ext") true).
  - by right.
  - reflexivity.
  - repeat constructor; done.
  - repeat constructor; done.
  - reflexivity.
Defined.

(* ===================================================================== *)
(** * Instances of the lemmas on errors                                   *)
(* ===================================================================== *)

Lemma stacked_collect_files_invalid_witness :
  FileManager.collect_files (FlatFS.glob underscore_dir)
    (MkFileManager (PStr "/data") ".ext" None None None false [])
  = Ok (MkFileManager (PStr "/data") ".ext" None None None false
          [MkPath true ["data"; "_0000.ext"];
           MkPath true ["data"; "sample_0000.ext"]]) /\
  FileManagerStacked.collect_files (FlatFS.glob underscore_dir)
    (MkFileManager (PStr "/data") ".ext" None None None false [])
  = Raise ValueError.
Proof.
  split; [reflexivity|].
  apply (stacked_collect_files_invalid (FlatFS.glob underscore_dir)
           (MkFileManager (PStr "/data") ".ext" None None None false []) _
           eq_refl).
  intros H. apply Forall_cons in H as [[H _] _]. by apply H.
Defined.

Lemma verify_layer_reports_witness :
  exists errs : list LayerError,
    verify_layer [("type", VStr "Image"); ("path", VStr "/data")]
    = Ok (bool_decide (errs = []), errs) /\
    MissingField "name" VNone ∈ errs /\
    MissingField "file_type" VNone ∈ errs /\
    MissingField "channels" VNone ∈ errs /\
    ChannelsNotInt VNone ∈ errs.
Proof.
  destruct (verify_layer_reports [("type", VStr "Image"); ("path", VStr "/data")]
              (VStr "Image") eq_refl) as (errs & Hv & Hreq & Himg & _).
  exists errs. split; [exact Hv|].
  destruct (Himg eq_refl) as [Hmiss Hint].
  split; [|split; [|split]].
  - apply (Hreq "name"); [|reflexivity].
    apply list_elem_of_In. simpl. tauto.
  - apply (Hreq "file_type"); [|reflexivity].
    apply list_elem_of_In. simpl. tauto.
  - by apply Hmiss.
  - by apply Hint.
Defined.
